(** * Axion MCP server: the tool registry, the request dispatch and the
    error normalisation of [index.js], embedded and verified.

    The JavaScript of [index.js] is embedded shallowly:
    - a JS string is the list of its UTF-16 code units;
    - a JS value reaching the program is [undefined] or a JSON value
      (the arguments and the payloads are both parsed JSON);
    - the argument bag is a finite map from property names to JSON values;
    - [throw], [try]/[catch] and the calls to [fetch] are the operations of
      a small monad that returns either a thrown error or a value, together
      with the list of the requests handed to [fetch]. *)

From Stdlib Require Import Ascii String NArith DecimalString.
From stdpp Require Import base option list gmap.

Set Warnings "-register-all".
Open Scope N_scope.

(** ** Strings *)

Module JsString.

(** A JS string: its UTF-16 code units, each below [0x10000]. *)
Definition jsstring : Type := list N.

(** The code units of an ASCII literal of the source. *)
Fixpoint js (s : String.string) : jsstring :=
  match s with
  | String.EmptyString => []
  | String.String a s' => N_of_ascii a :: js s'
  end.

Arguments js s%_string_scope.

(** [a === b] on strings. *)
Fixpoint str_eqb (a b : jsstring) : bool :=
  match a, b with
  | [], [] => true
  | x :: a', y :: b' => N.eqb x y && str_eqb a' b'
  | _, _ => false
  end.

(** [Array.prototype.join] on strings. *)
Fixpoint join (sep : jsstring) (parts : list jsstring) : jsstring :=
  match parts with
  | [] => []
  | [p] => p
  | p :: rest => p ++ sep ++ join sep rest
  end.

(** The decimal rendering of a non-negative integer, as [String(n)]
    gives it. *)
Definition decimal (n : N) : jsstring :=
  js (NilZero.string_of_uint (N.to_uint n)).

Definition hex_digit (upper : bool) (d : N) : N :=
  if d <? 10 then 48 + d
  else if upper then 55 + d else 87 + d.

(** [s] occurs in [t] as a contiguous substring. *)
Definition occurs_in (s t : jsstring) : Prop :=
  ∃ before after, t = before ++ s ++ after.

End JsString.
Export JsString.

(** ** Values *)

(** A JSON value. A number is carried by its [Number::toString]
    rendering: the program only interpolates numbers into strings and
    tests them for truthiness, and both are functions of the rendering
    ([+0] and [-0] both render as [0] and are both falsy). *)
Inductive Json : Type :=
| JNull
| JBool (b : bool)
| JNumber (rendering : jsstring)
| JString (s : jsstring)
| JArray (elements : list Json)
| JObject (members : list (jsstring * Json)).

(** A JS value of the program: [None] is [undefined]. *)
Definition value : Type := option Json.

Definition undefined : value := None.

(** [ToBoolean]. *)
Definition ToBoolean (v : value) : bool :=
  match v with
  | None => false
  | Some JNull => false
  | Some (JBool b) => b
  | Some (JNumber r) => negb (str_eqb r (js "0") || str_eqb r (js "NaN"))
  | Some (JString s) => negb (str_eqb s [])
  | Some (JArray _) => true
  | Some (JObject _) => true
  end.

(** [v !== undefined && v !== null && v !== ''] *)
Definition is_supplied (v : value) : bool :=
  match v with
  | None => false
  | Some JNull => false
  | Some (JString []) => false
  | Some _ => true
  end.

(** ** Errors *)

(** A thrown error object: its constructor's name and its [message]. *)
Record JsError : Type := mkJsError {
  error_name : jsstring;
  message : jsstring
}.

(** [new Error(msg)] *)
Definition Error (msg : jsstring) : JsError := mkJsError (js "Error") msg.
Definition TypeError (msg : jsstring) : JsError := mkJsError (js "TypeError") msg.
Definition URIError (msg : jsstring) : JsError := mkJsError (js "URIError") msg.

(** The outcome of an evaluation that touches no network: the error it
    throws, or its value. *)
Definition Exn (A : Type) : Type := JsError + A.

(** ** Synchronous code: [throw] and sequencing *)

Definition bindX {A B : Type} (m : Exn A) (k : A → Exn B) : Exn B :=
  match m with
  | inl e => inl e
  | inr a => k a
  end.

Notation "'let?' x ':=' m 'in' k" := (bindX m (fun x => k))
  (at level 10, x pattern, m at level 100, k at level 200).

(** [xs.map(f)] for an [f] that may throw: the first throw ends the loop. *)
Fixpoint mapX {A B : Type} (f : A → Exn B) (xs : list A) : Exn (list B) :=
  match xs with
  | [] => inr []
  | x :: rest =>
      let? y := f x in
      let? ys := mapX f rest in
      inr (y :: ys)
  end.

(** ** [ToString] *)

Definition cannot_convert : JsError :=
  TypeError (js "Cannot convert object to primitive value").

(** [ToString] on a JSON value. An array is joined with commas, its
    [null] elements rendered empty and the others converted in turn. An
    object goes through [OrdinaryToPrimitive]: without a member named
    [toString] it inherits [Object.prototype.toString] and renders as
    [[object Object]]; with one (which parsed JSON never makes callable)
    neither [toString] nor [valueOf] yields a primitive, and the
    conversion throws [TypeError]. *)
Fixpoint JsonToString (j : Json) : Exn jsstring :=
  match j with
  | JNull => inr (js "null")
  | JBool true => inr (js "true")
  | JBool false => inr (js "false")
  | JNumber r => inr r
  | JString s => inr s
  | JArray xs =>
      let? parts :=
        mapX (fun x => match x with JNull => inr [] | _ => JsonToString x end) xs in
      inr (join (js ",") parts)
  | JObject members =>
      if existsb (fun member => str_eqb (fst member) (js "toString")) members
      then inl cannot_convert
      else inr (js "[object Object]")
  end.

(** [ToString], as a template literal [`${v}`] applies it. *)
Definition ToString (v : value) : Exn jsstring :=
  match v with
  | None => inr (js "undefined")
  | Some j => JsonToString j
  end.

(** ** [encodeURIComponent] *)

Module URI.

Definition is_alpha (c : N) : bool :=
  ((65 <=? c) && (c <=? 90)) || ((97 <=? c) && (c <=? 122)).
Definition is_digit (c : N) : bool := (48 <=? c) && (c <=? 57).

(** The marks [- _ . ! ~ * ' ( )] *)
Definition is_mark (c : N) : bool :=
  existsb (N.eqb c) [45; 95; 46; 33; 126; 42; 39; 40; 41].

(** The characters [encodeURIComponent] leaves alone. *)
Definition unreserved (c : N) : bool := is_alpha c || is_digit c || is_mark c.

Definition is_lead_surrogate (c : N) : bool := (0xD800 <=? c) && (c <=? 0xDBFF).
Definition is_trail_surrogate (c : N) : bool := (0xDC00 <=? c) && (c <=? 0xDFFF).

Definition code_point_of_pair (lead trail : N) : N :=
  (lead - 0xD800) * 0x400 + (trail - 0xDC00) + 0x10000.

(** The UTF-8 octets of a code point. *)
Definition utf8 (cp : N) : list N :=
  if cp <? 0x80 then [cp]
  else if cp <? 0x800 then
    [N.lor 0xC0 (N.shiftr cp 6); N.lor 0x80 (N.land cp 0x3F)]
  else if cp <? 0x10000 then
    [N.lor 0xE0 (N.shiftr cp 12);
     N.lor 0x80 (N.land (N.shiftr cp 6) 0x3F);
     N.lor 0x80 (N.land cp 0x3F)]
  else
    [N.lor 0xF0 (N.shiftr cp 18);
     N.lor 0x80 (N.land (N.shiftr cp 12) 0x3F);
     N.lor 0x80 (N.land (N.shiftr cp 6) 0x3F);
     N.lor 0x80 (N.land cp 0x3F)].

(** [%XX], in upper-case hexadecimal. *)
Definition percent (octet : N) : jsstring :=
  [37; hex_digit true (N.shiftr octet 4); hex_digit true (N.land octet 0xF)].

Definition escape (cp : N) : jsstring := concat (map percent (utf8 cp)).

Definition malformed : JsError := URIError (js "URI malformed").

(** [encodeURIComponent] on a string: unreserved code units stay, every
    other code point becomes the escapes of its UTF-8 octets, and an
    unpaired surrogate throws [URIError]. *)
Fixpoint encode (s : jsstring) : Exn jsstring :=
  match s with
  | [] => inr []
  | c :: rest =>
      if unreserved c then
        match encode rest with
        | inr out => inr (c :: out)
        | inl e => inl e
        end
      else if is_trail_surrogate c then inl malformed
      else if is_lead_surrogate c then
        match rest with
        | d :: rest' =>
            if is_trail_surrogate d then
              match encode rest' with
              | inr out => inr (escape (code_point_of_pair c d) ++ out)
              | inl e => inl e
              end
            else inl malformed
        | [] => inl malformed
        end
      else
        match encode rest with
        | inr out => inr (escape c ++ out)
        | inl e => inl e
        end
  end.

End URI.

(** [encodeURIComponent(v)]: the argument goes through [ToString] first. *)
Definition encodeURIComponent (v : value) : Exn jsstring :=
  let? s := ToString v in
  URI.encode s.

(** ** [buildQueryString] *)

(** The object literal handed to [buildQueryString]: its entries in the
    order they are written, which is the order [Object.entries] lists
    them in (the literals of this program have no array index among
    their keys). *)
Definition Params : Type := list (jsstring * value).

Definition buildQueryString (params : Params) : Exn jsstring :=
  let? filtered :=
    mapX (fun '(key, value) =>
            let? encoded := encodeURIComponent value in
            inr (key ++ js "=" ++ encoded))
         (List.filter (fun '(_, value) => is_supplied value) params) in
  inr (if 0 <? N.of_nat (length filtered)
       then js "?" ++ join (js "&") filtered
       else js "").

(** ** [JSON.stringify(value, null, 2)] *)

Module JSON.

Definition hex4 (c : N) : jsstring :=
  [hex_digit false (N.land (N.shiftr c 12) 0xF);
   hex_digit false (N.land (N.shiftr c 8) 0xF);
   hex_digit false (N.land (N.shiftr c 4) 0xF);
   hex_digit false (N.land c 0xF)].

(** [\uXXXX] *)
Definition unicode_escape (c : N) : jsstring := js "\u" ++ hex4 c.

(** The escape of one code unit that is no surrogate. A string literal
    of this file has no escapes of its own: [js "\n"] is a backslash and
    an [n]. *)
Definition quote_unit (c : N) : jsstring :=
  if c =? 8 then js "\b"
  else if c =? 9 then js "\t"
  else if c =? 10 then js "\n"
  else if c =? 12 then js "\f"
  else if c =? 13 then js "\r"
  else if c =? 34 then [92; 34]
  else if c =? 92 then js "\\"
  else if c <? 32 then unicode_escape c
  else [c].

(** The body of [QuoteJSONString]: the short escapes, [\uXXXX] for the
    other control characters and for unpaired surrogates, and every
    other code point as it is. *)
Fixpoint quote_body (s : jsstring) : jsstring :=
  match s with
  | [] => []
  | c :: rest =>
      if URI.is_trail_surrogate c then unicode_escape c ++ quote_body rest
      else if URI.is_lead_surrogate c then
        match rest with
        | d :: rest' =>
            if URI.is_trail_surrogate d then c :: d :: quote_body rest'
            else unicode_escape c ++ quote_body rest
        | [] => unicode_escape c
        end
      else quote_unit c ++ quote_body rest
  end.

Definition quote (s : jsstring) : jsstring := [34] ++ quote_body s ++ [34].

Definition gap : jsstring := js "  ".

Definition is_finite (rendering : jsstring) : bool :=
  negb (str_eqb rendering (js "NaN") || str_eqb rendering (js "Infinity")
        || str_eqb rendering (js "-Infinity")).

(** [SerializeJSONProperty] with the current [indent]; the new line of
    [\n] is code unit 10. *)
Fixpoint serialize (indent : jsstring) (j : Json) : jsstring :=
  match j with
  | JNull => js "null"
  | JBool true => js "true"
  | JBool false => js "false"
  | JNumber r => if is_finite r then r else js "null"
  | JString s => quote s
  | JArray xs =>
      let stepback := indent in
      let indent := indent ++ gap in
      let partial := map (serialize indent) xs in
      match partial with
      | [] => js "[]"
      | _ =>
          let separator := js "," ++ [10] ++ indent in
          js "[" ++ [10] ++ indent ++ join separator partial
            ++ [10] ++ stepback ++ js "]"
      end
  | JObject members =>
      let stepback := indent in
      let indent := indent ++ gap in
      let partial :=
        map (fun member =>
               quote (fst member) ++ js ":" ++ js " "
                 ++ serialize indent (snd member)) members in
      match partial with
      | [] => js "{}"
      | _ =>
          let separator := js "," ++ [10] ++ indent in
          js "{" ++ [10] ++ indent ++ join separator partial
            ++ [10] ++ stepback ++ js "}"
      end
  end.

(** [JSON.stringify(value, null, 2)] on a JSON value. *)
Definition stringify (j : Json) : jsstring := serialize [] j.

End JSON.

(** ** The network and asynchronous code *)

(** A header object. *)
Definition Headers : Type := list (jsstring * jsstring).

(** An object with string values: its entries in the order of its own
    property keys, which lists the array indices first, in ascending
    order, and then the other names in the order of their creation. *)

(** [obj[key]]: [None] is [undefined]. *)
Fixpoint get (obj : Headers) (key : jsstring) : option jsstring :=
  match obj with
  | [] => None
  | (k, v) :: rest => if str_eqb k key then Some v else get rest key
  end.

(** The value of a decimal numeral, when every code unit is a digit. *)
Fixpoint numeral (s : jsstring) (acc : N) : option N :=
  match s with
  | [] => Some acc
  | c :: rest =>
      if (48 <=? c) && (c <=? 57) then numeral rest (10 * acc + (c - 48))
      else None
  end.

(** The array index a property name denotes, when it is one: the
    canonical numeral, without a leading zero, of an integer below
    [2^32 - 1]. *)
Definition array_index (key : jsstring) : option N :=
  match key with
  | [] => None
  | c :: rest =>
      if (c =? 48) && negb (str_eqb rest []) then None
      else match numeral key 0 with
           | Some n => if n <? 4294967295 then Some n else None
           | None => None
           end
  end.

(** Whether a new property [key] is listed before the existing property
    [k]. *)
Definition precedes (key k : jsstring) : bool :=
  match array_index key, array_index k with
  | Some n, Some m => n <? m
  | Some _, None => true
  | None, _ => false
  end.

(** A property that the object does not have yet takes its place in the
    order of the keys. *)
Fixpoint define (obj : Headers) (key v : jsstring) : Headers :=
  match obj with
  | [] => [(key, v)]
  | (k, w) :: rest =>
      if precedes key k then (key, v) :: (k, w) :: rest
      else (k, w) :: define rest key v
  end.

(** A property that the object has keeps its place and takes the new
    value. *)
Fixpoint update (obj : Headers) (key v : jsstring) : Headers :=
  match obj with
  | [] => []
  | (k, w) :: rest =>
      if str_eqb k key then (k, v) :: rest else (k, w) :: update rest key v
  end.

(** [obj[key] = v] *)
Definition assign (obj : Headers) (key v : jsstring) : Headers :=
  match get obj key with
  | Some _ => update obj key v
  | None => define obj key v
  end.

(** [{...obj, ...more}] *)
Definition spread (obj more : Headers) : Headers :=
  fold_left (fun acc entry => assign acc (fst entry) (snd entry)) more obj.

(** The second argument of [fetch], and the [options] of
    [makeApiRequest]: an absent property is [None]. *)
Record RequestInit : Type := mkRequestInit {
  method : option jsstring;
  headers : option Headers
}.

(** One call [fetch(url, init)]. *)
Record Request : Type := mkRequest {
  url : jsstring;
  init : RequestInit
}.

(** What the program reads of a [Response]: its [status], and what
    [await response.text()] and [await response.json()] give, each of
    which may reject. *)
Record Response : Type := mkResponse {
  status : N;
  text : Exn jsstring;
  json : Exn Json
}.

(** [response.ok] *)
Definition ok (r : Response) : bool := (200 <=? status r) && (status r <=? 299).

(** The surroundings of a call: [process.env.API_KEY] ([None] when the
    variable is unset) and the behaviour of [fetch], which rejects with an
    error or resolves to a response. *)
Record Env : Type := mkEnv {
  API_KEY : option jsstring;
  fetch : Request → Exn Response
}.

(** An asynchronous computation: run in its surroundings, it throws or
    returns, and leaves the list of the requests it handed to [fetch]. *)
Definition Eff (A : Type) : Type := Env → Exn A * list Request.

Definition ret {A : Type} (a : A) : Eff A := fun _ => (inr a, []).

Definition throw {A : Type} (e : JsError) : Eff A := fun _ => (inl e, []).

Definition bindE {A B : Type} (m : Eff A) (k : A → Eff B) : Eff B :=
  fun env =>
    match m env with
    | (inl e, log) => (inl e, log)
    | (inr a, log) =>
        let '(r, log') := k a env in (r, log ++ log')
    end.

(** [try { m } catch (error) { handler(error) }] *)
Definition try_catch {A : Type} (m : Eff A) (handler : JsError → Eff A) : Eff A :=
  fun env =>
    match m env with
    | (inl e, log) =>
        let '(r, log') := handler e env in (r, log ++ log')
    | (inr a, log) => (inr a, log)
    end.

(** Synchronous code inside an asynchronous function. *)
Definition sync {A : Type} (m : Exn A) : Eff A := fun _ => (m, []).

(** [await fetch(url, init)] *)
Definition await_fetch (req : Request) : Eff Response :=
  fun env => (fetch env req, [req]).

(** The variable [API_KEY] of the module. *)
Definition read_API_KEY : Eff (option jsstring) := fun env => (inr (API_KEY env), []).

Notation "'let*' x ':=' m 'in' k" := (bindE m (fun x => k))
  (at level 10, x pattern, m at level 100, k at level 200).

Definition API_BASE_URL : jsstring := js "https://api.axionquant.com/".

(** [API_KEY && { 'Authorization': `Bearer ${API_KEY}` }], spread: nothing
    when the key is [undefined] or empty. *)
Definition authorization (key : option jsstring) : Headers :=
  match key with
  | Some (c :: k) => [(js "Authorization", js "Bearer " ++ c :: k)]
  | _ => []
  end.

Definition makeApiRequest (endpoint : jsstring) (options : RequestInit) : Eff Json :=
  let url := API_BASE_URL ++ endpoint in
  let* key := read_API_KEY in
  let headers :=
    spread (spread [(js "Content-Type", js "application/json")] (authorization key))
           (default [] (headers options)) in
  try_catch
    (let* response :=
       await_fetch (mkRequest url (mkRequestInit (method options) (Some headers))) in
     if negb (ok response) then
       let* errorText := sync (text response) in
       throw (Error (js "API request failed: " ++ decimal (status response)
                       ++ js " - " ++ errorText))
     else
       sync (json response))
    (fun error =>
       throw (Error (js "Failed to fetch from " ++ url ++ js ": " ++ message error))).

(** ** The tool catalog *)

(** The schema of one parameter. *)
Record PropertySchema : Type := mkPropertySchema {
  type_ : jsstring;
  description_ : jsstring;
  minimum : option Z;
  maximum : option Z
}.

(** [inputSchema]: the parameters in their declaration order, and the
    [required] list when the definition has one. *)
Record InputSchema : Type := mkInputSchema {
  type : jsstring;
  properties : list (jsstring * PropertySchema);
  required : option (list jsstring)
}.

Record ToolDefinition : Type := mkToolDefinition {
  name : jsstring;
  description : jsstring;
  inputSchema : InputSchema
}.

(** The [tools] array the [ListToolsRequestSchema] handler returns. *)
Definition tools : list ToolDefinition :=
  [
    {| name := js "credit_search";
       description := js "Search for credit entities by name, sector, country, or state";
       inputSchema :=
         {| type := js "object";
            properties :=
              [ (js "query", {| type_ := js "string";
                     description_ := js "Search query (organization name)";
                     minimum := None; maximum := None |}) ];
            required := None |} |};
    {| name := js "credit_ratings";
       description := js "Get credit ratings for a specific organization by ID";
       inputSchema :=
         {| type := js "object";
            properties :=
              [ (js "id", {| type_ := js "string";
                     description_ := js "Organization ID (from search results)";
                     minimum := None; maximum := None |}) ];
            required := Some [js "id"] |} |};
    {| name := js "econ_search";
       description := js "Search for economic datasets (FRED)";
       inputSchema :=
         {| type := js "object";
            properties :=
              [ (js "query", {| type_ := js "string";
                     description_ := js "Search query for economic indicators";
                     minimum := None; maximum := None |}) ];
            required := Some [js "query"] |} |};
    {| name := js "econ_dataset";
       description := js "Get economic dataset time series data by ID";
       inputSchema :=
         {| type := js "object";
            properties :=
              [ (js "id", {| type_ := js "string";
                     description_ := js "Dataset ID (from search results, e.g., 'PMAIZMTUSDM')";
                     minimum := None; maximum := None |}) ];
            required := Some [js "id"] |} |};
    {| name := js "econ_calendar";
       description := js "Get economic calendar events with filtering options";
       inputSchema :=
         {| type := js "object";
            properties :=
              [ (js "from", {| type_ := js "string";
                     description_ := js "Start date (YYYY-MM-DD)";
                     minimum := None; maximum := None |});
                (js "to", {| type_ := js "string";
                     description_ := js "End date (YYYY-MM-DD)";
                     minimum := None; maximum := None |});
                (js "country", {| type_ := js "string";
                     description_ := js "Country code or comma-separated list (e.g., 'US' or 'US,GB,JP')";
                     minimum := None; maximum := None |});
                (js "minImportance", {| type_ := js "integer";
                     description_ := js "Minimum importance level (0-3, where 3 is highest)";
                     minimum := Some (-1)%Z; maximum := Some (3)%Z |});
                (js "currency", {| type_ := js "string";
                     description_ := js "Currency code or comma-separated list (e.g., 'USD' or 'USD,EUR,GBP')";
                     minimum := None; maximum := None |});
                (js "category", {| type_ := js "string";
                     description_ := js "Category or comma-separated list (e.g., 'gov' or 'gov,infl')";
                     minimum := None; maximum := None |}) ];
            required := None |} |};
    {| name := js "esg_data";
       description := js "Get ESG (Environmental, Social, Governance) scores for a specific ticker";
       inputSchema :=
         {| type := js "object";
            properties :=
              [ (js "ticker", {| type_ := js "string";
                     description_ := js "Stock ticker symbol (e.g., 'AAPL' for Apple)";
                     minimum := None; maximum := None |}) ];
            required := Some [js "ticker"] |} |};
    {| name := js "etf_fund";
       description := js "Get ETF fund information including ratings, metrics, and classification";
       inputSchema :=
         {| type := js "object";
            properties :=
              [ (js "ticker", {| type_ := js "string";
                     description_ := js "ETF ticker symbol (e.g., 'SPY' for SPDR S&P 500 ETF Trust)";
                     minimum := None; maximum := None |}) ];
            required := Some [js "ticker"] |} |};
    {| name := js "etf_weights";
       description := js "Get ETF sector and region allocation weights";
       inputSchema :=
         {| type := js "object";
            properties :=
              [ (js "ticker", {| type_ := js "string";
                     description_ := js "ETF ticker symbol (e.g., 'SPY' for SPDR S&P 500 ETF Trust)";
                     minimum := None; maximum := None |}) ];
            required := Some [js "ticker"] |} |};
    {| name := js "etf_holdings";
       description := js "Get ETF top holdings including weight, shares, and market value";
       inputSchema :=
         {| type := js "object";
            properties :=
              [ (js "ticker", {| type_ := js "string";
                     description_ := js "ETF ticker symbol (e.g., 'SPY' for SPDR S&P 500 ETF Trust)";
                     minimum := None; maximum := None |}) ];
            required := Some [js "ticker"] |} |};
    {| name := js "etf_exposure";
       description := js "Get which other ETFs hold a specific ticker (inverse exposure)";
       inputSchema :=
         {| type := js "object";
            properties :=
              [ (js "ticker", {| type_ := js "string";
                     description_ := js "Stock ticker symbol (e.g., 'AAPL' for Apple) to find ETFs that hold it";
                     minimum := None; maximum := None |}) ];
            required := Some [js "ticker"] |} |};
    {| name := js "news_ticker";
       description := js "Get news for a specific company by ticker symbol";
       inputSchema :=
         {| type := js "object";
            properties :=
              [ (js "ticker", {| type_ := js "string";
                     description_ := js "Stock ticker symbol (e.g., 'AAPL' for Apple)";
                     minimum := None; maximum := None |}) ];
            required := Some [js "ticker"] |} |};
    {| name := js "news_country";
       description := js "Get news for a specific country";
       inputSchema :=
         {| type := js "object";
            properties :=
              [ (js "country", {| type_ := js "string";
                     description_ := js "Country name or code (e.g., 'US', 'United States')";
                     minimum := None; maximum := None |}) ];
            required := Some [js "country"] |} |};
    {| name := js "news_category";
       description := js "Get news for a specific category";
       inputSchema :=
         {| type := js "object";
            properties :=
              [ (js "category", {| type_ := js "string";
                     description_ := js "News category (e.g., 'business', 'technology', 'politics')";
                     minimum := None; maximum := None |}) ];
            required := Some [js "category"] |} |};
    {| name := js "news_general";
       description := js "Get general news headlines";
       inputSchema :=
         {| type := js "object";
            properties := [];
            required := None |} |};
    {| name := js "sentiment_social";
       description := js "Get social media sentiment for a specific ticker (from Google, Reddit, Twitter)";
       inputSchema :=
         {| type := js "object";
            properties :=
              [ (js "ticker", {| type_ := js "string";
                     description_ := js "Stock ticker symbol (e.g., 'AAPL' for Apple)";
                     minimum := None; maximum := None |}) ];
            required := Some [js "ticker"] |} |};
    {| name := js "sentiment_news";
       description := js "Get news sentiment for a specific ticker";
       inputSchema :=
         {| type := js "object";
            properties :=
              [ (js "ticker", {| type_ := js "string";
                     description_ := js "Stock ticker symbol (e.g., 'AAPL' for Apple)";
                     minimum := None; maximum := None |}) ];
            required := Some [js "ticker"] |} |};
    {| name := js "sentiment_analyst";
       description := js "Get analyst/AI sentiment for a specific ticker";
       inputSchema :=
         {| type := js "object";
            properties :=
              [ (js "ticker", {| type_ := js "string";
                     description_ := js "Stock ticker symbol (e.g., 'AAPL' for Apple)";
                     minimum := None; maximum := None |}) ];
            required := Some [js "ticker"] |} |};
    {| name := js "supply_chain_customers";
       description := js "Get supply chain customers for a specific company by ticker symbol";
       inputSchema :=
         {| type := js "object";
            properties :=
              [ (js "ticker", {| type_ := js "string";
                     description_ := js "Stock ticker symbol (e.g., 'AAPL' for Apple)";
                     minimum := None; maximum := None |}) ];
            required := Some [js "ticker"] |} |};
    {| name := js "supply_chain_peers";
       description := js "Get supply chain peers (competitors) for a specific company by ticker symbol";
       inputSchema :=
         {| type := js "object";
            properties :=
              [ (js "ticker", {| type_ := js "string";
                     description_ := js "Stock ticker symbol (e.g., 'AAPL' for Apple)";
                     minimum := None; maximum := None |}) ];
            required := Some [js "ticker"] |} |};
    {| name := js "supply_chain_suppliers";
       description := js "Get supply chain suppliers for a specific company by ticker symbol";
       inputSchema :=
         {| type := js "object";
            properties :=
              [ (js "ticker", {| type_ := js "string";
                     description_ := js "Stock ticker symbol (e.g., 'AAPL' for Apple)";
                     minimum := None; maximum := None |}) ];
            required := Some [js "ticker"] |} |};
    {| name := js "profiles_asset";
       description := js "Get asset profile information for a specific ticker";
       inputSchema :=
         {| type := js "object";
            properties :=
              [ (js "ticker", {| type_ := js "string";
                     description_ := js "Stock ticker symbol (e.g., 'AAPL' for Apple)";
                     minimum := None; maximum := None |}) ];
            required := Some [js "ticker"] |} |};
    {| name := js "profiles_recommendation";
       description := js "Get recommendation trend for a specific ticker";
       inputSchema :=
         {| type := js "object";
            properties :=
              [ (js "ticker", {| type_ := js "string";
                     description_ := js "Stock ticker symbol (e.g., 'AAPL' for Apple)";
                     minimum := None; maximum := None |}) ];
            required := Some [js "ticker"] |} |};
    {| name := js "profiles_cashflow";
       description := js "Get cash flow statement history for a specific ticker";
       inputSchema :=
         {| type := js "object";
            properties :=
              [ (js "ticker", {| type_ := js "string";
                     description_ := js "Stock ticker symbol (e.g., 'AAPL' for Apple)";
                     minimum := None; maximum := None |}) ];
            required := Some [js "ticker"] |} |};
    {| name := js "profiles_trend_index";
       description := js "Get index trend information for a specific ticker";
       inputSchema :=
         {| type := js "object";
            properties :=
              [ (js "ticker", {| type_ := js "string";
                     description_ := js "Stock ticker symbol (e.g., 'AAPL' for Apple)";
                     minimum := None; maximum := None |}) ];
            required := Some [js "ticker"] |} |};
    {| name := js "profiles_statistics";
       description := js "Get default key statistics for a specific ticker";
       inputSchema :=
         {| type := js "object";
            properties :=
              [ (js "ticker", {| type_ := js "string";
                     description_ := js "Stock ticker symbol (e.g., 'AAPL' for Apple)";
                     minimum := None; maximum := None |}) ];
            required := Some [js "ticker"] |} |};
    {| name := js "profiles_income";
       description := js "Get income statement history for a specific ticker";
       inputSchema :=
         {| type := js "object";
            properties :=
              [ (js "ticker", {| type_ := js "string";
                     description_ := js "Stock ticker symbol (e.g., 'AAPL' for Apple)";
                     minimum := None; maximum := None |}) ];
            required := Some [js "ticker"] |} |};
    {| name := js "profiles_fund";
       description := js "Get fund ownership data for a specific ticker";
       inputSchema :=
         {| type := js "object";
            properties :=
              [ (js "ticker", {| type_ := js "string";
                     description_ := js "Stock ticker symbol (e.g., 'AAPL' for Apple)";
                     minimum := None; maximum := None |}) ];
            required := Some [js "ticker"] |} |};
    {| name := js "profiles_summary";
       description := js "Get summary detail information for a specific ticker";
       inputSchema :=
         {| type := js "object";
            properties :=
              [ (js "ticker", {| type_ := js "string";
                     description_ := js "Stock ticker symbol (e.g., 'AAPL' for Apple)";
                     minimum := None; maximum := None |}) ];
            required := Some [js "ticker"] |} |};
    {| name := js "profiles_insiders";
       description := js "Get insider holders information for a specific ticker";
       inputSchema :=
         {| type := js "object";
            properties :=
              [ (js "ticker", {| type_ := js "string";
                     description_ := js "Stock ticker symbol (e.g., 'AAPL' for Apple)";
                     minimum := None; maximum := None |}) ];
            required := Some [js "ticker"] |} |};
    {| name := js "profiles_calendar";
       description := js "Get calendar events for a specific ticker";
       inputSchema :=
         {| type := js "object";
            properties :=
              [ (js "ticker", {| type_ := js "string";
                     description_ := js "Stock ticker symbol (e.g., 'AAPL' for Apple)";
                     minimum := None; maximum := None |}) ];
            required := Some [js "ticker"] |} |};
    {| name := js "profiles_balancesheet";
       description := js "Get balance sheet history for a specific ticker";
       inputSchema :=
         {| type := js "object";
            properties :=
              [ (js "ticker", {| type_ := js "string";
                     description_ := js "Stock ticker symbol (e.g., 'AAPL' for Apple)";
                     minimum := None; maximum := None |}) ];
            required := Some [js "ticker"] |} |};
    {| name := js "profiles_trend_earnings";
       description := js "Get earnings trend for a specific ticker";
       inputSchema :=
         {| type := js "object";
            properties :=
              [ (js "ticker", {| type_ := js "string";
                     description_ := js "Stock ticker symbol (e.g., 'AAPL' for Apple)";
                     minimum := None; maximum := None |}) ];
            required := Some [js "ticker"] |} |};
    {| name := js "profiles_institution";
       description := js "Get institution ownership data for a specific ticker";
       inputSchema :=
         {| type := js "object";
            properties :=
              [ (js "ticker", {| type_ := js "string";
                     description_ := js "Stock ticker symbol (e.g., 'AAPL' for Apple)";
                     minimum := None; maximum := None |}) ];
            required := Some [js "ticker"] |} |};
    {| name := js "profiles_ownership";
       description := js "Get major holders breakdown for a specific ticker";
       inputSchema :=
         {| type := js "object";
            properties :=
              [ (js "ticker", {| type_ := js "string";
                     description_ := js "Stock ticker symbol (e.g., 'AAPL' for Apple)";
                     minimum := None; maximum := None |}) ];
            required := Some [js "ticker"] |} |};
    {| name := js "profiles_earnings";
       description := js "Get earnings history for a specific ticker";
       inputSchema :=
         {| type := js "object";
            properties :=
              [ (js "ticker", {| type_ := js "string";
                     description_ := js "Stock ticker symbol (e.g., 'AAPL' for Apple)";
                     minimum := None; maximum := None |}) ];
            required := Some [js "ticker"] |} |};
    {| name := js "profiles_info";
       description := js "Get summary profile information for a specific ticker";
       inputSchema :=
         {| type := js "object";
            properties :=
              [ (js "ticker", {| type_ := js "string";
                     description_ := js "Stock ticker symbol (e.g., 'AAPL' for Apple)";
                     minimum := None; maximum := None |}) ];
            required := Some [js "ticker"] |} |};
    {| name := js "profiles_activity";
       description := js "Get net share purchase activity for a specific ticker";
       inputSchema :=
         {| type := js "object";
            properties :=
              [ (js "ticker", {| type_ := js "string";
                     description_ := js "Stock ticker symbol (e.g., 'AAPL' for Apple)";
                     minimum := None; maximum := None |}) ];
            required := Some [js "ticker"] |} |};
    {| name := js "profiles_transactions";
       description := js "Get insider transactions for a specific ticker";
       inputSchema :=
         {| type := js "object";
            properties :=
              [ (js "ticker", {| type_ := js "string";
                     description_ := js "Stock ticker symbol (e.g., 'AAPL' for Apple)";
                     minimum := None; maximum := None |}) ];
            required := Some [js "ticker"] |} |};
    {| name := js "profiles_financials";
       description := js "Get financial data for a specific ticker";
       inputSchema :=
         {| type := js "object";
            properties :=
              [ (js "ticker", {| type_ := js "string";
                     description_ := js "Stock ticker symbol (e.g., 'AAPL' for Apple)";
                     minimum := None; maximum := None |}) ];
            required := Some [js "ticker"] |} |};
    {| name := js "profiles_traffic";
       description := js "Get website traffic data for a specific ticker";
       inputSchema :=
         {| type := js "object";
            properties :=
              [ (js "ticker", {| type_ := js "string";
                     description_ := js "Stock ticker symbol (e.g., 'AAPL' for Apple)";
                     minimum := None; maximum := None |}) ];
            required := Some [js "ticker"] |} |};
    {| name := js "crypto_tickers";
       description := js "Get list of cryptocurrency tickers, optionally filtered by type";
       inputSchema :=
         {| type := js "object";
            properties :=
              [ (js "type", {| type_ := js "string";
                     description_ := js "Filter by type (e.g., 'spot')";
                     minimum := None; maximum := None |}) ];
            required := None |} |};
    {| name := js "crypto_ticker";
       description := js "Get details for a specific cryptocurrency by ticker symbol";
       inputSchema :=
         {| type := js "object";
            properties :=
              [ (js "ticker", {| type_ := js "string";
                     description_ := js "Cryptocurrency ticker symbol (e.g., 'BTC', 'ETH')";
                     minimum := None; maximum := None |}) ];
            required := Some [js "ticker"] |} |};
    {| name := js "crypto_prices";
       description := js "Get historical price data for a cryptocurrency ticker";
       inputSchema :=
         {| type := js "object";
            properties :=
              [ (js "ticker", {| type_ := js "string";
                     description_ := js "Cryptocurrency ticker symbol (e.g., 'BTC', 'ETH')";
                     minimum := None; maximum := None |}) ];
            required := Some [js "ticker"] |} |};
    {| name := js "forex_tickers";
       description := js "Get list of forex tickers with optional filtering by country or exchange";
       inputSchema :=
         {| type := js "object";
            properties :=
              [ (js "country", {| type_ := js "string";
                     description_ := js "Filter by country code (e.g., 'US', 'AE')";
                     minimum := None; maximum := None |});
                (js "exchange", {| type_ := js "string";
                     description_ := js "Filter by exchange (e.g., 'IDC')";
                     minimum := None; maximum := None |}) ];
            required := None |} |};
    {| name := js "forex_ticker";
       description := js "Get details for a specific forex pair by ticker symbol";
       inputSchema :=
         {| type := js "object";
            properties :=
              [ (js "ticker", {| type_ := js "string";
                     description_ := js "Forex ticker symbol (e.g., 'AEDAUD', 'EURUSD')";
                     minimum := None; maximum := None |}) ];
            required := Some [js "ticker"] |} |};
    {| name := js "forex_prices";
       description := js "Get historical price data for a forex ticker";
       inputSchema :=
         {| type := js "object";
            properties :=
              [ (js "ticker", {| type_ := js "string";
                     description_ := js "Forex ticker symbol (e.g., 'AEDAUD', 'EURUSD')";
                     minimum := None; maximum := None |}) ];
            required := Some [js "ticker"] |} |};
    {| name := js "future_tickers";
       description := js "Get list of futures tickers with optional filtering by exchange";
       inputSchema :=
         {| type := js "object";
            properties :=
              [ (js "exchange", {| type_ := js "string";
                     description_ := js "Filter by exchange (e.g., 'CME', 'CMX')";
                     minimum := None; maximum := None |}) ];
            required := None |} |};
    {| name := js "future_ticker";
       description := js "Get details for a specific futures contract by ticker symbol";
       inputSchema :=
         {| type := js "object";
            properties :=
              [ (js "ticker", {| type_ := js "string";
                     description_ := js "Futures ticker symbol (e.g., 'ALI', 'M6A', 'BTC')";
                     minimum := None; maximum := None |}) ];
            required := Some [js "ticker"] |} |};
    {| name := js "future_prices";
       description := js "Get historical price data for a futures contract";
       inputSchema :=
         {| type := js "object";
            properties :=
              [ (js "ticker", {| type_ := js "string";
                     description_ := js "Futures ticker symbol (e.g., 'ALI', 'M6A', 'BTC')";
                     minimum := None; maximum := None |}) ];
            required := Some [js "ticker"] |} |};
    {| name := js "indices_tickers";
       description := js "Get list of index tickers with optional filtering by exchange";
       inputSchema :=
         {| type := js "object";
            properties :=
              [ (js "exchange", {| type_ := js "string";
                     description_ := js "Filter by exchange (e.g., 'ASX', 'AMS', 'VIE')";
                     minimum := None; maximum := None |}) ];
            required := None |} |};
    {| name := js "indices_ticker";
       description := js "Get details for a specific index by ticker symbol";
       inputSchema :=
         {| type := js "object";
            properties :=
              [ (js "ticker", {| type_ := js "string";
                     description_ := js "Index ticker symbol (e.g., 'AXJO', 'AEX', 'ATX')";
                     minimum := None; maximum := None |}) ];
            required := Some [js "ticker"] |} |};
    {| name := js "indices_prices";
       description := js "Get historical price data for an index";
       inputSchema :=
         {| type := js "object";
            properties :=
              [ (js "ticker", {| type_ := js "string";
                     description_ := js "Index ticker symbol (e.g., 'AXJO', 'AEX', 'ATX')";
                     minimum := None; maximum := None |}) ];
            required := Some [js "ticker"] |} |};
    {| name := js "indices_tickers";
       description := js "Get list of index tickers with optional filtering by exchange";
       inputSchema :=
         {| type := js "object";
            properties :=
              [ (js "exchange", {| type_ := js "string";
                     description_ := js "Filter by exchange (e.g., 'ASX', 'AMS', 'VIE')";
                     minimum := None; maximum := None |}) ];
            required := None |} |};
    {| name := js "indices_ticker";
       description := js "Get details for a specific index by ticker symbol";
       inputSchema :=
         {| type := js "object";
            properties :=
              [ (js "ticker", {| type_ := js "string";
                     description_ := js "Index ticker symbol (e.g., 'AXJO', 'AEX', 'ATX')";
                     minimum := None; maximum := None |}) ];
            required := Some [js "ticker"] |} |};
    {| name := js "indices_prices";
       description := js "Get historical price data for an index";
       inputSchema :=
         {| type := js "object";
            properties :=
              [ (js "ticker", {| type_ := js "string";
                     description_ := js "Index ticker symbol (e.g., 'AXJO', 'AEX', 'ATX')";
                     minimum := None; maximum := None |}) ];
            required := Some [js "ticker"] |} |};
    {| name := js "stocks_tickers";
       description := js "Get list of stock tickers with optional filtering by country or exchange";
       inputSchema :=
         {| type := js "object";
            properties :=
              [ (js "country", {| type_ := js "string";
                     description_ := js "Filter by country (e.g., 'america')";
                     minimum := None; maximum := None |});
                (js "exchange", {| type_ := js "string";
                     description_ := js "Filter by exchange (e.g., 'NASDAQ', 'AMEX', 'OTC')";
                     minimum := None; maximum := None |}) ];
            required := None |} |};
    {| name := js "stocks_ticker";
       description := js "Get details for a specific stock by ticker symbol";
       inputSchema :=
         {| type := js "object";
            properties :=
              [ (js "ticker", {| type_ := js "string";
                     description_ := js "Stock ticker symbol (e.g., 'AAPL', 'MSFT', 'TSLA')";
                     minimum := None; maximum := None |}) ];
            required := Some [js "ticker"] |} |};
    {| name := js "stocks_prices";
       description := js "Get historical price data for a stock";
       inputSchema :=
         {| type := js "object";
            properties :=
              [ (js "ticker", {| type_ := js "string";
                     description_ := js "Stock ticker symbol (e.g., 'AAPL', 'MSFT', 'TSLA')";
                     minimum := None; maximum := None |}) ];
            required := Some [js "ticker"] |} |}
  ].

(** The [ListToolsRequestSchema] handler. *)
Definition listTools : Eff (list ToolDefinition) := ret tools.

(** ** The [CallToolRequestSchema] handler *)

(** The [arguments] of a request: [None] when the request has none, so
    that [args] is [undefined]; otherwise an object of JSON values. *)
Definition Args : Type := option (gmap jsstring Json).

(** [args.key]: a [TypeError] when [args] is [undefined], else the value
    of the property, [undefined] when the object has none of that name. *)
Definition prop (args : Args) (key : jsstring) : Exn value :=
  match args with
  | None =>
      inl (TypeError (js "Cannot read properties of undefined (reading '"
                        ++ key ++ js "')"))
  | Some obj => inr (obj !! key)
  end.

(** The [case] clauses of the [switch (name)], in source order; each one
    ends in [break], and its value here is the [result] it assigns. *)
Definition cases : list (jsstring * (Args → Eff Json)) :=
  [
    (js "credit_search", fun args =>
       let* arg_query := sync (prop args (js "query")) in
       let* queryParams := sync (buildQueryString [(js "query", arg_query)]) in
       let endpoint := js "credit/search" ++ queryParams in
       makeApiRequest endpoint (mkRequestInit (Some (js "GET")) None));
    (js "credit_ratings", fun args =>
       let* arg := sync (prop args (js "id")) in
       if negb (ToBoolean arg) then
         throw (Error (js "Organization ID is required")) else
       let* arg := sync (prop args (js "id")) in
       let* text := sync (ToString arg) in
       let endpoint := js "credit/ratings/" ++ text in
       makeApiRequest endpoint (mkRequestInit (Some (js "GET")) None));
    (js "econ_search", fun args =>
       let* arg := sync (prop args (js "query")) in
       if negb (ToBoolean arg) then
         throw (Error (js "Search query is required")) else
       let* arg_query := sync (prop args (js "query")) in
       let* query := sync (buildQueryString
                             [(js "query", arg_query)]) in
       let endpoint := js "econ/search" ++ query in
       makeApiRequest endpoint (mkRequestInit (Some (js "GET")) None));
    (js "econ_dataset", fun args =>
       let* arg := sync (prop args (js "id")) in
       if negb (ToBoolean arg) then
         throw (Error (js "Dataset ID is required")) else
       let* arg := sync (prop args (js "id")) in
       let* text := sync (ToString arg) in
       let endpoint := js "econ/dataset/" ++ text in
       makeApiRequest endpoint (mkRequestInit (Some (js "GET")) None));
    (js "econ_calendar", fun args =>
       let* arg_from := sync (prop args (js "from")) in
       let* arg_to := sync (prop args (js "to")) in
       let* arg_country := sync (prop args (js "country")) in
       let* arg_minImportance := sync (prop args (js "minImportance")) in
       let* arg_currency := sync (prop args (js "currency")) in
       let* arg_category := sync (prop args (js "category")) in
       let* query := sync (buildQueryString
                             [(js "from", arg_from);
                              (js "to", arg_to);
                              (js "country", arg_country);
                              (js "minImportance", arg_minImportance);
                              (js "currency", arg_currency);
                              (js "category", arg_category)]) in
       let endpoint := js "econ/calendar" ++ query in
       makeApiRequest endpoint (mkRequestInit (Some (js "GET")) None));
    (js "esg_data", fun args =>
       let* arg := sync (prop args (js "ticker")) in
       if negb (ToBoolean arg) then
         throw (Error (js "Ticker symbol is required")) else
       let* arg := sync (prop args (js "ticker")) in
       let* text := sync (ToString arg) in
       let endpoint := js "esg/" ++ text in
       makeApiRequest endpoint (mkRequestInit (Some (js "GET")) None));
    (js "etf_fund", fun args =>
       let* arg := sync (prop args (js "ticker")) in
       if negb (ToBoolean arg) then
         throw (Error (js "ETF ticker symbol is required")) else
       let* arg := sync (prop args (js "ticker")) in
       let* text := sync (ToString arg) in
       let endpoint := js "etf/" ++ text ++ js "/fund" in
       makeApiRequest endpoint (mkRequestInit (Some (js "GET")) None));
    (js "etf_weights", fun args =>
       let* arg := sync (prop args (js "ticker")) in
       if negb (ToBoolean arg) then
         throw (Error (js "ETF ticker symbol is required")) else
       let* arg := sync (prop args (js "ticker")) in
       let* text := sync (ToString arg) in
       let endpoint := js "etf/" ++ text ++ js "/weights" in
       makeApiRequest endpoint (mkRequestInit (Some (js "GET")) None));
    (js "etf_holdings", fun args =>
       let* arg := sync (prop args (js "ticker")) in
       if negb (ToBoolean arg) then
         throw (Error (js "ETF ticker symbol is required")) else
       let* arg := sync (prop args (js "ticker")) in
       let* text := sync (ToString arg) in
       let endpoint := js "etf/" ++ text ++ js "/holdings" in
       makeApiRequest endpoint (mkRequestInit (Some (js "GET")) None));
    (js "etf_exposure", fun args =>
       let* arg := sync (prop args (js "ticker")) in
       if negb (ToBoolean arg) then
         throw (Error (js "Ticker symbol is required")) else
       let* arg := sync (prop args (js "ticker")) in
       let* text := sync (ToString arg) in
       let endpoint := js "etf/" ++ text ++ js "/exposure" in
       makeApiRequest endpoint (mkRequestInit (Some (js "GET")) None));
    (js "news_ticker", fun args =>
       let* arg := sync (prop args (js "ticker")) in
       if negb (ToBoolean arg) then
         throw (Error (js "Ticker symbol is required")) else
       let* arg := sync (prop args (js "ticker")) in
       let* text := sync (ToString arg) in
       let endpoint := js "news/" ++ text in
       makeApiRequest endpoint (mkRequestInit (Some (js "GET")) None));
    (js "news_country", fun args =>
       let* arg := sync (prop args (js "country")) in
       if negb (ToBoolean arg) then
         throw (Error (js "Country parameter is required")) else
       let* arg := sync (prop args (js "country")) in
       let* segment := sync (encodeURIComponent arg) in
       let endpoint := js "news/country/" ++ segment in
       makeApiRequest endpoint (mkRequestInit (Some (js "GET")) None));
    (js "news_category", fun args =>
       let* arg := sync (prop args (js "category")) in
       if negb (ToBoolean arg) then
         throw (Error (js "Category parameter is required")) else
       let* arg := sync (prop args (js "category")) in
       let* segment := sync (encodeURIComponent arg) in
       let endpoint := js "news/category/" ++ segment in
       makeApiRequest endpoint (mkRequestInit (Some (js "GET")) None));
    (js "news_general", fun args =>
       let endpoint := js "news" in
       makeApiRequest endpoint (mkRequestInit (Some (js "GET")) None));
    (js "sentiment_social", fun args =>
       let* arg := sync (prop args (js "ticker")) in
       if negb (ToBoolean arg) then
         throw (Error (js "Ticker symbol is required")) else
       let* arg := sync (prop args (js "ticker")) in
       let* text := sync (ToString arg) in
       let endpoint := js "sentiment/" ++ text ++ js "/social" in
       makeApiRequest endpoint (mkRequestInit (Some (js "GET")) None));
    (js "sentiment_news", fun args =>
       let* arg := sync (prop args (js "ticker")) in
       if negb (ToBoolean arg) then
         throw (Error (js "Ticker symbol is required")) else
       let* arg := sync (prop args (js "ticker")) in
       let* text := sync (ToString arg) in
       let endpoint := js "sentiment/" ++ text ++ js "/news" in
       makeApiRequest endpoint (mkRequestInit (Some (js "GET")) None));
    (js "sentiment_analyst", fun args =>
       let* arg := sync (prop args (js "ticker")) in
       if negb (ToBoolean arg) then
         throw (Error (js "Ticker symbol is required")) else
       let* arg := sync (prop args (js "ticker")) in
       let* text := sync (ToString arg) in
       let endpoint := js "sentiment/" ++ text ++ js "/analyst" in
       makeApiRequest endpoint (mkRequestInit (Some (js "GET")) None));
    (js "supply_chain_customers", fun args =>
       let* arg := sync (prop args (js "ticker")) in
       if negb (ToBoolean arg) then
         throw (Error (js "Ticker symbol is required")) else
       let* arg := sync (prop args (js "ticker")) in
       let* text := sync (ToString arg) in
       let endpoint := js "supply-chain/" ++ text ++ js "/customers" in
       makeApiRequest endpoint (mkRequestInit (Some (js "GET")) None));
    (js "supply_chain_peers", fun args =>
       let* arg := sync (prop args (js "ticker")) in
       if negb (ToBoolean arg) then
         throw (Error (js "Ticker symbol is required")) else
       let* arg := sync (prop args (js "ticker")) in
       let* text := sync (ToString arg) in
       let endpoint := js "supply-chain/" ++ text ++ js "/peers" in
       makeApiRequest endpoint (mkRequestInit (Some (js "GET")) None));
    (js "supply_chain_suppliers", fun args =>
       let* arg := sync (prop args (js "ticker")) in
       if negb (ToBoolean arg) then
         throw (Error (js "Ticker symbol is required")) else
       let* arg := sync (prop args (js "ticker")) in
       let* text := sync (ToString arg) in
       let endpoint := js "supply-chain/" ++ text ++ js "/suppliers" in
       makeApiRequest endpoint (mkRequestInit (Some (js "GET")) None));
    (js "profiles_asset", fun args =>
       let* arg := sync (prop args (js "ticker")) in
       if negb (ToBoolean arg) then
         throw (Error (js "Ticker symbol is required")) else
       let* arg := sync (prop args (js "ticker")) in
       let* text := sync (ToString arg) in
       let endpoint := js "profiles/" ++ text ++ js "/asset" in
       makeApiRequest endpoint (mkRequestInit (Some (js "GET")) None));
    (js "profiles_recommendation", fun args =>
       let* arg := sync (prop args (js "ticker")) in
       if negb (ToBoolean arg) then
         throw (Error (js "Ticker symbol is required")) else
       let* arg := sync (prop args (js "ticker")) in
       let* text := sync (ToString arg) in
       let endpoint := js "profiles/" ++ text ++ js "/recommendation" in
       makeApiRequest endpoint (mkRequestInit (Some (js "GET")) None));
    (js "profiles_cashflow", fun args =>
       let* arg := sync (prop args (js "ticker")) in
       if negb (ToBoolean arg) then
         throw (Error (js "Ticker symbol is required")) else
       let* arg := sync (prop args (js "ticker")) in
       let* text := sync (ToString arg) in
       let endpoint := js "profiles/" ++ text ++ js "/cashflow" in
       makeApiRequest endpoint (mkRequestInit (Some (js "GET")) None));
    (js "profiles_trend_index", fun args =>
       let* arg := sync (prop args (js "ticker")) in
       if negb (ToBoolean arg) then
         throw (Error (js "Ticker symbol is required")) else
       let* arg := sync (prop args (js "ticker")) in
       let* text := sync (ToString arg) in
       let endpoint := js "profiles/" ++ text ++ js "/trend/index" in
       makeApiRequest endpoint (mkRequestInit (Some (js "GET")) None));
    (js "profiles_statistics", fun args =>
       let* arg := sync (prop args (js "ticker")) in
       if negb (ToBoolean arg) then
         throw (Error (js "Ticker symbol is required")) else
       let* arg := sync (prop args (js "ticker")) in
       let* text := sync (ToString arg) in
       let endpoint := js "profiles/" ++ text ++ js "/statistics" in
       makeApiRequest endpoint (mkRequestInit (Some (js "GET")) None));
    (js "profiles_income", fun args =>
       let* arg := sync (prop args (js "ticker")) in
       if negb (ToBoolean arg) then
         throw (Error (js "Ticker symbol is required")) else
       let* arg := sync (prop args (js "ticker")) in
       let* text := sync (ToString arg) in
       let endpoint := js "profiles/" ++ text ++ js "/income" in
       makeApiRequest endpoint (mkRequestInit (Some (js "GET")) None));
    (js "profiles_fund", fun args =>
       let* arg := sync (prop args (js "ticker")) in
       if negb (ToBoolean arg) then
         throw (Error (js "Ticker symbol is required")) else
       let* arg := sync (prop args (js "ticker")) in
       let* text := sync (ToString arg) in
       let endpoint := js "profiles/" ++ text ++ js "/fund" in
       makeApiRequest endpoint (mkRequestInit (Some (js "GET")) None));
    (js "profiles_summary", fun args =>
       let* arg := sync (prop args (js "ticker")) in
       if negb (ToBoolean arg) then
         throw (Error (js "Ticker symbol is required")) else
       let* arg := sync (prop args (js "ticker")) in
       let* text := sync (ToString arg) in
       let endpoint := js "profiles/" ++ text ++ js "/summary" in
       makeApiRequest endpoint (mkRequestInit (Some (js "GET")) None));
    (js "profiles_insiders", fun args =>
       let* arg := sync (prop args (js "ticker")) in
       if negb (ToBoolean arg) then
         throw (Error (js "Ticker symbol is required")) else
       let* arg := sync (prop args (js "ticker")) in
       let* text := sync (ToString arg) in
       let endpoint := js "profiles/" ++ text ++ js "/insiders" in
       makeApiRequest endpoint (mkRequestInit (Some (js "GET")) None));
    (js "profiles_calendar", fun args =>
       let* arg := sync (prop args (js "ticker")) in
       if negb (ToBoolean arg) then
         throw (Error (js "Ticker symbol is required")) else
       let* arg := sync (prop args (js "ticker")) in
       let* text := sync (ToString arg) in
       let endpoint := js "profiles/" ++ text ++ js "/calendar" in
       makeApiRequest endpoint (mkRequestInit (Some (js "GET")) None));
    (js "profiles_balancesheet", fun args =>
       let* arg := sync (prop args (js "ticker")) in
       if negb (ToBoolean arg) then
         throw (Error (js "Ticker symbol is required")) else
       let* arg := sync (prop args (js "ticker")) in
       let* text := sync (ToString arg) in
       let endpoint := js "profiles/" ++ text ++ js "/balancesheet" in
       makeApiRequest endpoint (mkRequestInit (Some (js "GET")) None));
    (js "profiles_trend_earnings", fun args =>
       let* arg := sync (prop args (js "ticker")) in
       if negb (ToBoolean arg) then
         throw (Error (js "Ticker symbol is required")) else
       let* arg := sync (prop args (js "ticker")) in
       let* text := sync (ToString arg) in
       let endpoint := js "profiles/" ++ text ++ js "/trend/earnings" in
       makeApiRequest endpoint (mkRequestInit (Some (js "GET")) None));
    (js "profiles_institution", fun args =>
       let* arg := sync (prop args (js "ticker")) in
       if negb (ToBoolean arg) then
         throw (Error (js "Ticker symbol is required")) else
       let* arg := sync (prop args (js "ticker")) in
       let* text := sync (ToString arg) in
       let endpoint := js "profiles/" ++ text ++ js "/institution" in
       makeApiRequest endpoint (mkRequestInit (Some (js "GET")) None));
    (js "profiles_ownership", fun args =>
       let* arg := sync (prop args (js "ticker")) in
       if negb (ToBoolean arg) then
         throw (Error (js "Ticker symbol is required")) else
       let* arg := sync (prop args (js "ticker")) in
       let* text := sync (ToString arg) in
       let endpoint := js "profiles/" ++ text ++ js "/ownership" in
       makeApiRequest endpoint (mkRequestInit (Some (js "GET")) None));
    (js "profiles_earnings", fun args =>
       let* arg := sync (prop args (js "ticker")) in
       if negb (ToBoolean arg) then
         throw (Error (js "Ticker symbol is required")) else
       let* arg := sync (prop args (js "ticker")) in
       let* text := sync (ToString arg) in
       let endpoint := js "profiles/" ++ text ++ js "/earnings" in
       makeApiRequest endpoint (mkRequestInit (Some (js "GET")) None));
    (js "profiles_info", fun args =>
       let* arg := sync (prop args (js "ticker")) in
       if negb (ToBoolean arg) then
         throw (Error (js "Ticker symbol is required")) else
       let* arg := sync (prop args (js "ticker")) in
       let* text := sync (ToString arg) in
       let endpoint := js "profiles/" ++ text ++ js "/info" in
       makeApiRequest endpoint (mkRequestInit (Some (js "GET")) None));
    (js "profiles_activity", fun args =>
       let* arg := sync (prop args (js "ticker")) in
       if negb (ToBoolean arg) then
         throw (Error (js "Ticker symbol is required")) else
       let* arg := sync (prop args (js "ticker")) in
       let* text := sync (ToString arg) in
       let endpoint := js "profiles/" ++ text ++ js "/activity" in
       makeApiRequest endpoint (mkRequestInit (Some (js "GET")) None));
    (js "profiles_transactions", fun args =>
       let* arg := sync (prop args (js "ticker")) in
       if negb (ToBoolean arg) then
         throw (Error (js "Ticker symbol is required")) else
       let* arg := sync (prop args (js "ticker")) in
       let* text := sync (ToString arg) in
       let endpoint := js "profiles/" ++ text ++ js "/transactions" in
       makeApiRequest endpoint (mkRequestInit (Some (js "GET")) None));
    (js "profiles_financials", fun args =>
       let* arg := sync (prop args (js "ticker")) in
       if negb (ToBoolean arg) then
         throw (Error (js "Ticker symbol is required")) else
       let* arg := sync (prop args (js "ticker")) in
       let* text := sync (ToString arg) in
       let endpoint := js "profiles/" ++ text ++ js "/financials" in
       makeApiRequest endpoint (mkRequestInit (Some (js "GET")) None));
    (js "profiles_traffic", fun args =>
       let* arg := sync (prop args (js "ticker")) in
       if negb (ToBoolean arg) then
         throw (Error (js "Ticker symbol is required")) else
       let* arg := sync (prop args (js "ticker")) in
       let* text := sync (ToString arg) in
       let endpoint := js "profiles/" ++ text ++ js "/traffic" in
       makeApiRequest endpoint (mkRequestInit (Some (js "GET")) None));
    (js "crypto_tickers", fun args =>
       let* arg_type := sync (prop args (js "type")) in
       let* query := sync (buildQueryString
                             [(js "type", arg_type)]) in
       let endpoint := js "crypto/tickers" ++ query in
       makeApiRequest endpoint (mkRequestInit (Some (js "GET")) None));
    (js "crypto_ticker", fun args =>
       let* arg := sync (prop args (js "ticker")) in
       if negb (ToBoolean arg) then
         throw (Error (js "Cryptocurrency ticker symbol is required")) else
       let* arg := sync (prop args (js "ticker")) in
       let* text := sync (ToString arg) in
       let endpoint := js "crypto/" ++ text in
       makeApiRequest endpoint (mkRequestInit (Some (js "GET")) None));
    (js "crypto_prices", fun args =>
       let* arg := sync (prop args (js "ticker")) in
       if negb (ToBoolean arg) then
         throw (Error (js "Cryptocurrency ticker symbol is required")) else
       let* arg := sync (prop args (js "ticker")) in
       let* text := sync (ToString arg) in
       let endpoint := js "crypto/" ++ text ++ js "/prices" in
       makeApiRequest endpoint (mkRequestInit (Some (js "GET")) None));
    (js "forex_tickers", fun args =>
       let* arg_country := sync (prop args (js "country")) in
       let* arg_exchange := sync (prop args (js "exchange")) in
       let* query := sync (buildQueryString
                             [(js "country", arg_country);
                              (js "exchange", arg_exchange)]) in
       let endpoint := js "forex/tickers" ++ query in
       makeApiRequest endpoint (mkRequestInit (Some (js "GET")) None));
    (js "forex_ticker", fun args =>
       let* arg := sync (prop args (js "ticker")) in
       if negb (ToBoolean arg) then
         throw (Error (js "Forex ticker symbol is required")) else
       let* arg := sync (prop args (js "ticker")) in
       let* text := sync (ToString arg) in
       let endpoint := js "forex/" ++ text in
       makeApiRequest endpoint (mkRequestInit (Some (js "GET")) None));
    (js "forex_prices", fun args =>
       let* arg := sync (prop args (js "ticker")) in
       if negb (ToBoolean arg) then
         throw (Error (js "Forex ticker symbol is required")) else
       let* arg := sync (prop args (js "ticker")) in
       let* text := sync (ToString arg) in
       let endpoint := js "forex/" ++ text ++ js "/prices" in
       makeApiRequest endpoint (mkRequestInit (Some (js "GET")) None));
    (js "future_tickers", fun args =>
       let* arg_exchange := sync (prop args (js "exchange")) in
       let* query := sync (buildQueryString
                             [(js "exchange", arg_exchange)]) in
       let endpoint := js "future/tickers" ++ query in
       makeApiRequest endpoint (mkRequestInit (Some (js "GET")) None));
    (js "future_ticker", fun args =>
       let* arg := sync (prop args (js "ticker")) in
       if negb (ToBoolean arg) then
         throw (Error (js "Futures ticker symbol is required")) else
       let* arg := sync (prop args (js "ticker")) in
       let* text := sync (ToString arg) in
       let endpoint := js "future/" ++ text in
       makeApiRequest endpoint (mkRequestInit (Some (js "GET")) None));
    (js "future_prices", fun args =>
       let* arg := sync (prop args (js "ticker")) in
       if negb (ToBoolean arg) then
         throw (Error (js "Futures ticker symbol is required")) else
       let* arg := sync (prop args (js "ticker")) in
       let* text := sync (ToString arg) in
       let endpoint := js "future/" ++ text ++ js "/prices" in
       makeApiRequest endpoint (mkRequestInit (Some (js "GET")) None));
    (js "indices_tickers", fun args =>
       let* arg_exchange := sync (prop args (js "exchange")) in
       let* query := sync (buildQueryString
                             [(js "exchange", arg_exchange)]) in
       let endpoint := js "indices/tickers" ++ query in
       makeApiRequest endpoint (mkRequestInit (Some (js "GET")) None));
    (js "indices_ticker", fun args =>
       let* arg := sync (prop args (js "ticker")) in
       if negb (ToBoolean arg) then
         throw (Error (js "Index ticker symbol is required")) else
       let* arg := sync (prop args (js "ticker")) in
       let* text := sync (ToString arg) in
       let endpoint := js "indices/" ++ text in
       makeApiRequest endpoint (mkRequestInit (Some (js "GET")) None));
    (js "indices_prices", fun args =>
       let* arg := sync (prop args (js "ticker")) in
       if negb (ToBoolean arg) then
         throw (Error (js "Index ticker symbol is required")) else
       let* arg := sync (prop args (js "ticker")) in
       let* text := sync (ToString arg) in
       let endpoint := js "indices/" ++ text ++ js "/prices" in
       makeApiRequest endpoint (mkRequestInit (Some (js "GET")) None));
    (js "stocks_tickers", fun args =>
       let* arg_country := sync (prop args (js "country")) in
       let* arg_exchange := sync (prop args (js "exchange")) in
       let* query := sync (buildQueryString
                             [(js "country", arg_country);
                              (js "exchange", arg_exchange)]) in
       let endpoint := js "stocks/tickers" ++ query in
       makeApiRequest endpoint (mkRequestInit (Some (js "GET")) None));
    (js "stocks_ticker", fun args =>
       let* arg := sync (prop args (js "ticker")) in
       if negb (ToBoolean arg) then
         throw (Error (js "Stock ticker symbol is required")) else
       let* arg := sync (prop args (js "ticker")) in
       let* text := sync (ToString arg) in
       let endpoint := js "stocks/" ++ text in
       makeApiRequest endpoint (mkRequestInit (Some (js "GET")) None));
    (js "stocks_prices", fun args =>
       let* arg := sync (prop args (js "ticker")) in
       if negb (ToBoolean arg) then
         throw (Error (js "Stock ticker symbol is required")) else
       let* arg := sync (prop args (js "ticker")) in
       let* text := sync (ToString arg) in
       let endpoint := js "stocks/" ++ text ++ js "/prices" in
       makeApiRequest endpoint (mkRequestInit (Some (js "GET")) None))
  ].

(** The clause a [switch] selects: the first whose label is [===] to the
    scrutinee. *)
Fixpoint select {A : Type} (scrutinee : jsstring) (clauses : list (jsstring * A))
  : option A :=
  match clauses with
  | [] => None
  | (label, body) :: rest =>
      if str_eqb scrutinee label then Some body else select scrutinee rest
  end.

(** One block of [content]. *)
Record ContentBlock : Type := mkContentBlock {
  block_type : jsstring;
  block_text : jsstring
}.

(** The result of a tool call; [isError] is [None] when the property is
    absent. *)
Record CallToolResult : Type := mkCallToolResult {
  content : list ContentBlock;
  isError : option bool
}.

(** The parameters of a [tools/call] request. *)
Record CallToolParams : Type := mkCallToolParams {
  params_name : jsstring;
  params_arguments : Args
}.

Definition callTool (request : CallToolParams) : Eff CallToolResult :=
  let name := params_name request in
  let args := params_arguments request in
  try_catch
    (let* result :=
       match select name cases with
       | Some clause => clause args
       | None => throw (Error (js "Unknown tool: " ++ name))
       end in
     ret {| content := [ {| block_type := js "text";
                            block_text := JSON.stringify result |} ];
            isError := None |})
    (fun error =>
       ret {| content := [ {| block_type := js "text";
                              block_text := js "Error: " ++ message error |} ];
              isError := Some true |}).

(** ** The endpoint table of the [switch]

    Every clause of the [switch] has one of two shapes: it interpolates one
    required argument into a path, or it appends the query string of some
    arguments to a fixed path (after an optional test of a required
    argument). The table below lists the clauses by shape;
    [cases_follow_routes] proves that each clause computes what its row
    says. *)

Inductive Route : Type :=
| Query (guard : option (jsstring * jsstring)) (path : jsstring)
        (keys : list jsstring)
| Path (param msg before after : jsstring) (encoded : bool).

Definition routes : list (jsstring * Route) :=
  [
    (js "credit_search", Query None (js "credit/search") [js "query"]);
    (js "credit_ratings", Path (js "id") (js "Organization ID is required")
        (js "credit/ratings/") (js "") false);
    (js "econ_search", Query (Some (js "query", js "Search query is required"))
        (js "econ/search") [js "query"]);
    (js "econ_dataset", Path (js "id") (js "Dataset ID is required")
        (js "econ/dataset/") (js "") false);
    (js "econ_calendar", Query None (js "econ/calendar")
        [js "from"; js "to"; js "country"; js "minImportance"; js "currency"; js "category"]);
    (js "esg_data", Path (js "ticker") (js "Ticker symbol is required")
        (js "esg/") (js "") false);
    (js "etf_fund", Path (js "ticker") (js "ETF ticker symbol is required")
        (js "etf/") (js "/fund") false);
    (js "etf_weights", Path (js "ticker") (js "ETF ticker symbol is required")
        (js "etf/") (js "/weights") false);
    (js "etf_holdings", Path (js "ticker") (js "ETF ticker symbol is required")
        (js "etf/") (js "/holdings") false);
    (js "etf_exposure", Path (js "ticker") (js "Ticker symbol is required")
        (js "etf/") (js "/exposure") false);
    (js "news_ticker", Path (js "ticker") (js "Ticker symbol is required")
        (js "news/") (js "") false);
    (js "news_country", Path (js "country") (js "Country parameter is required")
        (js "news/country/") (js "") true);
    (js "news_category", Path (js "category")
        (js "Category parameter is required") (js "news/category/") (js "") true);
    (js "news_general", Query None (js "news") []);
    (js "sentiment_social", Path (js "ticker") (js "Ticker symbol is required")
        (js "sentiment/") (js "/social") false);
    (js "sentiment_news", Path (js "ticker") (js "Ticker symbol is required")
        (js "sentiment/") (js "/news") false);
    (js "sentiment_analyst", Path (js "ticker") (js "Ticker symbol is required")
        (js "sentiment/") (js "/analyst") false);
    (js "supply_chain_customers", Path (js "ticker")
        (js "Ticker symbol is required") (js "supply-chain/") (js "/customers") false);
    (js "supply_chain_peers", Path (js "ticker") (js "Ticker symbol is required")
        (js "supply-chain/") (js "/peers") false);
    (js "supply_chain_suppliers", Path (js "ticker")
        (js "Ticker symbol is required") (js "supply-chain/") (js "/suppliers") false);
    (js "profiles_asset", Path (js "ticker") (js "Ticker symbol is required")
        (js "profiles/") (js "/asset") false);
    (js "profiles_recommendation", Path (js "ticker")
        (js "Ticker symbol is required") (js "profiles/") (js "/recommendation") false);
    (js "profiles_cashflow", Path (js "ticker") (js "Ticker symbol is required")
        (js "profiles/") (js "/cashflow") false);
    (js "profiles_trend_index", Path (js "ticker")
        (js "Ticker symbol is required") (js "profiles/") (js "/trend/index") false);
    (js "profiles_statistics", Path (js "ticker") (js "Ticker symbol is required")
        (js "profiles/") (js "/statistics") false);
    (js "profiles_income", Path (js "ticker") (js "Ticker symbol is required")
        (js "profiles/") (js "/income") false);
    (js "profiles_fund", Path (js "ticker") (js "Ticker symbol is required")
        (js "profiles/") (js "/fund") false);
    (js "profiles_summary", Path (js "ticker") (js "Ticker symbol is required")
        (js "profiles/") (js "/summary") false);
    (js "profiles_insiders", Path (js "ticker") (js "Ticker symbol is required")
        (js "profiles/") (js "/insiders") false);
    (js "profiles_calendar", Path (js "ticker") (js "Ticker symbol is required")
        (js "profiles/") (js "/calendar") false);
    (js "profiles_balancesheet", Path (js "ticker")
        (js "Ticker symbol is required") (js "profiles/") (js "/balancesheet") false);
    (js "profiles_trend_earnings", Path (js "ticker")
        (js "Ticker symbol is required") (js "profiles/") (js "/trend/earnings") false);
    (js "profiles_institution", Path (js "ticker")
        (js "Ticker symbol is required") (js "profiles/") (js "/institution") false);
    (js "profiles_ownership", Path (js "ticker") (js "Ticker symbol is required")
        (js "profiles/") (js "/ownership") false);
    (js "profiles_earnings", Path (js "ticker") (js "Ticker symbol is required")
        (js "profiles/") (js "/earnings") false);
    (js "profiles_info", Path (js "ticker") (js "Ticker symbol is required")
        (js "profiles/") (js "/info") false);
    (js "profiles_activity", Path (js "ticker") (js "Ticker symbol is required")
        (js "profiles/") (js "/activity") false);
    (js "profiles_transactions", Path (js "ticker")
        (js "Ticker symbol is required") (js "profiles/") (js "/transactions") false);
    (js "profiles_financials", Path (js "ticker") (js "Ticker symbol is required")
        (js "profiles/") (js "/financials") false);
    (js "profiles_traffic", Path (js "ticker") (js "Ticker symbol is required")
        (js "profiles/") (js "/traffic") false);
    (js "crypto_tickers", Query None (js "crypto/tickers") [js "type"]);
    (js "crypto_ticker", Path (js "ticker")
        (js "Cryptocurrency ticker symbol is required") (js "crypto/") (js "") false);
    (js "crypto_prices", Path (js "ticker")
        (js "Cryptocurrency ticker symbol is required") (js "crypto/") (js "/prices") false);
    (js "forex_tickers", Query None (js "forex/tickers") [js "country"; js "exchange"]);
    (js "forex_ticker", Path (js "ticker") (js "Forex ticker symbol is required")
        (js "forex/") (js "") false);
    (js "forex_prices", Path (js "ticker") (js "Forex ticker symbol is required")
        (js "forex/") (js "/prices") false);
    (js "future_tickers", Query None (js "future/tickers") [js "exchange"]);
    (js "future_ticker", Path (js "ticker")
        (js "Futures ticker symbol is required") (js "future/") (js "") false);
    (js "future_prices", Path (js "ticker")
        (js "Futures ticker symbol is required") (js "future/") (js "/prices") false);
    (js "indices_tickers", Query None (js "indices/tickers") [js "exchange"]);
    (js "indices_ticker", Path (js "ticker")
        (js "Index ticker symbol is required") (js "indices/") (js "") false);
    (js "indices_prices", Path (js "ticker")
        (js "Index ticker symbol is required") (js "indices/") (js "/prices") false);
    (js "stocks_tickers", Query None (js "stocks/tickers") [js "country"; js "exchange"]);
    (js "stocks_ticker", Path (js "ticker") (js "Stock ticker symbol is required")
        (js "stocks/") (js "") false);
    (js "stocks_prices", Path (js "ticker") (js "Stock ticker symbol is required")
        (js "stocks/") (js "/prices") false)
  ].

(** [if (!args.param) { throw new Error(msg) }] *)
Definition check (args : Args) (param msg : jsstring) : Exn unit :=
  let? arg := prop args param in
  if negb (ToBoolean arg) then inl (Error msg) else inr tt.

(** The [endpoint] a row assigns: a synchronous computation. *)
Definition endpoint_of (r : Route) (args : Args) : Exn jsstring :=
  match r with
  | Query guard path keys =>
      let? _ := match guard with
                | Some (param, msg) => check args param msg
                | None => inr tt
                end in
      let? params := mapX (fun key => let? arg := prop args key in
                                      inr (key, arg)) keys in
      let? query := buildQueryString params in
      inr (path ++ query)
  | Path param msg before after encoded =>
      let? _ := check args param msg in
      let? arg := prop args param in
      let? segment := if encoded then encodeURIComponent arg
                      else ToString arg in
      inr (before ++ segment ++ after)
  end.

(** [{ method: 'GET' }] *)
Definition GET : RequestInit := mkRequestInit (Some (js "GET")) None.

Definition run_route (r : Route) (args : Args) : Eff Json :=
  let* endpoint := sync (endpoint_of r args) in
  makeApiRequest endpoint GET.

(** ** Vocabulary of the statements *)

(** The envelope of a success and the envelope of an error. *)
Definition success_result (payload : Json) : CallToolResult :=
  {| content := [ {| block_type := js "text";
                     block_text := JSON.stringify payload |} ];
     isError := None |}.

Definition error_result (msg : jsstring) : CallToolResult :=
  {| content := [ {| block_type := js "text";
                     block_text := js "Error: " ++ msg |} ];
     isError := Some true |}.

(** The headers every request carries under a given [API_KEY]. *)
Definition request_headers (key : option jsstring) : Headers :=
  (js "Content-Type", js "application/json") :: authorization key.

(** The one request [makeApiRequest(endpoint, { method: 'GET' })] hands
    to [fetch]. *)
Definition request_to (env : Env) (endpoint : jsstring) : Request :=
  mkRequest (API_BASE_URL ++ endpoint)
            (mkRequestInit (Some (js "GET")) (Some (request_headers (API_KEY env)))).

(** The message [makeApiRequest] wraps every failure in. *)
Definition wrapped (endpoint underlying : jsstring) : jsstring :=
  js "Failed to fetch from " ++ (API_BASE_URL ++ endpoint) ++ js ": " ++ underlying.

(** What [makeApiRequest(endpoint, { method: 'GET' })] returns or throws,
    read off the behaviour of [fetch] at its one request. *)
Definition remote_outcome (env : Env) (endpoint : jsstring) : Exn Json :=
  match fetch env (request_to env endpoint) with
  | inl e => inl (Error (wrapped endpoint (message e)))
  | inr response =>
      if ok response then
        match json response with
        | inl e => inl (Error (wrapped endpoint (message e)))
        | inr payload => inr payload
        end
      else
        match text response with
        | inl e => inl (Error (wrapped endpoint (message e)))
        | inr errorText =>
            inl (Error (wrapped endpoint
                          (js "API request failed: " ++ decimal (status response)
                             ++ js " - " ++ errorText)))
        end
  end.

(** The envelope and the requests of a whole call, by the row of its
    tool: the normal form [callTool_unfold] proves of [callTool]. *)
Definition call_outcome (request : CallToolParams) (env : Env)
  : Exn CallToolResult * list Request :=
  match select (params_name request) routes with
  | None =>
      (inr (error_result (js "Unknown tool: " ++ params_name request)), [])
  | Some r =>
      match endpoint_of r (params_arguments request) with
      | inl e => (inr (error_result (message e)), [])
      | inr endpoint =>
          (inr match remote_outcome env endpoint with
               | inl e => error_result (message e)
               | inr payload => success_result payload
               end,
           [request_to env endpoint])
      end
  end.

(** The required test of a row, when it has one. *)
Definition guard_of (r : Route) : option (jsstring * jsstring) :=
  match r with
  | Query guard _ _ => guard
  | Path param msg _ _ _ => Some (param, msg)
  end.

(** A well-formed envelope: one text block, and either no [isError], or
    [isError: true] over a text that begins with [Error: ]. *)
Definition well_formed_result (r : CallToolResult) : Prop :=
  ∃ t, content r = [ {| block_type := js "text"; block_text := t |} ]
       ∧ (isError r = None
          ∨ (isError r = Some true ∧ ∃ msg, t = js "Error: " ++ msg)).

(** A required parameter is absent or empty: the call has no arguments
    at all, or the object has no such property, or holds [null] or the
    empty string there. *)
Inductive absent_or_empty (param : jsstring) : Args → Prop :=
| no_arguments : absent_or_empty param None
| absent obj : obj !! param = None → absent_or_empty param (Some obj)
| is_null obj : obj !! param = Some JNull → absent_or_empty param (Some obj)
| is_empty obj : obj !! param = Some (JString []) → absent_or_empty param (Some obj).

(** The values the query string leaves out. *)
Definition omitted (v : value) : Prop :=
  v = undefined ∨ v = Some JNull ∨ v = Some (JString []).

(** The [key=value] parts of the query string of an argument bag, along
    the declared parameters: an omitted parameter gives no part, every
    other one gives its name and its percent-encoded value, in the order
    of the declaration. *)
Inductive query_parts (obj : gmap jsstring Json)
  : list jsstring → list jsstring → Prop :=
| parts_nil : query_parts obj [] []
| parts_omit key keys parts :
    omitted (obj !! key) →
    query_parts obj keys parts →
    query_parts obj (key :: keys) parts
| parts_keep key keys encoded parts :
    ¬ omitted (obj !! key) →
    encodeURIComponent (obj !! key) = inr encoded →
    query_parts obj keys parts →
    query_parts obj (key :: keys) ((key ++ js "=" ++ encoded) :: parts).

(** No part, no [?]; otherwise [?] and the parts joined by [&]. *)
Definition query_string_of (parts : list jsstring) : jsstring :=
  match parts with
  | [] => []
  | _ => js "?" ++ join (js "&") parts
  end.

(** The call of [tool] with the bag [obj] issues exactly the request for
    [path] followed by the query string of the declared parameters. *)
Definition builds_query (tool : jsstring) (declared : list jsstring)
    (path : jsstring) (obj : gmap jsstring Json) (env : Env) : Prop :=
  ∃ parts,
    query_parts obj declared parts
    ∧ (callTool (mkCallToolParams tool (Some obj)) env).2
      = [request_to env (path ++ query_string_of parts)].

(** [String.prototype.isWellFormed]: no unpaired surrogate. *)
Fixpoint isWellFormed (s : jsstring) : bool :=
  match s with
  | [] => true
  | c :: rest =>
      if URI.is_trail_surrogate c then false
      else if URI.is_lead_surrogate c then
        match rest with
        | d :: rest' => URI.is_trail_surrogate d && isWellFormed rest'
        | [] => false
        end
      else isWellFormed rest
  end.

(** A value [encodeURIComponent] can encode: [ToString] converts it, to
    a string without an unpaired surrogate. *)
Definition encodable (v : value) : Prop :=
  ∃ s, ToString v = inr s ∧ isWellFormed s = true.

(** The failures that arise inside [makeApiRequest] at the request
    [req], each with the message of the error first thrown: [fetch]
    rejects; the status is not a success and the body reads as
    [errorText], or cannot be read; the status is a success and the body
    does not parse. *)
Inductive remote_failure (env : Env) (req : Request) : jsstring → Prop :=
| network_failure e :
    fetch env req = inl e → remote_failure env req (message e)
| request_failed response errorText :
    fetch env req = inr response → ok response = false →
    text response = inr errorText →
    remote_failure env req
      (js "API request failed: " ++ decimal (status response)
         ++ js " - " ++ errorText)
| body_unreadable response e :
    fetch env req = inr response → ok response = false →
    text response = inl e → remote_failure env req (message e)
| parse_failure response e :
    fetch env req = inr response → ok response = true →
    json response = inl e → remote_failure env req (message e).

(** Surroundings for the examples: no key and a network that is down; a
    key and a server that answers every request alike. *)
Definition offline : Env :=
  mkEnv None (fun _ => inl (TypeError (js "fetch failed"))).

Definition answering (key : option jsstring) (response : Response) : Env :=
  mkEnv key (fun _ => inr response).

Definition not_found : Response :=
  mkResponse 404 (inr (js "Not Found")) (inl (mkJsError (js "SyntaxError")
    (js "Unexpected token 'N', 'Not Found' is not valid JSON"))).

Definition found (payload : Json) (body : jsstring) : Response :=
  mkResponse 200 (inr body) (inr payload).

Definition empty_feed : Json :=
  JObject [(js "count", JNumber (js "0")); (js "items", JArray [])].

(** ** Vocabulary of the further properties *)

(** The one request [makeApiRequest(endpoint, options)] hands to [fetch],
    for any [options]. *)
Definition request_with (env : Env) (endpoint : jsstring) (options : RequestInit)
  : Request :=
  mkRequest (API_BASE_URL ++ endpoint)
            (mkRequestInit (method options)
               (Some (spread (request_headers (API_KEY env))
                             (default [] (headers options))))).

(** A UTF-16 code unit. *)
Definition is_code_unit (c : N) : Prop := c < 0x10000.

(** A character that [encodeURIComponent] can leave in its output: an
    unreserved one, or the [%] of an escape. *)
Definition url_safe (c : N) : Prop := URI.unreserved c = true ∨ c = 37.

(** The number of code units of [s] equal to [c]. *)
Definition occurrences (c : N) (s : jsstring) : nat :=
  length (List.filter (N.eqb c) s).

(** The entries of an object literal that [buildQueryString] keeps. *)
Definition supplied (params : Params) : Params :=
  List.filter (fun '(_, value) => is_supplied value) params.

(** The properties of [args] a row reads, in the order it reads them. *)
Definition reads (r : Route) : list jsstring :=
  match r with
  | Query guard _ keys =>
      match guard with
      | Some (param, _) => param :: keys
      | None => keys
      end
  | Path param _ _ _ _ => [param]
  end.

(** The declared parameters of a catalog entry, in declaration order. *)
Definition declared (def : ToolDefinition) : list jsstring :=
  (properties (inputSchema def)).*1.

(** Two outcomes the program cannot tell apart: the same value, or
    errors with the same [message]. *)
Definition same_outcome {A : Type} (x y : Exn A) : Prop :=
  match x, y with
  | inl e, inl e' => message e = message e'
  | inr a, inr b => a = b
  | _, _ => False
  end.

(** Two responses that agree on the [status], and on the one body reader
    [makeApiRequest] calls for that status: [json()] after a success,
    [text()] otherwise. *)
Definition same_as_read (r r' : Response) : Prop :=
  status r = status r'
  ∧ if ok r then same_outcome (json r) (json r')
    else same_outcome (text r) (text r').

(** ** Proof automation *)

Ltac step_clause :=
  match goal with
  | |- context [ToBoolean ?v] => destruct (ToBoolean v)
  | |- context [buildQueryString ?p] => destruct (buildQueryString p)
  | |- context [encodeURIComponent ?v] => destruct (encodeURIComponent v)
  | |- context [ToString ?v] => destruct (ToString v)
  | |- context [makeApiRequest ?a ?b ?c] => destruct (makeApiRequest a b c)
  end.

Ltac simpl_clause :=
  cbn -[makeApiRequest buildQueryString encodeURIComponent ToString ToBoolean js];
  rewrite ?app_nil_r.

(** A clause of the [switch] against its row: unfold the monad, then
    split on each synchronous test in the order the clause runs them. *)
Ltac clause_is_route :=
  unfold run_route, endpoint_of, check, bindE, sync, bindX, prop, throw, GET;
  change (js "") with (@nil N);
  simpl_clause;
  change (buildQueryString []) with (@inr JsError jsstring []);
  simpl_clause;
  repeat (first [reflexivity | step_clause; simpl_clause]).

(** * Theorems *)

(** ** The platform functions on examples *)

Example encodeURIComponent_reserved :
  encodeURIComponent (Some (JString (js "a b/c?d&e=f")))
  = inr (js "a%20b%2Fc%3Fd%26e%3Df").
Proof. reflexivity. Qed.

Example encodeURIComponent_unreserved :
  encodeURIComponent (Some (JString (js "AZaz09-_.!~*'()")))
  = inr (js "AZaz09-_.!~*'()").
Proof. reflexivity. Qed.

Example encodeURIComponent_euro_sign : URI.encode [0x20AC] = inr (js "%E2%82%AC").
Proof. reflexivity. Qed.

Example encodeURIComponent_surrogate_pair :
  URI.encode [0xD83D; 0xDE00] = inr (js "%F0%9F%98%80").
Proof. reflexivity. Qed.

Example encodeURIComponent_unpaired_surrogate :
  URI.encode [0x41; 0xD83D; 0x42] = inl (URIError (js "URI malformed")).
Proof. reflexivity. Qed.

Example encodeURIComponent_number :
  encodeURIComponent (Some (JNumber (js "2.5"))) = inr (js "2.5").
Proof. reflexivity. Qed.

Example ToString_array :
  ToString (Some (JArray [JNumber (js "1"); JNull; JString (js "x");
                          JArray [JBool true; JObject []]]))
  = inr (js "1,,x,true,[object Object]").
Proof. reflexivity. Qed.

Example ToString_own_toString_member :
  ToString (Some (JArray [JNumber (js "1");
                          JObject [(js "toString", JNumber (js "1"))]]))
  = inl (TypeError (js "Cannot convert object to primitive value")).
Proof. reflexivity. Qed.

Example spread_lists_indices_first :
  spread [(js "b", js "x")]
         [(js "2", js "y"); (js "a", js "z"); (js "1", js "w"); (js "b", js "q")]
  = [(js "1", js "w"); (js "2", js "y"); (js "b", js "q"); (js "a", js "z")].
Proof. reflexivity. Qed.

Example ToBoolean_falsy :
  map ToBoolean [undefined; Some JNull; Some (JString []); Some (JNumber (js "0"));
                 Some (JNumber (js "NaN")); Some (JBool false)]
  = [false; false; false; false; false; false].
Proof. reflexivity. Qed.

Example buildQueryString_filters :
  buildQueryString [(js "from", Some (JString [])); (js "to", undefined);
                    (js "country", Some (JString (js "US,GB")));
                    (js "minImportance", Some (JNumber (js "0")));
                    (js "currency", Some JNull)]
  = inr (js "?country=US%2CGB&minImportance=0").
Proof. reflexivity. Qed.

Example buildQueryString_nothing_left :
  buildQueryString [(js "type", undefined)] = inr (js "").
Proof. reflexivity. Qed.

Example stringify_nested :
  JSON.stringify (JObject [(js "a", JArray [JNumber (js "1"); JString (js "x")]);
                           (js "b", JObject []); (js "c", JNull)])
  = js "{" ++ [10]
      ++ js "  " ++ [34] ++ js "a" ++ [34] ++ js ": [" ++ [10]
      ++ js "    1," ++ [10]
      ++ js "    " ++ [34] ++ js "x" ++ [34] ++ [10]
      ++ js "  ]," ++ [10]
      ++ js "  " ++ [34] ++ js "b" ++ [34] ++ js ": {}," ++ [10]
      ++ js "  " ++ [34] ++ js "c" ++ [34] ++ js ": null" ++ [10]
      ++ js "}".
Proof. reflexivity. Qed.

Example stringify_escapes :
  JSON.stringify (JString [34; 92; 10; 1; 0xD800; 0x41])
  = [34] ++ [92; 34] ++ js "\\" ++ js "\n" ++ js "\u0001" ++ js "\ud800A" ++ [34].
Proof. reflexivity. Qed.

(** ** Strings and the [switch] *)

Lemma str_eqb_eq (a b : jsstring) : str_eqb a b = true ↔ a = b.
Proof.
  revert b. induction a as [|x a IH]; intros [|y b]; simpl; try (split; congruence).
  rewrite andb_true_iff, N.eqb_eq, IH. split.
  - intros [-> ->]. reflexivity.
  - intros [= -> ->]. auto.
Qed.

Lemma str_eqb_refl (a : jsstring) : str_eqb a a = true.
Proof. apply str_eqb_eq. reflexivity. Qed.

Lemma select_Some {A} (n : jsstring) (clauses : list (jsstring * A)) (body : A) :
  select n clauses = Some body → (n, body) ∈ clauses.
Proof.
  induction clauses as [|[label b] rest IH]; simpl; [discriminate|].
  destruct (str_eqb n label) eqn:E.
  - intros [= ->]. apply str_eqb_eq in E as ->. apply list_elem_of_here.
  - intros H. apply list_elem_of_further, IH, H.
Qed.

Lemma select_None {A} (n : jsstring) (clauses : list (jsstring * A)) :
  n ∉ clauses.*1 → select n clauses = None.
Proof.
  induction clauses as [|[label b] rest IH]; simpl; [reflexivity|].
  intros Hn. destruct (str_eqb n label) eqn:E.
  - apply str_eqb_eq in E as ->. exfalso. apply Hn, list_elem_of_here.
  - apply IH. intros Hin. apply Hn, list_elem_of_further, Hin.
Qed.

(** Two lists of clauses with the same labels select alike. *)
Lemma select_Forall2 {A B} (R : A → B → Prop) (n : jsstring)
    (cs : list (jsstring * A)) (rs : list (jsstring * B)) :
  Forall2 (fun c r => c.1 = r.1 ∧ R c.2 r.2) cs rs →
  match select n cs, select n rs with
  | Some c, Some r => R c r
  | None, None => True
  | _, _ => False
  end.
Proof.
  induction 1 as [|[l c] [l' r] cs rs [Hl HR] _ IH]; simpl in *; [exact I|].
  subst l'. destruct (str_eqb n l); [exact HR | exact IH].
Qed.

(** ** The clauses and their rows *)

Lemma cases_follow_routes :
  Forall2 (fun c r => c.1 = r.1 ∧ ∀ args env, c.2 args env = run_route r.2 args env)
          cases routes.
Proof.
  unfold cases, routes.
  repeat (apply List.Forall2_cons; [ split; [reflexivity|]; intros [obj|] env | ]).
  all: try apply List.Forall2_nil.
  all: clause_is_route.
Qed.

(** ** The remote request helper *)

Lemma headers_of_request (key : option jsstring) :
  spread (spread [(js "Content-Type", js "application/json")] (authorization key))
         (default [] (headers GET))
  = request_headers key.
Proof. destruct key as [[|c k]|]; reflexivity. Qed.

(** [makeApiRequest] hands exactly one request to [fetch], and its
    outcome is [remote_outcome]. *)
Lemma makeApiRequest_unfold (endpoint : jsstring) (env : Env) :
  makeApiRequest endpoint GET env
  = (remote_outcome env endpoint, [request_to env endpoint]).
Proof.
  unfold makeApiRequest, remote_outcome, request_to, bindE, read_API_KEY.
  rewrite headers_of_request.
  unfold try_catch, bindE, await_fetch, throw, sync, wrapped. cbn [method GET].
  destruct (fetch env _) as [e|response]; [reflexivity|].
  destruct (ok response); cbn [negb].
  - destruct (json response); reflexivity.
  - destruct (text response); reflexivity.
Qed.

Lemma run_route_unfold (r : Route) (args : Args) (env : Env) :
  run_route r args env
  = match endpoint_of r args with
    | inl e => (inl e, [])
    | inr endpoint => (remote_outcome env endpoint, [request_to env endpoint])
    end.
Proof.
  unfold run_route, bindE, sync.
  destruct (endpoint_of r args) as [e|endpoint]; [reflexivity|].
  rewrite makeApiRequest_unfold. reflexivity.
Qed.

(** ** The handler in normal form *)

Theorem callTool_unfold (request : CallToolParams) (env : Env) :
  callTool request env = call_outcome request env.
Proof.
  destruct request as [n args].
  unfold callTool, call_outcome, try_catch, bindE, ret, throw.
  cbn [params_name params_arguments].
  pose proof (select_Forall2
                (fun (c : Args → Eff Json) r =>
                   ∀ args env, c args env = run_route r args env)
                n cases routes cases_follow_routes) as H.
  destruct (select n cases) as [clause|]; destruct (select n routes) as [r|];
    try contradiction; [|reflexivity].
  rewrite H, run_route_unfold.
  destruct (endpoint_of r args) as [e|endpoint]; [reflexivity|].
  destruct (remote_outcome env endpoint); rewrite app_nil_r; reflexivity.
Qed.

(** ** The catalog against the [switch] *)

(** Every label of the [switch] is the name of a catalog entry. *)
Lemma labels_in_catalog : Forall (fun label => label ∈ name <$> tools) routes.*1.
Proof. apply (bool_decide_unpack _). vm_compute. exact I. Qed.

(** Every required parameter of the catalog is tested by the clause of
    its tool. *)
Lemma required_is_guarded (def : ToolDefinition) (p : jsstring) :
  def ∈ tools → p ∈ default [] (required (inputSchema def)) →
  ∃ r msg, select (name def) routes = Some r ∧ guard_of r = Some (p, msg).
Proof.
  intros Hdef. revert p.
  assert (Forall (fun def => ∀ p, p ∈ default [] (required (inputSchema def)) →
            ∃ r msg, select (name def) routes = Some r
                     ∧ guard_of r = Some (p, msg)) tools) as H.
  { unfold tools.
    repeat (apply List.Forall_cons;
            [ intros p Hp; cbn in Hp;
              first [ apply not_elem_of_nil in Hp; contradiction
                    | apply list_elem_of_singleton in Hp; subst p;
                      eexists _, _; split; reflexivity ] | ]).
    apply List.Forall_nil. }
  rewrite Forall_forall in H. apply H, Hdef.
Qed.

(** A tool without a [required] list appends to a fixed path the query
    string of its declared parameters, in their declared order. *)
Lemma optional_is_query (def : ToolDefinition) :
  def ∈ tools → required (inputSchema def) = None →
  ∃ path, select (name def) routes
          = Some (Query None path (properties (inputSchema def)).*1).
Proof.
  intros Hdef.
  assert (Forall (fun def => required (inputSchema def) = None →
            ∃ path, select (name def) routes
                    = Some (Query None path (properties (inputSchema def)).*1))
            tools) as H.
  { unfold tools.
    repeat (apply List.Forall_cons;
            [ intros Hreq; cbn in Hreq;
              first [ discriminate Hreq | eexists; reflexivity ] | ]).
    apply List.Forall_nil. }
  rewrite Forall_forall in H. apply H, Hdef.
Qed.

(** A row whose required parameter is absent or empty assigns no
    endpoint: its test, or the read of [args], throws first. *)
Lemma guard_rejects (r : Route) (p msg : jsstring) (args : Args) :
  guard_of r = Some (p, msg) → absent_or_empty p args →
  ∃ e, endpoint_of r args = inl e.
Proof.
  intros Hg Habs.
  assert (∃ e, check args p msg = inl e) as [e He].
  { unfold check, prop. destruct Habs as [|obj H|obj H|obj H];
      [|rewrite H..]; simpl; eauto. }
  destruct r as [guard path keys|param m before after encoded]; simpl in Hg.
  - subst guard. exists e. simpl. rewrite He. reflexivity.
  - injection Hg as -> ->. exists e. simpl. rewrite He. reflexivity.
Qed.

(** The request a call issued, and what the call returned for it. *)
Lemma issued_request (request : CallToolParams) (env : Env) (req : Request) :
  (callTool request env).2 = [req] →
  ∃ endpoint,
    req = request_to env endpoint
    ∧ (callTool request env).1
      = inr match remote_outcome env endpoint with
            | inl e => error_result (message e)
            | inr payload => success_result payload
            end.
Proof.
  rewrite callTool_unfold. unfold call_outcome.
  destruct (select _ routes) as [r|]; [|discriminate].
  destruct (endpoint_of r _) as [e|endpoint]; [discriminate|].
  simpl. intros [= <-]. exists endpoint. split; reflexivity.
Qed.

(** ** The claims *)

(** C1. Whatever the tool name, the arguments and the behaviour of the
    network, the handler returns (it never throws) a well-formed
    envelope: one text block, and either no [isError], or [isError: true]
    over a text that begins with [Error: ]. The envelope is without
    [isError] only when the call issued a request that was answered with
    a success status and a body that parsed, and its text is then the
    rendering of that payload; in every other case (unknown tool, failed
    validation, a value that cannot be converted or encoded, any failure
    of the request) the envelope carries [isError: true] and a text that
    begins with [Error: ]. *)
Theorem callTool_returns_envelope (request : CallToolParams) (env : Env) :
  ∃ r,
    (callTool request env).1 = inr r
    ∧ well_formed_result r
    ∧ ((isError r = None
        ∧ ∃ req response payload,
            (callTool request env).2 = [req]
            ∧ fetch env req = inr response
            ∧ ok response = true
            ∧ json response = inr payload
            ∧ content r = [ {| block_type := js "text";
                               block_text := JSON.stringify payload |} ])
       ∨ (isError r = Some true
          ∧ (∃ msg, content r = [ {| block_type := js "text";
                                     block_text := js "Error: " ++ msg |} ])
          ∧ ¬ ∃ req response payload,
                (callTool request env).2 = [req]
                ∧ fetch env req = inr response
                ∧ ok response = true
                ∧ json response = inr payload)).
Proof.
  rewrite callTool_unfold. unfold call_outcome.
  assert (∀ msg, well_formed_result (error_result msg)) as Herr.
  { intros msg. eexists. split; [reflexivity|]. right. split; [reflexivity|].
    eexists. reflexivity. }
  destruct (select _ routes) as [row|]; cbn [fst snd].
  - destruct (endpoint_of row _) as [e|endpoint]; cbn [fst snd].
    + eexists. split; [reflexivity|]. split; [apply Herr|]. right.
      split; [reflexivity|]. split; [eexists; reflexivity|].
      intros (req & response & payload & H & _). discriminate.
    + eexists. split; [reflexivity|]. unfold remote_outcome.
      destruct (fetch env (request_to env endpoint)) as [e|response] eqn:Hfetch.
      * split; [apply Herr|]. right. split; [reflexivity|].
        split; [eexists; reflexivity|].
        intros (req & response & payload & [= <-] & H & _). congruence.
      * destruct (ok response) eqn:Hok.
        -- destruct (json response) as [e|payload] eqn:Hjson.
           ++ split; [apply Herr|]. right. split; [reflexivity|].
              split; [eexists; reflexivity|].
              intros (req & response' & payload & [= <-] & H & _ & Hj).
              congruence.
           ++ split; [eexists; split; [reflexivity|left; reflexivity]|].
              left. split; [reflexivity|].
              exists (request_to env endpoint), response, payload.
              repeat split; assumption.
        -- destruct (text response) as [e|errorText]; (split; [apply Herr|]);
             right; (split; [reflexivity|]); (split; [eexists; reflexivity|]);
             intros (req & response' & payload & [= <-] & H & Hok' & _);
             congruence.
  - eexists. split; [reflexivity|]. split; [apply Herr|]. right.
    split; [reflexivity|]. split; [eexists; reflexivity|].
    intros (req & response & payload & H & _). discriminate.
Qed.

(** C2. For every tool of the catalog and every parameter its schema
    lists as required, a call in which that parameter is absent or empty
    returns an [isError: true] envelope and hands no request to [fetch];
    and [credit_ratings] called with [{}] returns exactly the envelope of
    [Error: Organization ID is required], with no request. *)
Theorem required_parameter_checked_before_network
    (def : ToolDefinition) (p : jsstring) (args : Args) (env : Env) :
  def ∈ tools →
  p ∈ default [] (required (inputSchema def)) →
  absent_or_empty p args →
  (∃ msg, callTool (mkCallToolParams (name def) args) env
          = (inr {| content := [ {| block_type := js "text";
                                    block_text := js "Error: " ++ msg |} ];
                    isError := Some true |}, []))
  ∧ callTool (mkCallToolParams (js "credit_ratings") (Some ∅)) env
    = (inr {| content :=
                [ {| block_type := js "text";
                     block_text := js "Error: Organization ID is required" |} ];
              isError := Some true |}, []).
Proof.
  intros Hdef Hp Habs. split.
  - destruct (required_is_guarded def p Hdef Hp) as (r & msg & Hsel & Hg).
    destruct (guard_rejects r p msg args Hg Habs) as [e He].
    exists (message e). rewrite callTool_unfold. unfold call_outcome.
    cbn [params_name params_arguments]. rewrite Hsel, He. reflexivity.
  - rewrite callTool_unfold. reflexivity.
Qed.

Lemma required_parameter_checked_before_network_witness :
  ∃ msg, callTool (mkCallToolParams (js "etf_holdings")
                     (Some {[ js "ticker" := JString [] ]})) offline
         = (inr {| content := [ {| block_type := js "text";
                                   block_text := js "Error: " ++ msg |} ];
                   isError := Some true |}, []).
Proof.
  pose (def := List.nth 8 tools (mkToolDefinition [] [] (mkInputSchema [] [] None))).
  refine (proj1 (required_parameter_checked_before_network
                   def (js "ticker") (Some {[ js "ticker" := JString [] ]})
                   offline _ _ _)).
  - apply list_elem_of_lookup. exists 8%nat. reflexivity.
  - apply list_elem_of_here.
  - apply is_empty. vm_compute. reflexivity.
Defined.

(** C3, as the code has it. The catalog lists [indices_tickers],
    [indices_ticker] and [indices_prices] twice: its names are not
    unique. *)
Theorem catalog_names_repeat :
  (name <$> tools) !! 49%nat = Some (js "indices_tickers")
  ∧ (name <$> tools) !! 52%nat = Some (js "indices_tickers")
  ∧ ¬ NoDup (name <$> tools).
Proof.
  assert ((name <$> tools) !! 49%nat = Some (js "indices_tickers")) as H1
    by reflexivity.
  assert ((name <$> tools) !! 52%nat = Some (js "indices_tickers")) as H2
    by reflexivity.
  split; [exact H1|]. split; [exact H2|].
  intros Hnd. pose proof (NoDup_lookup _ _ _ _ Hnd H1 H2). discriminate.
Qed.

(** C4. A call whose name is not in the catalog returns the
    [isError: true] envelope of [Error: Unknown tool: <name>] and hands no
    request to [fetch]. *)
Theorem unknown_tool_is_reported (n : jsstring) (args : Args) (env : Env) :
  n ∉ name <$> tools →
  callTool (mkCallToolParams n args) env
  = (inr {| content := [ {| block_type := js "text";
                            block_text := js "Error: Unknown tool: " ++ n |} ];
            isError := Some true |}, []).
Proof.
  intros Hn. rewrite callTool_unfold. unfold call_outcome.
  cbn [params_name]. rewrite select_None; [reflexivity|].
  intros Hin. apply Hn.
  pose proof labels_in_catalog as H. rewrite Forall_forall in H.
  apply H, Hin.
Qed.

Lemma unknown_tool_is_reported_witness :
  callTool (mkCallToolParams (js "get_stock_prices") (Some ∅)) offline
  = (inr {| content :=
              [ {| block_type := js "text";
                   block_text := js "Error: Unknown tool: get_stock_prices" |} ];
            isError := Some true |}, []).
Proof.
  apply (unknown_tool_is_reported (js "get_stock_prices") (Some ∅) offline).
  apply (bool_decide_unpack _). vm_compute. exact I.
Defined.

(** ** Percent-encoding and the query string *)

Lemma unreserved_not_surrogate (c : N) :
  URI.unreserved c = true →
  URI.is_trail_surrogate c = false ∧ URI.is_lead_surrogate c = false.
Proof.
  unfold URI.unreserved, URI.is_alpha, URI.is_digit, URI.is_mark,
    URI.is_trail_surrogate, URI.is_lead_surrogate.
  cbn [existsb].
  rewrite !orb_true_iff, !andb_true_iff, !N.leb_le, !N.eqb_eq, !andb_false_iff,
    !N.leb_gt.
  lia.
Qed.

(** [encodeURIComponent] returns on every well-formed string. *)
Lemma encode_isWellFormed (s : jsstring) :
  isWellFormed s = true → ∃ out, URI.encode s = inr out.
Proof.
  remember (length s) as n eqn:Hn. revert s Hn.
  induction (lt_wf n) as [n _ IH]. intros [|c rest] Hn Hwf; [eexists; reflexivity|].
  simpl in Hn. cbn [URI.encode isWellFormed] in *.
  destruct (URI.unreserved c) eqn:Hu.
  - destruct (unreserved_not_surrogate c Hu) as [Ht Hl]. rewrite Ht, Hl in Hwf.
    destruct (IH (length rest) ltac:(lia) rest eq_refl Hwf) as [out ->]. eauto.
  - destruct (URI.is_trail_surrogate c); [discriminate|].
    destruct (URI.is_lead_surrogate c).
    + destruct rest as [|d rest']; [discriminate|].
      apply andb_true_iff in Hwf as [-> Hwf]. simpl in Hn.
      destruct (IH (length rest') ltac:(lia) rest' eq_refl Hwf) as [out ->]. eauto.
    + destruct (IH (length rest) ltac:(lia) rest eq_refl Hwf) as [out ->]. eauto.
Qed.

Lemma is_supplied_false (v : value) : is_supplied v = false ↔ omitted v.
Proof.
  unfold omitted, undefined.
  destruct v as [[|b|r|[|c s]|xs|ms]|]; simpl; split; intros H; try reflexivity;
    try discriminate; auto; destruct H as [H|[H|H]]; discriminate.
Qed.

Lemma is_supplied_true (v : value) : is_supplied v = true ↔ ¬ omitted v.
Proof.
  rewrite <- is_supplied_false. destruct (is_supplied v); split; congruence.
Qed.

(** Reading the declared parameters off an argument object never throws. *)
Lemma read_declared (obj : gmap jsstring Json) (keys : list jsstring) :
  mapX (fun key => let? arg := prop (Some obj) key in inr (key, arg)) keys
  = inr (map (fun key => (key, obj !! key)) keys).
Proof.
  induction keys as [|key keys IH]; [reflexivity|].
  cbn [mapX map]. rewrite IH. reflexivity.
Qed.

Lemma encode_error (s : jsstring) (e : JsError) :
  URI.encode s = inl e → e = URI.malformed.
Proof.
  remember (length s) as n eqn:Hn. revert s Hn.
  induction (lt_wf n) as [n _ IH]. intros [|c rest] Hn; [discriminate|].
  simpl in Hn. cbn [URI.encode].
  destruct (URI.unreserved c).
  - destruct (URI.encode rest) eqn:E; [|discriminate].
    intros [= <-]. apply (IH (length rest) ltac:(lia) rest eq_refl E).
  - destruct (URI.is_trail_surrogate c); [congruence|].
    destruct (URI.is_lead_surrogate c).
    + destruct rest as [|d rest']; [congruence|].
      destruct (URI.is_trail_surrogate d); [|congruence].
      destruct (URI.encode rest') eqn:E; [|discriminate]. simpl in Hn.
      intros [= <-]. apply (IH (length rest') ltac:(lia) rest' eq_refl E).
    + destruct (URI.encode rest) eqn:E; [|discriminate].
      intros [= <-]. apply (IH (length rest) ltac:(lia) rest eq_refl E).
Qed.

(** [encodeURIComponent] throws on every string that is not well formed. *)
Lemma encode_not_isWellFormed (s : jsstring) :
  isWellFormed s = false → URI.encode s = inl URI.malformed.
Proof.
  remember (length s) as n eqn:Hn. revert s Hn.
  induction (lt_wf n) as [n _ IH]. intros [|c rest] Hn Hwf; [discriminate|].
  simpl in Hn. cbn [URI.encode isWellFormed] in *.
  destruct (URI.unreserved c) eqn:Hu.
  - destruct (unreserved_not_surrogate c Hu) as [Ht Hl]. rewrite Ht, Hl in Hwf.
    rewrite (IH (length rest) ltac:(lia) rest eq_refl Hwf). reflexivity.
  - destruct (URI.is_trail_surrogate c); [reflexivity|].
    destruct (URI.is_lead_surrogate c).
    + destruct rest as [|d rest']; [reflexivity|].
      destruct (URI.is_trail_surrogate d); [|reflexivity].
      simpl in Hwf, Hn.
      rewrite (IH (length rest') ltac:(lia) rest' eq_refl Hwf). reflexivity.
    + rewrite (IH (length rest) ltac:(lia) rest eq_refl Hwf). reflexivity.
Qed.

(** [ToString] throws nothing but the [TypeError] of a failed conversion. *)
Lemma JsonToString_error (j : Json) (e : JsError) :
  JsonToString j = inl e → e = cannot_convert.
Proof.
  revert j e. fix IH 1. intros [|[|]|r|s|xs|members] e; cbn [JsonToString];
    try discriminate.
  - destruct (mapX _ xs) as [e'|parts] eqn:Hmap; [|discriminate].
    cbn [bindX]. intros [= <-]. revert e' Hmap.
    induction xs as [|x xs IHxs]; intros e' Hmap; [discriminate|].
    pose proof (IH x) as IHx. cbn [mapX] in Hmap.
    assert (∃ head, bindX head (fun y =>
                      let? ys := mapX (fun x => match x with
                                                | JNull => inr []
                                                | _ => JsonToString x
                                                end) xs in
                      inr (y :: ys)) = inl e'
                    ∧ ∀ ex, head = inl ex → ex = cannot_convert)
      as (head & Hhead & Hex).
    { eexists. split; [exact Hmap|]. intros ex. destruct x; try discriminate;
        apply IHx. }
    clear Hmap IHx. destruct head as [ex|sx]; cbn [bindX] in Hhead.
    + injection Hhead as <-. apply Hex. reflexivity.
    + match type of Hhead with
      | context [mapX ?f xs] => destruct (mapX f xs) as [e''|ys]
      end; [|discriminate].
      cbn [bindX] in Hhead. injection Hhead as <-. apply IHxs. reflexivity.
  - destruct (existsb _ members); [|discriminate]. intros [= <-]. reflexivity.
Qed.

Lemma ToString_error (v : value) (e : JsError) :
  ToString v = inl e → e = cannot_convert.
Proof. destruct v as [j|]; [apply JsonToString_error|discriminate]. Qed.

Lemma encodable_encodes (v : value) :
  encodable v → ∃ out, encodeURIComponent v = inr out.
Proof.
  intros (s & Hs & Hwf). unfold encodeURIComponent. rewrite Hs. cbn [bindX].
  apply encode_isWellFormed, Hwf.
Qed.

Lemma encodeURIComponent_inr (v : value) (out : jsstring) :
  encodeURIComponent v = inr out → encodable v.
Proof.
  unfold encodeURIComponent, encodable.
  destruct (ToString v) as [e|s]; [discriminate|]. cbn [bindX]. intros Henc.
  exists s. split; [reflexivity|].
  destruct (isWellFormed s) eqn:Hwf; [reflexivity|].
  rewrite (encode_not_isWellFormed s Hwf) in Henc. discriminate.
Qed.

(** What [encodeURIComponent] throws: the [TypeError] of a failed
    conversion, or the [URIError] of an unpaired surrogate. *)
Lemma encodeURIComponent_error (v : value) (e : JsError) :
  encodeURIComponent v = inl e →
  (e = cannot_convert ∨ e = URI.malformed) ∧ ¬ encodable v.
Proof.
  intros He. split.
  - unfold encodeURIComponent in He.
    destruct (ToString v) as [e'|s] eqn:Hs; cbn [bindX] in He.
    + injection He as <-. left. apply (ToString_error v), Hs.
    + right. apply (encode_error s), He.
  - intros [out Hout]%encodable_encodes. congruence.
Qed.

(** [buildQueryString] on the declared parameters of a bag whose supplied
    values can all be encoded: the parts of the specification, joined. *)
Lemma buildQueryString_parts (obj : gmap jsstring Json) (keys : list jsstring) :
  (∀ key, key ∈ keys → ¬ omitted (obj !! key) → encodable (obj !! key)) →
  ∃ parts,
    query_parts obj keys parts
    ∧ buildQueryString (map (fun key => (key, obj !! key)) keys)
      = inr (query_string_of parts).
Proof.
  intros Hwf.
  assert (∃ parts,
            query_parts obj keys parts
            ∧ mapX (fun '(key, value) =>
                      let? encoded := encodeURIComponent value in
                      inr (key ++ js "=" ++ encoded))
                   (List.filter (fun '(_, value) => is_supplied value)
                                (map (fun key => (key, obj !! key)) keys))
              = inr parts) as (parts & Hparts & Hmap).
  { induction keys as [|key keys IH]; [exists []; split; [constructor|reflexivity]|].
    destruct IH as (parts & Hparts & Hmap).
    { intros k Hk. apply Hwf, list_elem_of_further, Hk. }
    cbn [map List.filter]. destruct (is_supplied (obj !! key)) eqn:Hs.
    - apply is_supplied_true in Hs.
      destruct (encodable_encodes _ (Hwf key (list_elem_of_here _ _) Hs))
        as [encoded Henc].
      exists ((key ++ js "=" ++ encoded) :: parts). split.
      + apply parts_keep; assumption.
      + cbn [mapX]. rewrite Henc. cbn [bindX]. rewrite Hmap. reflexivity.
    - apply is_supplied_false in Hs. exists parts. split; [|exact Hmap].
      apply parts_omit; assumption. }
  exists parts. split; [exact Hparts|].
  unfold buildQueryString. rewrite Hmap. cbn [bindX].
  destruct parts; reflexivity.
Qed.

(** [buildQueryString] throws as soon as one supplied value cannot be
    encoded. *)
Lemma buildQueryString_unencodable (obj : gmap jsstring Json)
    (keys : list jsstring) :
  (∃ key, key ∈ keys ∧ ¬ omitted (obj !! key) ∧ ¬ encodable (obj !! key)) →
  ∃ e, (e = cannot_convert ∨ e = URI.malformed)
       ∧ buildQueryString (map (fun key => (key, obj !! key)) keys) = inl e.
Proof.
  intros (bad & Hin & Hsup & Hbad).
  assert (∃ e, (e = cannot_convert ∨ e = URI.malformed)
               ∧ mapX (fun '(key, value) =>
                         let? encoded := encodeURIComponent value in
                         inr (key ++ js "=" ++ encoded))
                      (List.filter (fun '(_, value) => is_supplied value)
                                   (map (fun key => (key, obj !! key)) keys))
                 = inl e) as (e & He & Hmap).
  { induction keys as [|key keys IH]; [apply elem_of_nil in Hin; contradiction|].
    cbn [map List.filter]. destruct (is_supplied (obj !! key)) eqn:Hs.
    - cbn [mapX].
      destruct (encodeURIComponent (obj !! key)) as [e|encoded] eqn:Henc.
      + exists e. split; [apply (encodeURIComponent_error _ _ Henc)|reflexivity].
      + cbn [bindX]. apply elem_of_cons in Hin as [->|Hin].
        * exfalso. apply Hbad, (encodeURIComponent_inr _ _ Henc).
        * destruct (IH Hin) as (e & He & ->). exists e. split; [exact He|reflexivity].
    - apply elem_of_cons in Hin as [->|Hin]; [|exact (IH Hin)].
      apply is_supplied_true in Hsup. congruence. }
  exists e. split; [exact He|]. unfold buildQueryString. rewrite Hmap. reflexivity.
Qed.

Lemma endpoint_of_query (obj : gmap jsstring Json) (path : jsstring)
    (keys : list jsstring) :
  endpoint_of (Query None path keys) (Some obj)
  = let? query := buildQueryString (map (fun key => (key, obj !! key)) keys) in
    inr (path ++ query).
Proof. cbn [endpoint_of bindX]. rewrite read_declared. reflexivity. Qed.

(** C5, as the code has it. For every tool whose parameters are all
    optional there is one path such that, for every argument bag whose
    supplied values can be encoded ([ToString] converts each, to a string
    without an unpaired surrogate), the call issues the request for that
    path followed by the query string of the bag: no part for a parameter
    that is [undefined], [null] or the empty string, the name and the
    percent-encoded value of every other one, in the order of the
    declaration, joined by [&] after a [?], and nothing at all when no
    parameter is left. For a bag in which a supplied value cannot be
    encoded (it holds an unpaired surrogate, or an object with a member
    named [toString]), [encodeURIComponent] throws [URIError] or
    [TypeError], no request is issued and the call returns the envelope of
    that error. [stocks_tickers] with
    [{country:"america", exchange:"NASDAQ"}] requests
    [stocks/tickers?country=america&exchange=NASDAQ], and [crypto_tickers]
    with [{}] requests [crypto/tickers]. *)
Theorem query_string_of_optional_parameters (def : ToolDefinition) :
  def ∈ tools →
  required (inputSchema def) = None →
  (∃ path, ∀ obj env,
     ((∀ key, key ∈ (properties (inputSchema def)).*1 →
              ¬ omitted (obj !! key) → encodable (obj !! key)) →
      builds_query (name def) (properties (inputSchema def)).*1 path obj env)
     ∧ ((∃ key, key ∈ (properties (inputSchema def)).*1
                ∧ ¬ omitted (obj !! key) ∧ ¬ encodable (obj !! key)) →
        ∃ e,
          (e = TypeError (js "Cannot convert object to primitive value")
           ∨ e = URIError (js "URI malformed"))
          ∧ callTool (mkCallToolParams (name def) (Some obj)) env
            = (inr (error_result (message e)), [])))
  ∧ (∀ env,
       (callTool (mkCallToolParams (js "stocks_tickers")
                    (Some (<[ js "exchange" := JString (js "NASDAQ") ]>
                             {[ js "country" := JString (js "america") ]}))) env).2
       = [request_to env (js "stocks/tickers?country=america&exchange=NASDAQ")])
  ∧ (∀ env,
       (callTool (mkCallToolParams (js "crypto_tickers") (Some ∅)) env).2
       = [request_to env (js "crypto/tickers")]).
Proof.
  intros Hdef Hreq. split; [|split].
  - destruct (optional_is_query def Hdef Hreq) as [path Hsel].
    exists path. intros obj env. split.
    + intros Hwf.
      destruct (buildQueryString_parts obj _ Hwf) as (parts & Hparts & Hq).
      exists parts. split; [exact Hparts|].
      rewrite callTool_unfold. unfold call_outcome.
      cbn [params_name params_arguments]. rewrite Hsel, endpoint_of_query, Hq.
      reflexivity.
    + intros Hbad.
      destruct (buildQueryString_unencodable obj _ Hbad) as (e & He & Hq).
      exists e. split; [exact He|].
      rewrite callTool_unfold. unfold call_outcome.
      cbn [params_name params_arguments].
      rewrite Hsel, endpoint_of_query, Hq. reflexivity.
  - intros env. rewrite callTool_unfold. vm_compute. reflexivity.
  - intros env. rewrite callTool_unfold. vm_compute. reflexivity.
Qed.

Lemma query_string_of_optional_parameters_witness :
  ∃ path,
    builds_query (js "econ_calendar")
      [js "from"; js "to"; js "country"; js "minImportance"; js "currency";
       js "category"]
      path
      (<[ js "minImportance" := JNumber (js "2") ]>
         (<[ js "currency" := JString (js "USD,EUR") ]>
            {[ js "from" := JString [] ]}))
      offline.
Proof.
  pose (def := List.nth 4 tools (mkToolDefinition [] [] (mkInputSchema [] [] None))).
  assert (def ∈ tools) as Hdef
    by (apply list_elem_of_lookup; exists 4%nat; reflexivity).
  destruct (proj1 (query_string_of_optional_parameters def Hdef eq_refl))
    as [path H].
  exists path. apply (proj1 (H _ offline)). intros key Hkey _.
  repeat (apply elem_of_cons in Hkey as [->|Hkey];
          [eexists; split; vm_compute; reflexivity|]).
  apply elem_of_nil in Hkey. contradiction.
Defined.

(** C5, the claim as it is written, fails: [stocks_tickers] called with
    a [country] that is one unpaired surrogate builds no query string
    and issues no request; [encodeURIComponent] throws and the call
    returns the envelope of [Error: URI malformed]. *)
Lemma unpaired_surrogate_builds_no_query :
  callTool (mkCallToolParams (js "stocks_tickers")
              (Some {[ js "country" := JString [0xD800] ]})) offline
  = (inr (error_result (js "URI malformed")), [])
  ∧ ¬ ∃ path,
        builds_query (js "stocks_tickers") [js "country"; js "exchange"] path
          {[ js "country" := JString [0xD800] ]} offline.
Proof.
  assert (callTool (mkCallToolParams (js "stocks_tickers")
              (Some {[ js "country" := JString [0xD800] ]})) offline
          = (inr (error_result (js "URI malformed")), [])) as H.
  { rewrite callTool_unfold. vm_compute. reflexivity. }
  split; [exact H|].
  intros (path & parts & _ & Htrace). rewrite H in Htrace. discriminate.
Qed.

(** C6. When the request a call issued is answered with a success
    status and a body that parses as JSON, the call returns the envelope
    without [isError] whose one text block is
    [JSON.stringify(payload, null, 2)] of the parsed payload. *)
Theorem success_renders_payload (request : CallToolParams) (env : Env)
    (req : Request) (response : Response) (payload : Json) :
  (callTool request env).2 = [req] →
  fetch env req = inr response →
  ok response = true →
  json response = inr payload →
  (callTool request env).1
  = inr {| content := [ {| block_type := js "text";
                           block_text := JSON.stringify payload |} ];
           isError := None |}.
Proof.
  intros Htrace Hfetch Hok Hjson.
  destruct (issued_request request env req Htrace) as (endpoint & -> & ->).
  unfold remote_outcome. rewrite Hfetch, Hok, Hjson. reflexivity.
Qed.

Lemma success_renders_payload_witness :
  (callTool (mkCallToolParams (js "news_general") None)
            (answering None (found empty_feed (js "{ }")))).1
  = inr {| content :=
             [ {| block_type := js "text";
                  block_text :=
                    js "{" ++ [10] ++ js "  " ++ [34] ++ js "count" ++ [34] ++ js ": 0,"
                      ++ [10] ++ js "  " ++ [34] ++ js "items" ++ [34] ++ js ": []"
                      ++ [10] ++ js "}" |} ];
           isError := None |}.
Proof.
  apply (success_renders_payload
           (mkCallToolParams (js "news_general") None)
           (answering None (found empty_feed (js "{ }")))
           (request_to (answering None (found empty_feed (js "{ }"))) (js "news"))
           (found empty_feed (js "{ }"))
           empty_feed).
  - vm_compute. reflexivity.
  - reflexivity.
  - reflexivity.
  - reflexivity.
Defined.

(** C7. When the request a call issued is answered with a status that
    is not a success and a body that reads as [body], [makeApiRequest]
    throws the failure that carries the status and that raw text (the body
    is not parsed), and the call returns an [isError: true] envelope in
    whose text both the decimal status code and the body occur. *)
Theorem failed_status_reports_code_and_body (request : CallToolParams)
    (env : Env) (req : Request) (response : Response) (body : jsstring) :
  (callTool request env).2 = [req] →
  fetch env req = inr response →
  ok response = false →
  text response = inr body →
  ∃ endpoint t,
    req = request_to env endpoint
    ∧ (makeApiRequest endpoint GET env).1
      = inl (Error (js "Failed to fetch from " ++ url req
                      ++ js ": API request failed: "
                      ++ decimal (status response) ++ js " - " ++ body))
    ∧ (callTool request env).1
      = inr {| content := [ {| block_type := js "text"; block_text := t |} ];
               isError := Some true |}
    ∧ t = js "Error: Failed to fetch from " ++ url req
            ++ js ": API request failed: "
            ++ decimal (status response) ++ js " - " ++ body
    ∧ occurs_in (decimal (status response)) t
    ∧ occurs_in body t.
Proof.
  intros Htrace Hfetch Hok Htext.
  destruct (issued_request request env req Htrace) as (endpoint & -> & Hres).
  assert (remote_outcome env endpoint
          = inl (Error (wrapped endpoint
                          (js "API request failed: " ++ decimal (status response)
                             ++ js " - " ++ body)))) as Hout.
  { unfold remote_outcome. rewrite Hfetch, Hok, Htext. reflexivity. }
  exists endpoint. eexists. split; [reflexivity|].
  split; [|split; [|split; [|split]]].
  - rewrite makeApiRequest_unfold. cbn [fst]. rewrite Hout. reflexivity.
  - rewrite Hres, Hout. reflexivity.
  - reflexivity.
  - unfold occurs_in.
    exists (js "Error: Failed to fetch from "
              ++ (API_BASE_URL ++ endpoint) ++ js ": API request failed: "),
           (js " - " ++ body).
    cbn [request_to url message Error]. unfold wrapped.
    rewrite <- !app_assoc. reflexivity.
  - unfold occurs_in.
    exists (js "Error: Failed to fetch from "
              ++ (API_BASE_URL ++ endpoint) ++ js ": API request failed: "
              ++ decimal (status response) ++ js " - "), [].
    cbn [request_to url message Error]. unfold wrapped.
    rewrite <- !app_assoc, app_nil_r. reflexivity.
Qed.

Lemma failed_status_reports_code_and_body_witness :
  ∃ endpoint t,
    request_to (answering None not_found) (js "stocks/ZZZZ")
    = request_to (answering None not_found) endpoint
    ∧ (makeApiRequest endpoint GET (answering None not_found)).1
      = inl (Error (js "Failed to fetch from https://api.axionquant.com/stocks/ZZZZ"
                      ++ js ": API request failed: " ++ js "404" ++ js " - "
                      ++ js "Not Found"))
    ∧ (callTool (mkCallToolParams (js "stocks_ticker")
                   (Some {[ js "ticker" := JString (js "ZZZZ") ]}))
                (answering None not_found)).1
      = inr {| content := [ {| block_type := js "text"; block_text := t |} ];
               isError := Some true |}
    ∧ t = js "Error: Failed to fetch from https://api.axionquant.com/stocks/ZZZZ"
            ++ js ": API request failed: " ++ js "404" ++ js " - "
            ++ js "Not Found"
    ∧ occurs_in (js "404") t
    ∧ occurs_in (js "Not Found") t.
Proof.
  apply (failed_status_reports_code_and_body
           (mkCallToolParams (js "stocks_ticker")
              (Some {[ js "ticker" := JString (js "ZZZZ") ]}))
           (answering None not_found)
           (request_to (answering None not_found) (js "stocks/ZZZZ"))
           not_found (js "Not Found")).
  - vm_compute. reflexivity.
  - reflexivity.
  - reflexivity.
  - reflexivity.
Defined.

(** C8. [makeApiRequest] hands exactly one request to [fetch]; a call
    hands it none or exactly one; and that request is a [GET] of
    [API_BASE_URL + endpoint] whose headers are [Content-Type:
    application/json] followed by [Authorization: Bearer <API_KEY>]
    exactly when [API_KEY] is set and not empty. *)
Theorem every_request_is_one_GET (request : CallToolParams) (env : Env)
    (endpoint : jsstring) :
  (makeApiRequest endpoint GET env).2 = [request_to env endpoint]
  ∧ ((callTool request env).2 = []
     ∨ ∃ path, (callTool request env).2 = [request_to env path])
  ∧ request_to env endpoint
    = {| url := API_BASE_URL ++ endpoint;
         init := {| method := Some (js "GET");
                    headers :=
                      Some ((js "Content-Type", js "application/json")
                              :: match API_KEY env with
                                 | Some (c :: key) =>
                                     [(js "Authorization",
                                       js "Bearer " ++ c :: key)]
                                 | _ => []
                                 end) |} |}
  ∧ ∀ h, h ∈ request_headers (API_KEY env) ↔
         h = (js "Content-Type", js "application/json")
         ∨ ∃ key, API_KEY env = Some key ∧ key ≠ []
                  ∧ h = (js "Authorization", js "Bearer " ++ key).
Proof.
  split; [|split; [|split]].
  - rewrite makeApiRequest_unfold. reflexivity.
  - rewrite callTool_unfold. unfold call_outcome.
    destruct (select _ routes) as [row|]; [|left; reflexivity].
    destruct (endpoint_of row _) as [e|path]; [left; reflexivity|].
    right. exists path. reflexivity.
  - reflexivity.
  - intros h. unfold request_headers, authorization.
    destruct (API_KEY env) as [[|c key]|].
    + rewrite list_elem_of_singleton. split; [auto|].
      intros [H|(key & [= <-] & Hne & _)]; [exact H|contradiction].
    + rewrite elem_of_cons, list_elem_of_singleton. split.
      * intros [H|H]; [left; exact H|]. right. exists (c :: key). auto.
      * intros [H|(key' & [= <-] & _ & H)]; auto.
    + rewrite list_elem_of_singleton. split; [auto|].
      intros [H|(key & [=] & _)]. exact H.
Qed.

(** C9. Whichever way [makeApiRequest] fails at the request a call
    issued (the network fails, the status is not a success, or the body of
    a success does not parse), it throws a plain [Error] whose message is
    [Failed to fetch from <url>: <underlying message>], and the call
    returns the [isError: true] envelope of that one message: the kinds
    differ in nothing but the text. *)
Theorem remote_failures_share_one_shape (request : CallToolParams) (env : Env)
    (req : Request) (underlying : jsstring) :
  (callTool request env).2 = [req] →
  remote_failure env req underlying →
  ∃ endpoint,
    url req = API_BASE_URL ++ endpoint
    ∧ (makeApiRequest endpoint GET env).1
      = inl (Error (js "Failed to fetch from " ++ (API_BASE_URL ++ endpoint)
                      ++ js ": " ++ underlying))
    ∧ (callTool request env).1
      = inr {| content :=
                 [ {| block_type := js "text";
                      block_text := js "Error: Failed to fetch from "
                                      ++ (API_BASE_URL ++ endpoint)
                                      ++ js ": " ++ underlying |} ];
               isError := Some true |}.
Proof.
  intros Htrace Hfail.
  destruct (issued_request request env req Htrace) as (endpoint & -> & Hres).
  assert (remote_outcome env endpoint = inl (Error (wrapped endpoint underlying)))
    as Hout.
  { unfold remote_outcome.
    destruct Hfail as [e H|response body H Hok Ht|response e H Hok Ht
                      |response e H Hok Hj]; rewrite H; [reflexivity|..];
      rewrite Hok; [rewrite Ht|rewrite Ht|rewrite Hj]; reflexivity. }
  exists endpoint. split; [reflexivity|]. split.
  - rewrite makeApiRequest_unfold. cbn [fst]. rewrite Hout. reflexivity.
  - rewrite Hres, Hout. reflexivity.
Qed.

Lemma remote_failures_share_one_shape_witness :
  ∃ endpoint,
    url (request_to offline (js "crypto/BTC/prices")) = API_BASE_URL ++ endpoint
    ∧ (makeApiRequest endpoint GET offline).1
      = inl (Error (js "Failed to fetch from " ++ (API_BASE_URL ++ endpoint)
                      ++ js ": " ++ js "fetch failed"))
    ∧ (callTool (mkCallToolParams (js "crypto_prices")
                   (Some {[ js "ticker" := JString (js "BTC") ]})) offline).1
      = inr {| content :=
                 [ {| block_type := js "text";
                      block_text := js "Error: Failed to fetch from "
                                      ++ (API_BASE_URL ++ endpoint)
                                      ++ js ": " ++ js "fetch failed" |} ];
               isError := Some true |}.
Proof.
  apply (remote_failures_share_one_shape
           (mkCallToolParams (js "crypto_prices")
              (Some {[ js "ticker" := JString (js "BTC") ]}))
           offline (request_to offline (js "crypto/BTC/prices"))
           (js "fetch failed")).
  - vm_compute. reflexivity.
  - apply (network_failure offline _ (TypeError (js "fetch failed"))).
    reflexivity.
Defined.

(** ** Arguments in the path *)

Lemma route_labels_NoDup : NoDup routes.*1.
Proof. apply (bool_decide_unpack _). vm_compute. exact I. Qed.

Lemma select_elem {A} (n : jsstring) (clauses : list (jsstring * A)) (body : A) :
  NoDup clauses.*1 → (n, body) ∈ clauses → select n clauses = Some body.
Proof.
  induction clauses as [|[label b] rest IH]; intros Hnd Hin.
  - apply elem_of_nil in Hin. contradiction.
  - cbn [fmap list_fmap fst] in Hnd. apply NoDup_cons in Hnd as [Hfresh Hnd].
    cbn [select]. apply elem_of_cons in Hin as [[= -> ->]|Hin].
    + rewrite str_eqb_refl. reflexivity.
    + destruct (str_eqb n label) eqn:E; [|apply IH; assumption].
      apply str_eqb_eq in E as ->. exfalso. apply Hfresh.
      apply (list_elem_of_fmap_2 fst) in Hin. exact Hin.
Qed.

(** Among the clauses that put an argument in the path, exactly
    [news_country] and [news_category] percent-encode it. *)
Lemma encoded_rows :
  Forall (fun row => ∀ param msg before after encoded,
            row.2 = Path param msg before after encoded →
            encoded = str_eqb row.1 (js "news_country")
                      || str_eqb row.1 (js "news_category"))
         routes.
Proof.
  unfold routes.
  repeat (apply List.Forall_cons;
          [ intros param msg before after encoded H; cbn [snd fst] in *;
            first [ discriminate H | injection H as _ _ _ _ <-; reflexivity ] | ]).
  apply List.Forall_nil.
Qed.

(** Every required parameter of the catalog travels in the path of the
    request, but for the [query] of [econ_search], which travels in the
    query string. *)
Lemma required_in_path (def : ToolDefinition) (p : jsstring) :
  def ∈ tools → p ∈ default [] (required (inputSchema def)) →
  (∃ msg before after encoded,
     (name def, Path p msg before after encoded) ∈ routes)
  ∨ name def = js "econ_search".
Proof.
  intros Hdef. revert p.
  assert (Forall (fun def => ∀ p, p ∈ default [] (required (inputSchema def)) →
            (∃ msg before after encoded,
               select (name def) routes = Some (Path p msg before after encoded))
            ∨ name def = js "econ_search") tools) as H.
  { unfold tools.
    repeat (apply List.Forall_cons;
            [ intros p Hp; cbn in Hp;
              first [ apply not_elem_of_nil in Hp; contradiction
                    | apply list_elem_of_singleton in Hp; subst p;
                      first [ right; reflexivity
                            | left; eexists _, _, _, _; reflexivity ] ] | ]).
    apply List.Forall_nil. }
  rewrite Forall_forall in H. intros p Hp.
  destruct (H def Hdef p Hp) as [(msg & before & after & encoded & Hsel)|Hn];
    [left|right; exact Hn].
  exists msg, before, after, encoded. apply select_Some, Hsel.
Qed.

(** C10. For every clause that puts a required argument in the request
    path, and every present, truthy value of that argument: the clause
    percent-encodes the value exactly when the tool is [news_country] or
    [news_category]. When [ToString] converts the value to a string, a
    clause that does not encode requests the text before, that string and
    the text after, unchanged, so that the [/] and [?] of a ticker become
    part of the path; a clause that encodes requests the encoded segment
    of every well-formed string, and returns the envelope of
    [Error: URI malformed] for one with an unpaired surrogate. When
    [ToString] throws (an object with a member named [toString]), no
    request is issued and the call returns the envelope of that error. A
    string argument is always converted, to itself. *)
Theorem path_argument_is_verbatim (label param msg before after : jsstring)
    (encoded : bool) (obj : gmap jsstring Json) (v : Json) (env : Env) :
  (label, Path param msg before after encoded) ∈ routes →
  obj !! param = Some v →
  ToBoolean (Some v) = true →
  (encoded = true ↔ label = js "news_country" ∨ label = js "news_category")
  ∧ (∀ s, ToString (Some v) = inr s →
          if encoded then
            (isWellFormed s = true →
             ∃ segment,
               URI.encode s = inr segment
               ∧ (callTool (mkCallToolParams label (Some obj)) env).2
                 = [request_to env (before ++ segment ++ after)])
            ∧ (isWellFormed s = false →
               callTool (mkCallToolParams label (Some obj)) env
               = (inr (error_result (js "URI malformed")), []))
          else
            (callTool (mkCallToolParams label (Some obj)) env).2
            = [request_to env (before ++ s ++ after)])
  ∧ (∀ e, ToString (Some v) = inl e →
          e = TypeError (js "Cannot convert object to primitive value")
          ∧ callTool (mkCallToolParams label (Some obj)) env
            = (inr (error_result (message e)), []))
  ∧ (∀ s, v = JString s → encoded = false →
          (callTool (mkCallToolParams label (Some obj)) env).2
          = [request_to env (before ++ s ++ after)])
  ∧ (callTool (mkCallToolParams (js "stocks_ticker")
                 (Some {[ js "ticker" := JString (js "AAPL/prices?x=1") ]}))
              env).2
    = [request_to env (js "stocks/AAPL/prices?x=1")]
  ∧ (callTool (mkCallToolParams (js "news_country")
                 (Some {[ js "country" := JString (js "a/b?c") ]}))
              env).2
    = [request_to env (js "news/country/a%2Fb%3Fc")].
Proof.
  intros Hrow Hv Htruthy.
  pose proof (select_elem _ _ _ route_labels_NoDup Hrow) as Hsel.
  assert (endpoint_of (Path param msg before after encoded) (Some obj)
          = let? segment := if encoded then encodeURIComponent (Some v)
                            else ToString (Some v) in
            inr (before ++ segment ++ after)) as Hend.
  { cbn [endpoint_of]. unfold check, prop. cbn [bindX]. rewrite Hv, Htruthy.
    reflexivity. }
  assert (callTool (mkCallToolParams label (Some obj)) env
          = match (let? segment := if encoded then encodeURIComponent (Some v)
                                   else ToString (Some v) in
                   inr (before ++ segment ++ after)) with
            | inl e => (inr (error_result (message e)), [])
            | inr endpoint =>
                (inr match remote_outcome env endpoint with
                     | inl e => error_result (message e)
                     | inr payload => success_result payload
                     end, [request_to env endpoint])
            end) as Hcall.
  { rewrite callTool_unfold. unfold call_outcome.
    cbn [params_name params_arguments]. rewrite Hsel, Hend. reflexivity. }
  split; [|split; [|split; [|split; [|split]]]].
  - pose proof encoded_rows as H. rewrite Forall_forall in H.
    rewrite (H _ Hrow param msg before after encoded eq_refl). cbn [fst].
    rewrite orb_true_iff, !str_eqb_eq. reflexivity.
  - intros s Hs. rewrite Hcall. unfold encodeURIComponent. rewrite Hs.
    destruct encoded; cbn [bindX]; [|reflexivity]. split.
    + intros Hwf. destruct (encode_isWellFormed _ Hwf) as [segment Hseg].
      exists segment. split; [exact Hseg|]. rewrite Hseg. reflexivity.
    + intros Hbad. rewrite (encode_not_isWellFormed _ Hbad). reflexivity.
  - intros e He. split; [apply (ToString_error _ _ He)|].
    rewrite Hcall. unfold encodeURIComponent. rewrite He.
    destruct encoded; reflexivity.
  - intros s -> ->. rewrite Hcall. reflexivity.
  - rewrite callTool_unfold. vm_compute. reflexivity.
  - rewrite callTool_unfold. vm_compute. reflexivity.
Qed.

Lemma path_argument_is_verbatim_witness :
  (callTool (mkCallToolParams (js "etf_holdings")
               (Some {[ js "ticker" := JString (js "SPY/../x?y") ]}))
            offline).2
  = [request_to offline (js "etf/" ++ js "SPY/../x?y" ++ js "/holdings")].
Proof.
  refine (proj1 (proj2 (path_argument_is_verbatim
            (js "etf_holdings") (js "ticker") (js "ETF ticker symbol is required")
            (js "etf/") (js "/holdings") false
            {[ js "ticker" := JString (js "SPY/../x?y") ]}
            (JString (js "SPY/../x?y")) offline _ _ _)) (js "SPY/../x?y") eq_refl).
  - apply list_elem_of_lookup. exists 8%nat. reflexivity.
  - vm_compute. reflexivity.
  - reflexivity.
Defined.

(** * Further properties *)

(** ** The catalog and the [switch] *)

Lemma catalog_in_labels : Forall (fun n => n ∈ routes.*1) (name <$> tools).
Proof. apply (bool_decide_unpack _). vm_compute. exact I. Qed.

Lemma case_labels : cases.*1 = routes.*1.
Proof. reflexivity. Qed.

Lemma select_is_Some {A} (n : jsstring) (clauses : list (jsstring * A)) :
  is_Some (select n clauses) ↔ n ∈ clauses.*1.
Proof.
  split.
  - intros [body H]. apply select_Some in H.
    apply (list_elem_of_fmap_2 fst) in H. exact H.
  - intros Hin. destruct (select n clauses) as [body|] eqn:E; [eauto|].
    exfalso. induction clauses as [|[label b] rest IH]; simpl in *.
    + apply elem_of_nil in Hin. contradiction.
    + destruct (str_eqb n label) eqn:Hl; [discriminate|].
      apply elem_of_cons in Hin as [->|Hin]; [|auto].
      rewrite str_eqb_refl in Hl. discriminate.
Qed.

(** X1. The [switch] has a clause for a name exactly when the catalog
    lists that name, and no two clauses share a label: every listed tool
    is dispatched to its own clause, and none is shadowed. *)
Theorem listed_iff_handled (n : jsstring) :
  (n ∈ name <$> tools ↔ is_Some (select n cases)) ∧ NoDup cases.*1.
Proof.
  split.
  - rewrite select_is_Some, case_labels. split; intros H.
    + pose proof catalog_in_labels as Hall. rewrite Forall_forall in Hall.
      apply Hall, H.
    + pose proof labels_in_catalog as Hall. rewrite Forall_forall in Hall.
      apply Hall, H.
  - rewrite case_labels. apply route_labels_NoDup.
Qed.

Lemma catalog_split :
  tools = take 52 tools ++ take 3 (drop 49 tools) ++ drop 55 tools.
Proof. reflexivity. Qed.

Lemma catalog_without_copies_NoDup :
  NoDup (name <$> (take 52 tools ++ drop 55 tools)).
Proof. apply (bool_decide_unpack _). vm_compute. exact I. Qed.

(** X2. Two entries of the catalog with the same name are the same
    definition: the repeated [indices] entries are exact copies, so the
    catalog still gives each name one description and one schema. *)
Theorem same_name_same_definition (d1 d2 : ToolDefinition) :
  d1 ∈ tools → d2 ∈ tools → name d1 = name d2 → d1 = d2.
Proof.
  assert (∀ d, d ∈ tools → d ∈ take 52 tools ++ drop 55 tools) as Hin.
  { intros d. rewrite catalog_split at 1. rewrite !elem_of_app.
    intros [H|[H|H]]; [left; exact H| |right; exact H].
    left. change (take 52 tools) with (take 49 tools ++ take 3 (drop 49 tools)).
    apply elem_of_app. right. exact H. }
  intros H1%Hin H2%Hin Hname.
  apply list_elem_of_lookup in H1 as [i Hi], H2 as [j Hj].
  pose proof catalog_without_copies_NoDup as Hnd.
  assert (i = j) as ->.
  { apply (NoDup_lookup _ i j (name d1) Hnd).
    - rewrite list_lookup_fmap, Hi. reflexivity.
    - rewrite list_lookup_fmap, Hj, Hname. reflexivity. }
  congruence.
Qed.

(** Each clause reads only declared parameters of its tool, reads the
    first declared one first, and tests the required ones. *)
Lemma clause_reads_declared (def : ToolDefinition) :
  def ∈ tools →
  ∃ r, select (name def) routes = Some r
       ∧ Forall (fun key => key ∈ declared def) (reads r)
       ∧ head (reads r) = head (declared def)
       ∧ default [] (required (inputSchema def))
         = match guard_of r with Some (p, _) => [p] | None => [] end.
Proof.
  intros Hdef.
  assert (Forall (fun def =>
            ∃ r, select (name def) routes = Some r
                 ∧ Forall (fun key => key ∈ declared def) (reads r)
                 ∧ head (reads r) = head (declared def)
                 ∧ default [] (required (inputSchema def))
                   = match guard_of r with Some (p, _) => [p] | None => [] end)
            tools) as H.
  { unfold tools.
    repeat (apply List.Forall_cons;
            [ eexists; split; [reflexivity|]; split; [|split; reflexivity];
              apply (bool_decide_unpack _); vm_compute; exact I | ]).
    apply List.Forall_nil. }
  rewrite Forall_forall in H. apply H, Hdef.
Qed.

(** X3. In every catalog entry the [required] list names at most one
    parameter, and that parameter is one of the declared [properties]. *)
Theorem required_is_declared (def : ToolDefinition) :
  def ∈ tools →
  (length (default [] (required (inputSchema def))) ≤ 1)%nat
  ∧ ∀ p, p ∈ default [] (required (inputSchema def)) → p ∈ declared def.
Proof.
  intros Hdef.
  destruct (clause_reads_declared def Hdef) as (r & _ & Hreads & _ & Hreq).
  rewrite Hreq. rewrite Forall_forall in Hreads.
  destruct r as [[[param msg]|] path keys|param msg before after encoded];
    cbn [guard_of reads] in *.
  - split; [simpl; lia|]. intros p ->%list_elem_of_singleton.
    apply Hreads, list_elem_of_here.
  - split; [simpl; lia|]. intros p Hp. apply elem_of_nil in Hp. contradiction.
  - split; [simpl; lia|]. intros p ->%list_elem_of_singleton.
    apply Hreads, list_elem_of_here.
Qed.

Lemma required_is_declared_witness :
  (length [js "ticker"] ≤ 1)%nat
  ∧ ∀ p, p ∈ [js "ticker"] → p ∈ [js "ticker"].
Proof.
  pose (def := List.nth 8 tools (mkToolDefinition [] [] (mkInputSchema [] [] None))).
  apply (required_is_declared def).
  apply list_elem_of_lookup. exists 8%nat. reflexivity.
Defined.

(** The endpoint of a row depends on the properties the row reads and on
    nothing else of the argument object. *)
Lemma endpoint_of_reads (r : Route) (obj obj' : gmap jsstring Json) :
  (∀ key, key ∈ reads r → obj !! key = obj' !! key) →
  endpoint_of r (Some obj) = endpoint_of r (Some obj').
Proof.
  intros Hsame.
  destruct r as [guard path keys|param msg before after encoded];
    cbn [endpoint_of reads] in *.
  - assert (map (fun key => (key, obj !! key)) keys
            = map (fun key => (key, obj' !! key)) keys) as Hkeys.
    { apply map_ext_in. intros key Hkey%list_elem_of_In. f_equal.
      apply Hsame. destruct guard as [[p m]|]; [right|]; exact Hkey. }
    rewrite !read_declared, Hkeys.
    destruct guard as [[p m]|]; [|reflexivity].
    unfold check, prop. rewrite (Hsame p (list_elem_of_here _ _)). reflexivity.
  - unfold check, prop. rewrite (Hsame param (list_elem_of_here _ _)).
    reflexivity.
Qed.

(** X4. A call ignores every argument its tool does not declare: two
    argument objects that agree on the declared parameters of a catalog
    tool yield the same envelope and the same requests. *)
Theorem undeclared_arguments_are_ignored (def : ToolDefinition)
    (obj obj' : gmap jsstring Json) (env : Env) :
  def ∈ tools →
  (∀ key, key ∈ declared def → obj !! key = obj' !! key) →
  callTool (mkCallToolParams (name def) (Some obj)) env
  = callTool (mkCallToolParams (name def) (Some obj')) env.
Proof.
  intros Hdef Hsame.
  destruct (clause_reads_declared def Hdef) as (r & Hsel & Hreads & _).
  rewrite Forall_forall in Hreads.
  rewrite !callTool_unfold. unfold call_outcome.
  cbn [params_name params_arguments]. rewrite Hsel.
  rewrite (endpoint_of_reads r obj obj'); [reflexivity|].
  intros key Hkey. apply Hsame, Hreads, Hkey.
Qed.

Lemma undeclared_arguments_are_ignored_witness :
  callTool (mkCallToolParams (js "etf_holdings")
              (Some (<[ js "limit" := JNumber (js "10") ]>
                       {[ js "ticker" := JString (js "SPY") ]}))) offline
  = callTool (mkCallToolParams (js "etf_holdings")
                (Some {[ js "ticker" := JString (js "SPY") ]})) offline.
Proof.
  pose (def := List.nth 8 tools (mkToolDefinition [] [] (mkInputSchema [] [] None))).
  apply (undeclared_arguments_are_ignored def).
  - apply list_elem_of_lookup. exists 8%nat. reflexivity.
  - intros key Hkey. apply list_elem_of_singleton in Hkey as ->.
    vm_compute. reflexivity.
Defined.

(** X5. A required parameter holding any falsy value (not only an
    absent, [null] or empty one, but also [0], [NaN] or [false]) is
    rejected with the one fixed message of its tool, before any request. *)
Theorem falsy_required_parameter_is_rejected (def : ToolDefinition) (p : jsstring) :
  def ∈ tools →
  p ∈ default [] (required (inputSchema def)) →
  ∃ msg, ∀ obj env,
    ToBoolean (obj !! p) = false →
    callTool (mkCallToolParams (name def) (Some obj)) env
    = (inr {| content := [ {| block_type := js "text";
                              block_text := js "Error: " ++ msg |} ];
              isError := Some true |}, []).
Proof.
  intros Hdef Hp.
  destruct (required_is_guarded def p Hdef Hp) as (r & msg & Hsel & Hg).
  exists msg. intros obj env Hfalsy.
  rewrite callTool_unfold. unfold call_outcome.
  cbn [params_name params_arguments]. rewrite Hsel.
  assert (endpoint_of r (Some obj) = inl (Error msg)) as ->; [|reflexivity].
  destruct r as [guard path keys|param m before after encoded]; simpl in Hg.
  - subst guard. cbn [endpoint_of]. unfold check, prop. cbn [bindX].
    rewrite Hfalsy. reflexivity.
  - injection Hg as -> ->. cbn [endpoint_of]. unfold check, prop. cbn [bindX].
    rewrite Hfalsy. reflexivity.
Qed.

Lemma falsy_required_parameter_is_rejected_witness :
  ∃ msg,
    callTool (mkCallToolParams (js "econ_dataset")
                (Some {[ js "id" := JNumber (js "0") ]})) offline
    = (inr {| content := [ {| block_type := js "text";
                              block_text := js "Error: " ++ msg |} ];
              isError := Some true |}, []).
Proof.
  pose (def := List.nth 3 tools (mkToolDefinition [] [] (mkInputSchema [] [] None))).
  destruct (falsy_required_parameter_is_rejected def (js "id")) as [msg H].
  - apply list_elem_of_lookup. exists 3%nat. reflexivity.
  - apply list_elem_of_here.
  - exists msg. apply H. vm_compute. reflexivity.
Defined.

(** X6. A call without an [arguments] object: a tool that declares
    parameters answers with the [TypeError] raised by reading its first
    declared parameter off [undefined], and issues no request; a tool that
    declares none ([news_general]) behaves as with an empty object. *)
Theorem call_without_arguments (def : ToolDefinition) (env : Env) :
  def ∈ tools →
  callTool (mkCallToolParams (name def) None) env
  = match head (declared def) with
    | Some key =>
        (inr {| content :=
                  [ {| block_type := js "text";
                       block_text :=
                         js "Error: Cannot read properties of undefined (reading '"
                           ++ key ++ js "')" |} ];
                isError := Some true |}, [])
    | None => callTool (mkCallToolParams (name def) (Some ∅)) env
    end.
Proof.
  intros Hdef.
  destruct (clause_reads_declared def Hdef) as (r & Hsel & _ & Hhead & _).
  rewrite <- Hhead. rewrite !callTool_unfold. unfold call_outcome.
  cbn [params_name params_arguments]. rewrite Hsel.
  destruct r as [[[param msg]|] path [|key keys]|param msg before after encoded];
    reflexivity.
Qed.

Lemma call_without_arguments_witness :
  callTool (mkCallToolParams (js "econ_calendar") None) offline
  = (inr {| content :=
              [ {| block_type := js "text";
                   block_text :=
                     js "Error: Cannot read properties of undefined (reading '"
                       ++ js "from" ++ js "')" |} ];
            isError := Some true |}, []).
Proof.
  pose (def := List.nth 4 tools (mkToolDefinition [] [] (mkInputSchema [] [] None))).
  apply (call_without_arguments def offline).
  apply list_elem_of_lookup. exists 4%nat. reflexivity.
Defined.

(** ** The surroundings of a call *)

(** X7. What a call asks of the network depends on the name and the
    arguments alone: under any two surroundings it requests the same URLs
    with the same method; and a call that issues no request under one
    returns the same envelope under every other (validation never looks
    at the key or at the network). *)
Theorem requests_independent_of_surroundings (request : CallToolParams)
    (env env' : Env) :
  url <$> (callTool request env).2 = url <$> (callTool request env').2
  ∧ (fun req => method (init req)) <$> (callTool request env).2
    = (fun req => method (init req)) <$> (callTool request env').2
  ∧ ((callTool request env).2 = [] → callTool request env' = callTool request env).
Proof.
  rewrite !callTool_unfold. unfold call_outcome.
  destruct (select _ routes) as [r|]; [|repeat split].
  destruct (endpoint_of r _) as [e|endpoint]; [repeat split|].
  split; [reflexivity|]. split; [reflexivity|]. discriminate.
Qed.

(** X8. A success envelope is never made up: when a call returns an
    envelope without [isError], it issued exactly one request, [fetch]
    resolved it with a success status, the body parsed, and the text is
    the rendering of that payload. *)
Theorem success_only_from_ok_response (request : CallToolParams) (env : Env)
    (r : CallToolResult) :
  (callTool request env).1 = inr r →
  isError r = None →
  ∃ req response payload,
    (callTool request env).2 = [req]
    ∧ fetch env req = inr response
    ∧ ok response = true
    ∧ json response = inr payload
    ∧ r = {| content := [ {| block_type := js "text";
                             block_text := JSON.stringify payload |} ];
             isError := None |}.
Proof.
  rewrite callTool_unfold. unfold call_outcome.
  destruct (select _ routes) as [row|]; [|intros [= <-]; discriminate].
  destruct (endpoint_of row _) as [e|endpoint]; [intros [= <-]; discriminate|].
  cbn [fst snd]. unfold remote_outcome.
  destruct (fetch env (request_to env endpoint)) as [e|response] eqn:Hfetch;
    [intros [= <-]; discriminate|].
  destruct (ok response) eqn:Hok.
  - destruct (json response) as [e|payload] eqn:Hjson;
      [intros [= <-]; discriminate|].
    intros [= <-] _. exists (request_to env endpoint), response, payload.
    repeat split; assumption.
  - destruct (text response); intros [= <-]; discriminate.
Qed.

Lemma success_only_from_ok_response_witness :
  ∃ req response payload,
    (callTool (mkCallToolParams (js "news_general") None)
              (answering None (found empty_feed (js "{ }")))).2 = [req]
    ∧ fetch (answering None (found empty_feed (js "{ }"))) req = inr response
    ∧ ok response = true
    ∧ json response = inr payload
    ∧ success_result empty_feed
      = {| content := [ {| block_type := js "text";
                           block_text := JSON.stringify payload |} ];
           isError := None |}.
Proof.
  apply (success_only_from_ok_response
           (mkCallToolParams (js "news_general") None)
           (answering None (found empty_feed (js "{ }")))
           (success_result empty_feed)).
  - vm_compute. reflexivity.
  - reflexivity.
Defined.

(** ** [makeApiRequest] with any [options] *)

Lemma str_eqb_sym_false (a b : jsstring) : str_eqb a b = false → str_eqb b a = false.
Proof.
  intros H. destruct (str_eqb b a) eqn:E; [|reflexivity].
  apply str_eqb_eq in E as ->. rewrite str_eqb_refl in H. discriminate.
Qed.

Lemma get_None_iff (obj : Headers) (key : jsstring) :
  get obj key = None ↔ key ∉ obj.*1.
Proof.
  induction obj as [|[k w] rest IH]; cbn [get fmap list_fmap fst].
  - split; [intros _; apply not_elem_of_nil|reflexivity].
  - rewrite not_elem_of_cons. destruct (str_eqb k key) eqn:E.
    + apply str_eqb_eq in E as ->. split; [discriminate|]. intros [H _].
      contradiction.
    + rewrite IH. split; [|intros [_ H]; exact H]. intros H. split; [|exact H].
      intros ->. rewrite str_eqb_refl in E. discriminate.
Qed.

Lemma get_update (obj : Headers) (key v key' : jsstring) :
  is_Some (get obj key) →
  get (update obj key v) key'
  = if str_eqb key key' then Some v else get obj key'.
Proof.
  induction obj as [|[k w] rest IH]; cbn [update get]; intros Hsome.
  - destruct Hsome as [x Hx]. discriminate.
  - destruct (str_eqb k key) eqn:Hk; cbn [get].
    + apply str_eqb_eq in Hk as ->. destruct (str_eqb key key'); reflexivity.
    + rewrite (IH Hsome). destruct (str_eqb k key') eqn:Hk'; [|reflexivity].
      apply str_eqb_eq in Hk' as ->. rewrite str_eqb_sym_false; [reflexivity|].
      exact Hk.
Qed.

Lemma get_define (obj : Headers) (key v key' : jsstring) :
  get obj key = None →
  get (define obj key v) key'
  = if str_eqb key key' then Some v else get obj key'.
Proof.
  induction obj as [|[k w] rest IH]; cbn [define get]; intros Hnone;
    [reflexivity|].
  destruct (str_eqb k key) eqn:Hk; [discriminate|].
  destruct (precedes key k); cbn [get]; [reflexivity|].
  rewrite (IH Hnone). destruct (str_eqb k key') eqn:Hk'; [|reflexivity].
  apply str_eqb_eq in Hk' as ->. rewrite str_eqb_sym_false; [reflexivity|].
  exact Hk.
Qed.

(** Reading after writing: the written name has the new value, every
    other name the value it had. *)
Lemma get_assign (obj : Headers) (key v key' : jsstring) :
  get (assign obj key v) key'
  = if str_eqb key key' then Some v else get obj key'.
Proof.
  unfold assign. destruct (get obj key) as [w|] eqn:Hget.
  - apply get_update. rewrite Hget. eauto.
  - apply get_define, Hget.
Qed.

Lemma update_keys (obj : Headers) (key v : jsstring) :
  (update obj key v).*1 = obj.*1.
Proof.
  induction obj as [|[k w] rest IH]; cbn [update]; [reflexivity|].
  destruct (str_eqb k key); cbn [fmap list_fmap fst]; [reflexivity|].
  f_equal. exact IH.
Qed.

Lemma define_keys (obj : Headers) (key v : jsstring) :
  (define obj key v).*1 ≡ₚ key :: obj.*1.
Proof.
  induction obj as [|[k w] rest IH]; cbn [define]; [reflexivity|].
  destruct (precedes key k); cbn [fmap list_fmap fst]; [reflexivity|].
  cbn [fmap list_fmap fst] in IH. rewrite IH. apply Permutation_swap.
Qed.

Lemma assign_NoDup (obj : Headers) (key v : jsstring) :
  NoDup obj.*1 → NoDup (assign obj key v).*1.
Proof.
  intros Hnd. unfold assign. destruct (get obj key) as [w|] eqn:Hget.
  - rewrite update_keys. exact Hnd.
  - rewrite define_keys. apply NoDup_cons. split; [|exact Hnd].
    apply get_None_iff, Hget.
Qed.

Lemma get_app (a b : Headers) (key : jsstring) :
  get (a ++ b) key = match get a key with Some v => Some v | None => get b key end.
Proof.
  induction a as [|[k v] a IH]; cbn [app get]; [reflexivity|].
  destruct (str_eqb k key); [reflexivity|exact IH].
Qed.

(** A spread writes in order: the last entry of a name wins, and a name
    the spread does not mention keeps its value. *)
Lemma get_spread (more obj : Headers) (key : jsstring) :
  get (spread obj more) key
  = match get (reverse more) key with Some v => Some v | None => get obj key end.
Proof.
  revert obj. induction more as [|[k v] more IH]; intros obj; [reflexivity|].
  change (spread obj ((k, v) :: more)) with (spread (assign obj k v) more).
  rewrite IH, reverse_cons, get_app, get_assign. cbn [get].
  destruct (get (reverse more) key); [reflexivity|].
  destruct (str_eqb k key); reflexivity.
Qed.

Lemma get_elem (obj : Headers) (key v : jsstring) :
  NoDup obj.*1 → (key, v) ∈ obj → get obj key = Some v.
Proof.
  induction obj as [|[k w] rest IH]; intros Hnd Hin.
  - apply elem_of_nil in Hin. contradiction.
  - cbn [fmap list_fmap fst] in Hnd. apply NoDup_cons in Hnd as [Hfresh Hnd].
    cbn [get]. apply elem_of_cons in Hin as [[= -> ->]|Hin].
    + rewrite str_eqb_refl. reflexivity.
    + destruct (str_eqb k key) eqn:E; [|apply IH; assumption].
      apply str_eqb_eq in E as ->. exfalso. apply Hfresh.
      apply (list_elem_of_fmap_2 fst) in Hin. exact Hin.
Qed.

Lemma get_None (obj : Headers) (key : jsstring) :
  key ∉ obj.*1 → get obj key = None.
Proof.
  induction obj as [|[k w] rest IH]; intros Hn; [reflexivity|].
  cbn [get]. destruct (str_eqb k key) eqn:E.
  - apply str_eqb_eq in E as ->. exfalso. apply Hn, list_elem_of_here.
  - apply IH. intros Hin. apply Hn, list_elem_of_further, Hin.
Qed.

Lemma spread_NoDup (more obj : Headers) :
  NoDup obj.*1 → NoDup (spread obj more).*1.
Proof.
  revert obj. induction more as [|[k v] more IH]; intros obj Hnd; [exact Hnd|].
  change (spread obj ((k, v) :: more)) with (spread (assign obj k v) more).
  apply IH, assign_NoDup, Hnd.
Qed.

Lemma request_headers_spread (key : option jsstring) :
  spread [(js "Content-Type", js "application/json")] (authorization key)
  = request_headers key.
Proof. destruct key as [[|c k]|]; reflexivity. Qed.

Lemma request_headers_NoDup (key : option jsstring) :
  NoDup (request_headers key).*1.
Proof.
  rewrite <- request_headers_spread. apply spread_NoDup, NoDup_singleton.
Qed.

(** X9. Whatever [options] it is given, [makeApiRequest] hands [fetch]
    exactly one request, to [API_BASE_URL + endpoint] with the method of
    the options; in its headers no name occurs twice, every header of the
    options is sent with the caller's value (it replaces the default of
    the same name), and every other name keeps its default. *)
Theorem caller_headers_take_precedence (endpoint : jsstring)
    (options : RequestInit) (env : Env) :
  NoDup (default [] (headers options)).*1 →
  ∃ sent,
    (makeApiRequest endpoint options env).2
    = [ {| url := API_BASE_URL ++ endpoint;
           init := {| method := method options; headers := Some sent |} |} ]
    ∧ NoDup sent.*1
    ∧ (∀ key v, (key, v) ∈ default [] (headers options) → get sent key = Some v)
    ∧ (∀ key, key ∉ (default [] (headers options)).*1 →
              get sent key = get (request_headers (API_KEY env)) key).
Proof.
  intros Hnd.
  exists (spread (request_headers (API_KEY env)) (default [] (headers options))).
  split; [|split; [|split]].
  - unfold makeApiRequest, bindE, read_API_KEY, try_catch, await_fetch.
    rewrite request_headers_spread.
    destruct (fetch env _) as [e|response]; [reflexivity|].
    destruct (ok response); cbn [negb].
    + unfold sync. destruct (json response); reflexivity.
    + unfold sync, throw. destruct (text response); reflexivity.
  - apply spread_NoDup, request_headers_NoDup.
  - intros key v Hin. rewrite get_spread.
    rewrite (get_elem (reverse _) key v); [reflexivity| |].
    + rewrite fmap_reverse, reverse_Permutation. exact Hnd.
    + apply elem_of_reverse, Hin.
  - intros key Hn. rewrite get_spread, get_None; [reflexivity|].
    rewrite fmap_reverse, elem_of_reverse. exact Hn.
Qed.

Lemma caller_headers_take_precedence_witness :
  ∃ sent,
    (makeApiRequest (js "news")
       (mkRequestInit (Some (js "GET"))
          (Some [(js "Accept", js "text/csv");
                 (js "Content-Type", js "text/plain")]))
       (answering (Some (js "secret")) not_found)).2
    = [ {| url := API_BASE_URL ++ js "news";
           init := {| method := Some (js "GET"); headers := Some sent |} |} ]
    ∧ NoDup sent.*1
    ∧ (∀ key v,
         (key, v) ∈ [(js "Accept", js "text/csv");
                     (js "Content-Type", js "text/plain")] →
         get sent key = Some v)
    ∧ (∀ key,
         key ∉ [(js "Accept", js "text/csv");
                (js "Content-Type", js "text/plain")].*1 →
         get sent key = get (request_headers (Some (js "secret"))) key).
Proof.
  apply (caller_headers_take_precedence (js "news")
           (mkRequestInit (Some (js "GET"))
              (Some [(js "Accept", js "text/csv");
                     (js "Content-Type", js "text/plain")]))
           (answering (Some (js "secret")) not_found)).
  apply (bool_decide_unpack _). vm_compute. exact I.
Defined.

(** X10. [makeApiRequest] looks at a rejection only through its message,
    and at a response only through its status and one body reader,
    [json()] after a success status and [text()] otherwise: two networks
    that agree on these give the same outcome and the same request. The
    body of a failure is never parsed, the text of a success never read,
    and the class of an error never kept. *)
Theorem unread_body_is_irrelevant (endpoint : jsstring) (options : RequestInit)
    (key : option jsstring) (net net' : Request → Exn Response) :
  (∀ req, match net req, net' req with
          | inl e, inl e' => message e = message e'
          | inr r, inr r' => same_as_read r r'
          | _, _ => False
          end) →
  makeApiRequest endpoint options (mkEnv key net)
  = makeApiRequest endpoint options (mkEnv key net').
Proof.
  intros Hsame.
  unfold makeApiRequest, bindE, read_API_KEY, try_catch, await_fetch.
  cbn [API_KEY fetch].
  match goal with |- context [net ?r] => specialize (Hsame r) end.
  destruct (net _) as [e|r], (net' _) as [e'|r']; try contradiction.
  - rewrite Hsame. reflexivity.
  - destruct Hsame as [Hstatus Hbody].
    assert (ok r' = ok r) as Hok by (unfold ok; rewrite Hstatus; reflexivity).
    rewrite Hok. destruct (ok r); cbn [negb]; unfold sync, throw.
    + destruct (json r) as [e|p], (json r') as [e'|p']; try contradiction;
        cbn in Hbody; rewrite Hbody; reflexivity.
    + destruct (text r) as [e|t], (text r') as [e'|t']; try contradiction;
        cbn in Hbody; rewrite Hbody, ?Hstatus; reflexivity.
Qed.

Lemma unread_body_is_irrelevant_witness :
  makeApiRequest (js "stocks/ZZZZ") GET (mkEnv None (fun _ => inr not_found))
  = makeApiRequest (js "stocks/ZZZZ") GET
      (mkEnv None (fun _ => inr (mkResponse 404 (inr (js "Not Found"))
                                            (inr (JString (js "parsed")))))).
Proof.
  apply (unread_body_is_irrelevant (js "stocks/ZZZZ") GET None
           (fun _ => inr not_found)
           (fun _ => inr (mkResponse 404 (inr (js "Not Found"))
                                     (inr (JString (js "parsed")))))).
  intros req. split; reflexivity.
Defined.

(** ** [encodeURIComponent] *)

Lemma lor_below (a b n : N) : a < 2 ^ n → b < 2 ^ n → N.lor a b < 2 ^ n.
Proof.
  intros Ha Hb.
  destruct (N.eq_dec (N.lor a b) 0) as [->|Hne]; [lia|].
  destruct (N.eq_dec a 0) as [->|Ha0]; [rewrite N.lor_0_l; exact Hb|].
  destruct (N.eq_dec b 0) as [->|Hb0]; [rewrite N.lor_0_r; exact Ha|].
  apply N.log2_lt_pow2; [lia|]. rewrite N.log2_lor.
  apply N.max_lub_lt; apply N.log2_lt_pow2; lia.
Qed.

Lemma shiftr_below (a n m : N) : a < 2 ^ n * m → N.shiftr a n < m.
Proof.
  intros H. rewrite N.shiftr_div_pow2. apply N.Div0.div_lt_upper_bound, H.
Qed.

Lemma low_bits_below (a n : N) : N.land a (N.ones n) < 2 ^ n.
Proof. rewrite N.land_ones. apply N.mod_lt, N.pow_nonzero. lia. Qed.

(** The UTF-8 octets of a code point are octets. *)
Lemma utf8_octets (cp : N) : cp < 0x110000 → Forall (fun o => o < 256) (URI.utf8 cp).
Proof.
  intros Hcp. unfold URI.utf8.
  assert (∀ x, N.land x 0x3F < 256) as Hlow.
  { intros x. pose proof (low_bits_below x 6) as H. change (N.ones 6) with 0x3F in H.
    change (2 ^ 6) with 64 in H. lia. }
  assert (∀ a b, a < 256 → b < 256 → N.lor a b < 256) as Hlor.
  { intros a b. apply (lor_below a b 8). }
  destruct (N.ltb_spec cp 0x80) as [H1|H1];
    [|destruct (N.ltb_spec cp 0x800) as [H2|H2];
      [|destruct (N.ltb_spec cp 0x10000) as [H3|H3]]];
    repeat (apply List.Forall_cons); try apply List.Forall_nil;
    try lia; apply Hlor; try lia; try apply Hlow; apply shiftr_below; lia.
Qed.

Lemma hex_digit_unreserved (d : N) :
  d < 16 → URI.unreserved (hex_digit true d) = true.
Proof.
  intros Hd. unfold URI.unreserved, URI.is_alpha, URI.is_digit, hex_digit.
  apply orb_true_iff. left.
  destruct (d <? 10) eqn:H; [apply N.ltb_lt in H|apply N.ltb_ge in H];
    rewrite !orb_true_iff, !andb_true_iff, !N.leb_le; lia.
Qed.

Lemma percent_safe (octet : N) : octet < 256 → Forall url_safe (URI.percent octet).
Proof.
  intros Ho. unfold URI.percent.
  repeat (apply List.Forall_cons); [| | |apply List.Forall_nil].
  - right. reflexivity.
  - left. apply hex_digit_unreserved, shiftr_below. lia.
  - left. apply hex_digit_unreserved.
    pose proof (low_bits_below octet 4) as H. exact H.
Qed.

Lemma escape_safe (cp : N) : cp < 0x110000 → Forall url_safe (URI.escape cp).
Proof.
  intros Hcp. unfold URI.escape. apply Forall_concat, Forall_fmap.
  eapply Forall_impl; [apply utf8_octets, Hcp|]. apply percent_safe.
Qed.

Lemma pair_is_code_point (c d : N) :
  URI.is_lead_surrogate c = true → URI.is_trail_surrogate d = true →
  URI.code_point_of_pair c d < 0x110000.
Proof.
  unfold URI.is_lead_surrogate, URI.is_trail_surrogate, URI.code_point_of_pair.
  rewrite !andb_true_iff, !N.leb_le. lia.
Qed.

Lemma encode_safe (s out : jsstring) :
  Forall is_code_unit s → URI.encode s = inr out → Forall url_safe out.
Proof.
  remember (length s) as n eqn:Hn. revert s out Hn.
  induction (lt_wf n) as [n _ IH]. intros [|c rest] out Hn Hs.
  { intros [= <-]. constructor. }
  simpl in Hn. apply Forall_cons in Hs as [Hc Hs]. cbn [URI.encode].
  destruct (URI.unreserved c) eqn:Hu.
  - destruct (URI.encode rest) as [|out'] eqn:E; [discriminate|]. intros [= <-].
    constructor; [left; exact Hu|].
    apply (IH (length rest) ltac:(lia) rest out' eq_refl Hs E).
  - destruct (URI.is_trail_surrogate c); [discriminate|].
    destruct (URI.is_lead_surrogate c) eqn:Hl.
    + destruct rest as [|d rest']; [discriminate|].
      destruct (URI.is_trail_surrogate d) eqn:Ht; [|discriminate].
      destruct (URI.encode rest') as [|out'] eqn:E; [discriminate|]. intros [= <-].
      apply Forall_cons in Hs as [_ Hs]. simpl in Hn. apply Forall_app. split.
      * apply escape_safe, pair_is_code_point; assumption.
      * apply (IH (length rest') ltac:(lia) rest' out' eq_refl Hs E).
    + destruct (URI.encode rest) as [|out'] eqn:E; [discriminate|]. intros [= <-].
      apply Forall_app. split.
      * apply escape_safe. unfold is_code_unit in Hc. lia.
      * apply (IH (length rest) ltac:(lia) rest out' eq_refl Hs E).
Qed.

Lemma url_safe_not_reserved (c : N) :
  url_safe c → c ∉ js ";/?:@&=+$,# ".
Proof.
  intros Hsafe Hin. vm_compute in Hin.
  repeat (apply elem_of_cons in Hin as [->|Hin];
          [destruct Hsafe as [H|H]; vm_compute in H; discriminate|]).
  apply elem_of_nil in Hin. exact Hin.
Qed.

(** [encodeURIComponent] throws exactly on the strings that hold an
    unpaired surrogate, always the [URIError] of [URI malformed]; on every
    other string it returns. *)
Theorem encode_throws_iff_unpaired_surrogate (s : jsstring) :
  (isWellFormed s = false ↔ URI.encode s = inl (URIError (js "URI malformed")))
  ∧ (isWellFormed s = true ↔ ∃ out, URI.encode s = inr out).
Proof.
  split; split.
  - apply encode_not_isWellFormed.
  - intros H. destruct (isWellFormed s) eqn:Hwf; [|reflexivity].
    destruct (encode_isWellFormed s Hwf) as [out Hout]. congruence.
  - apply encode_isWellFormed.
  - intros [out H]. destruct (isWellFormed s) eqn:Hwf; [reflexivity|].
    rewrite (encode_not_isWellFormed s Hwf) in H. discriminate.
Qed.

(** What [encodeURIComponent] returns for a string of UTF-16 code
    units is made of unreserved characters and [%] alone: none of the
    reserved characters [; / ? : @ & = + $ , #] and no space is left. *)
Theorem encoded_value_is_url_safe (s out : jsstring) :
  Forall is_code_unit s →
  URI.encode s = inr out →
  Forall url_safe out ∧ ∀ c, c ∈ js ";/?:@&=+$,# " → c ∉ out.
Proof.
  intros Hs Henc. pose proof (encode_safe s out Hs Henc) as Hsafe.
  split; [exact Hsafe|]. intros c Hc Hin.
  rewrite Forall_forall in Hsafe.
  exact (url_safe_not_reserved c (Hsafe c Hin) Hc).
Qed.

Lemma encoded_value_is_url_safe_witness :
  Forall url_safe (js "a%2Fb%3Fc%20%26d")
  ∧ ∀ c, c ∈ js ";/?:@&=+$,# " → c ∉ js "a%2Fb%3Fc%20%26d".
Proof.
  apply (encoded_value_is_url_safe (js "a/b?c &d") (js "a%2Fb%3Fc%20%26d")).
  - apply (bool_decide_unpack _). vm_compute. exact I.
  - reflexivity.
Defined.

Lemma escape_length (cp : N) : (3 ≤ length (URI.escape cp))%nat.
Proof.
  unfold URI.escape, URI.utf8.
  destruct (cp <? 0x80); [|destruct (cp <? 0x800); [|destruct (cp <? 0x10000)]];
    cbn; lia.
Qed.

Lemma encode_length (s out : jsstring) :
  URI.encode s = inr out → (length s ≤ length out)%nat.
Proof.
  remember (length s) as n eqn:Hn. revert s out Hn.
  induction (lt_wf n) as [n _ IH]. intros [|c rest] out Hn.
  { intros _. simpl in Hn. lia. }
  simpl in Hn. cbn [URI.encode].
  destruct (URI.unreserved c).
  - destruct (URI.encode rest) as [|out'] eqn:E; [discriminate|]. intros [= <-].
    pose proof (IH (length rest) ltac:(lia) rest out' eq_refl E). simpl. lia.
  - destruct (URI.is_trail_surrogate c); [discriminate|].
    destruct (URI.is_lead_surrogate c).
    + destruct rest as [|d rest']; [discriminate|].
      destruct (URI.is_trail_surrogate d); [|discriminate].
      destruct (URI.encode rest') as [|out'] eqn:E; [discriminate|]. intros [= <-].
      simpl in Hn.
      pose proof (IH (length rest') ltac:(lia) rest' out' eq_refl E).
      pose proof (escape_length (URI.code_point_of_pair c d)).
      rewrite length_app. lia.
    + destruct (URI.encode rest) as [|out'] eqn:E; [discriminate|]. intros [= <-].
      pose proof (IH (length rest) ltac:(lia) rest out' eq_refl E).
      pose proof (escape_length c). rewrite length_app. lia.
Qed.

(** [encodeURIComponent] returns its argument unchanged exactly when
    every character is unreserved (a letter, a digit or one of
    [- _ . ! ~ * ' ( )]); any other character makes the result longer. *)
Theorem encode_is_identity_iff_unreserved (s : jsstring) :
  URI.encode s = inr s ↔ Forall (fun c => URI.unreserved c = true) s.
Proof.
  split.
  - induction s as [|c rest IH]; [constructor|]. cbn [URI.encode].
    destruct (URI.unreserved c) eqn:Hu.
    + destruct (URI.encode rest) as [|out'] eqn:E; [discriminate|].
      intros [= ->]. constructor; [exact Hu|]. apply IH. reflexivity.
    + intros H. exfalso.
      destruct (URI.is_trail_surrogate c); [discriminate|].
      destruct (URI.is_lead_surrogate c).
      * destruct rest as [|d rest']; [discriminate|].
        destruct (URI.is_trail_surrogate d); [|discriminate].
        destruct (URI.encode rest') as [|out'] eqn:E; [discriminate|].
        injection H as H. apply (f_equal length) in H.
        rewrite length_app in H. simpl in H.
        pose proof (encode_length rest' out' E).
        pose proof (escape_length (URI.code_point_of_pair c d)). lia.
      * destruct (URI.encode rest) as [|out'] eqn:E; [discriminate|].
        injection H as H. apply (f_equal length) in H.
        rewrite length_app in H. simpl in H.
        pose proof (encode_length rest out' E).
        pose proof (escape_length c). lia.
  - induction 1 as [|c rest Hc _ IH]; [reflexivity|].
    cbn [URI.encode]. rewrite Hc, IH. reflexivity.
Qed.

(** ** [buildQueryString] *)

Lemma mapX_inr {A B} (f : A → Exn B) (xs : list A) (ys : list B) :
  mapX f xs = inr ys → Forall2 (fun x y => f x = inr y) xs ys.
Proof.
  revert ys. induction xs as [|x xs IH]; intros ys; cbn [mapX].
  - intros [= <-]. constructor.
  - destruct (f x) as [|y] eqn:Hx; [discriminate|]. cbn [bindX].
    destruct (mapX f xs) as [|ys'] eqn:Hxs; [discriminate|]. cbn [bindX].
    intros [= <-]. constructor; [exact Hx|]. apply IH. reflexivity.
Qed.

Lemma supplied_nil (params : Params) :
  supplied params = [] ↔ Forall (fun kv => omitted kv.2) params.
Proof.
  unfold supplied. induction params as [|[key v] params IH]; cbn [List.filter].
  - split; [constructor|reflexivity].
  - destruct (is_supplied v) eqn:Hs.
    + split; [discriminate|]. intros [Hv _]%Forall_cons. cbn [snd] in Hv.
      apply is_supplied_false in Hv. congruence.
    + rewrite IH. apply is_supplied_false in Hs. split.
      * intros H. constructor; assumption.
      * intros [_ H]%Forall_cons. exact H.
Qed.

(** What [buildQueryString] returns, by the parts it made. *)
Lemma buildQueryString_inr (params : Params) (q : jsstring) :
  buildQueryString params = inr q →
  ∃ parts,
    Forall2 (fun kv part =>
               ∃ encoded, encodeURIComponent kv.2 = inr encoded
                          ∧ part = kv.1 ++ js "=" ++ encoded)
            (supplied params) parts
    ∧ q = query_string_of parts.
Proof.
  unfold buildQueryString. fold (supplied params).
  match goal with
  | |- context [mapX ?f (supplied params)] =>
      destruct (mapX f (supplied params)) as [|parts] eqn:Hmap; [discriminate|]
  end.
  cbn [bindX]. intros [= <-]. exists parts. split.
  - apply mapX_inr in Hmap. eapply Forall2_impl; [exact Hmap|].
    intros [key v] part. cbn [fst snd].
    destruct (encodeURIComponent v) as [|encoded]; [discriminate|].
    cbn [bindX]. intros [= <-]. eauto.
  - destruct parts; reflexivity.
Qed.

(** X12. [buildQueryString] returns the empty string exactly when every
    entry is [undefined], [null] or the empty string; whatever else it
    returns begins with [?]. It never returns a bare [?]. *)
Theorem query_string_empty_iff_nothing_supplied (params : Params) :
  (buildQueryString params = inr [] ↔ Forall (fun kv => omitted kv.2) params)
  ∧ (∀ q, buildQueryString params = inr q → q ≠ [] →
          ∃ rest, q = js "?" ++ rest ∧ rest ≠ []).
Proof.
  split; [split|].
  - intros H. apply buildQueryString_inr in H as (parts & Hparts & Hq).
    destruct parts as [|part parts]; [|discriminate].
    apply Forall2_nil_inv_r in Hparts. apply supplied_nil, Hparts.
  - intros H%supplied_nil. unfold buildQueryString. fold (supplied params).
    rewrite H. reflexivity.
  - intros q H Hne. apply buildQueryString_inr in H as (parts & Hparts & ->).
    destruct parts as [|part parts]; [contradiction|].
    exists (join (js "&") (part :: parts)). split; [reflexivity|].
    apply Forall2_cons_inv_r in Hparts
      as ([key v] & rest & (encoded & _ & ->) & _ & _).
    cbn [fst]. destruct parts; cbn [join]; destruct key; discriminate.
Qed.

Lemma occurrences_app (c : N) (a b : jsstring) :
  occurrences c (a ++ b) = (occurrences c a + occurrences c b)%nat.
Proof. unfold occurrences. rewrite List.filter_app, length_app. reflexivity. Qed.

Lemma occurrences_absent (c : N) (s : jsstring) :
  c ∉ s → occurrences c s = 0%nat.
Proof.
  unfold occurrences. induction s as [|x s IH]; intros Hn; [reflexivity|].
  cbn [List.filter]. destruct (N.eqb_spec c x) as [->|_].
  - exfalso. apply Hn, list_elem_of_here.
  - apply IH. intros Hin. apply Hn, list_elem_of_further, Hin.
Qed.

Lemma occurrences_join (c : N) (sep : jsstring) (parts : list jsstring) (k : nat) :
  Forall (fun part => occurrences c part = k) parts →
  occurrences c (join sep parts)
  = (length parts * k + pred (length parts) * occurrences c sep)%nat.
Proof.
  induction 1 as [|part parts Hpart Hparts IH]; [reflexivity|].
  destruct parts as [|part' parts].
  - cbn [join]. rewrite Hpart. simpl. lia.
  - change (join sep (part :: part' :: parts))
      with (part ++ sep ++ join sep (part' :: parts)).
    rewrite !occurrences_app, Hpart, IH. simpl. lia.
Qed.

(** One [key=value] part of a query string holds exactly one [=] and
    neither [&] nor [?]. *)
Lemma part_structure (key encoded : jsstring) :
  Forall (fun c => URI.unreserved c = true) key →
  Forall url_safe encoded →
  occurrences 61 (key ++ js "=" ++ encoded) = 1%nat
  ∧ occurrences 38 (key ++ js "=" ++ encoded) = 0%nat
  ∧ occurrences 63 (key ++ js "=" ++ encoded) = 0%nat.
Proof.
  intros Hkey Henc.
  assert (∀ c, c ∈ js ";/?:@&=+$,# " → occurrences c key = 0%nat
                                        ∧ occurrences c encoded = 0%nat) as H.
  { intros c Hc. rewrite Forall_forall in Hkey, Henc.
    split; apply occurrences_absent; intros Hin.
    - exact (url_safe_not_reserved c (or_introl (Hkey c Hin)) Hc).
    - exact (url_safe_not_reserved c (Henc c Hin) Hc). }
  rewrite !occurrences_app.
  destruct (H 61) as [-> ->]; [apply (bool_decide_unpack _); vm_compute; exact I|].
  destruct (H 38) as [-> ->]; [apply (bool_decide_unpack _); vm_compute; exact I|].
  destruct (H 63) as [-> ->]; [apply (bool_decide_unpack _); vm_compute; exact I|].
  repeat split.
Qed.

(** X13. A value cannot add, remove or split a parameter: when the keys
    are made of unreserved characters and the values convert to strings
    of code units, the query string [buildQueryString] returns holds one
    [=] for each supplied entry, one [&] between two of them, and one [?]
    if there is any entry at all. *)
Theorem query_string_structure (params : Params) (q : jsstring) :
  Forall (fun kv => Forall (fun c => URI.unreserved c = true) kv.1
                    ∧ ∀ s, ToString kv.2 = inr s → Forall is_code_unit s)
         params →
  buildQueryString params = inr q →
  occurrences 61 q = length (supplied params)
  ∧ occurrences 38 q = pred (length (supplied params))
  ∧ occurrences 63 q = min 1 (length (supplied params)).
Proof.
  intros Hvalid Hq.
  apply buildQueryString_inr in Hq as (parts & Hparts & ->).
  assert (Forall (fun kv => Forall (fun c => URI.unreserved c = true) kv.1
                            ∧ ∀ s, ToString kv.2 = inr s → Forall is_code_unit s)
                 (supplied params)) as Hsup.
  { rewrite Forall_forall in *. intros kv Hin. apply Hvalid.
    apply list_elem_of_In. apply list_elem_of_In in Hin.
    unfold supplied in Hin. apply List.filter_In in Hin as [Hin _]. exact Hin. }
  assert (Forall (fun part => occurrences 61 part = 1%nat
                              ∧ occurrences 38 part = 0%nat
                              ∧ occurrences 63 part = 0%nat) parts) as Hcount.
  { clear Hvalid. induction Hparts as [|[key v] part kvs parts Hpart _ IH];
      [constructor|].
    apply Forall_cons in Hsup as [[Hkey Hv] Hsup].
    destruct Hpart as (encoded & Henc & ->). cbn [fst snd] in *.
    constructor; [|apply IH, Hsup].
    apply part_structure; [exact Hkey|]. unfold encodeURIComponent in Henc.
    destruct (ToString v) as [|s] eqn:Hs; [discriminate|]. cbn [bindX] in Henc.
    exact (encode_safe _ _ (Hv s eq_refl) Henc). }
  assert (length (supplied params) = length parts) as ->
    by (eapply Forall2_length; exact Hparts).
  destruct parts as [|part parts]; [repeat split|].
  unfold query_string_of. rewrite !occurrences_app.
  rewrite (occurrences_join 61 _ _ 1), (occurrences_join 38 _ _ 0),
    (occurrences_join 63 _ _ 0).
  - change (occurrences 61 (js "?")) with 0%nat.
    change (occurrences 61 (js "&")) with 0%nat.
    change (occurrences 38 (js "?")) with 0%nat.
    change (occurrences 38 (js "&")) with 1%nat.
    change (occurrences 63 (js "?")) with 1%nat.
    change (occurrences 63 (js "&")) with 0%nat.
    unfold jsstring. cbn [length]. split; [|split]; lia.
  - eapply Forall_impl; [exact Hcount|]. intros p (_ & _ & H). exact H.
  - eapply Forall_impl; [exact Hcount|]. intros p (_ & H & _). exact H.
  - eapply Forall_impl; [exact Hcount|]. intros p (H & _ & _). exact H.
Qed.

Lemma query_string_structure_witness :
  occurrences 61 (js "?country=a%26b%3Dc&exchange=NASDAQ") = 2%nat
  ∧ occurrences 38 (js "?country=a%26b%3Dc&exchange=NASDAQ") = 1%nat
  ∧ occurrences 63 (js "?country=a%26b%3Dc&exchange=NASDAQ") = 1%nat.
Proof.
  apply (query_string_structure
           [(js "country", Some (JString (js "a&b=c")));
            (js "type", undefined);
            (js "exchange", Some (JString (js "NASDAQ")))]
           (js "?country=a%26b%3Dc&exchange=NASDAQ")).
  - repeat (apply List.Forall_cons;
            [split;
             [apply (bool_decide_unpack _); vm_compute; exact I
             |intros s Hs; vm_compute in Hs; injection Hs as <-;
              apply (bool_decide_unpack _); vm_compute; exact I]|]).
    apply List.Forall_nil.
  - reflexivity.
Defined.

Lemma truthy_is_supplied (v : value) : ToBoolean v = true → is_supplied v = true.
Proof.
  destruct v as [[|b|r|[|c s]|xs|ms]|]; simpl; intros H;
    first [reflexivity | discriminate].
Qed.

(** X14. [econ_search] tests its required [query] and then sends it in
    the query string: every value that passes the test also survives the
    filter of [buildQueryString], so for every truthy [query] that
    [ToString] converts to a well-formed string the call requests
    [econ/search?query=] followed by the percent-encoded string, never
    the bare [econ/search]; a truthy [query] that cannot be encoded
    yields an error envelope and no request. *)
Theorem econ_search_sends_query (obj : gmap jsstring Json) (v : Json) (env : Env) :
  obj !! js "query" = Some v →
  ToBoolean (Some v) = true →
  is_supplied (Some v) = true
  ∧ (∀ s, ToString (Some v) = inr s → isWellFormed s = true →
          ∃ encoded,
            URI.encode s = inr encoded
            ∧ (callTool (mkCallToolParams (js "econ_search") (Some obj)) env).2
              = [request_to env (js "econ/search?query=" ++ encoded)])
  ∧ (¬ encodable (Some v) →
     ∃ e, callTool (mkCallToolParams (js "econ_search") (Some obj)) env
          = (inr (error_result (message e)), [])).
Proof.
  intros Hv Htruthy.
  pose proof (truthy_is_supplied _ Htruthy) as Hsup.
  assert (callTool (mkCallToolParams (js "econ_search") (Some obj)) env
          = match (let? encoded := encodeURIComponent (Some v) in
                   inr (js "econ/search?query=" ++ encoded)) with
            | inl e => (inr (error_result (message e)), [])
            | inr endpoint =>
                (inr match remote_outcome env endpoint with
                     | inl e => error_result (message e)
                     | inr payload => success_result payload
                     end, [request_to env endpoint])
            end) as Hcall.
  { rewrite callTool_unfold. unfold call_outcome.
    cbn [params_name params_arguments].
    change (select (js "econ_search") routes)
      with (Some (Query (Some (js "query", js "Search query is required"))
                        (js "econ/search") [js "query"])).
    cbn [endpoint_of]. unfold check, prop. cbn [bindX mapX]. rewrite Hv, Htruthy.
    cbn [negb bindX]. unfold buildQueryString. cbn [List.filter]. rewrite Hsup.
    cbn [mapX]. destruct (encodeURIComponent (Some v)); reflexivity. }
  split; [exact Hsup|]. split.
  - intros s Hs Hwf. destruct (encode_isWellFormed _ Hwf) as [encoded Henc].
    exists encoded. split; [exact Henc|]. rewrite Hcall.
    unfold encodeURIComponent. rewrite Hs. cbn [bindX]. rewrite Henc.
    reflexivity.
  - intros Hbad. rewrite Hcall.
    destruct (encodeURIComponent (Some v)) as [e|encoded] eqn:Henc.
    + exists e. reflexivity.
    + exfalso. apply Hbad, (encodeURIComponent_inr _ _ Henc).
Qed.

Lemma econ_search_sends_query_witness :
  is_supplied (Some (JString (js "GDP growth"))) = true
  ∧ ∃ encoded,
      URI.encode (js "GDP growth") = inr encoded
      ∧ (callTool (mkCallToolParams (js "econ_search")
                     (Some {[ js "query" := JString (js "GDP growth") ]}))
                  offline).2
        = [request_to offline (js "econ/search?query=" ++ encoded)].
Proof.
  destruct (econ_search_sends_query {[ js "query" := JString (js "GDP growth") ]}
              (JString (js "GDP growth")) offline) as (Hsup & Hok & _).
  - vm_compute. reflexivity.
  - reflexivity.
  - split; [exact Hsup|]. apply (Hok (js "GDP growth")); reflexivity.
Defined.

(** X15. The segment that [news_country] and [news_category] put in the
    path holds no reserved character: whatever the value, each request
    the call issues goes to the fixed prefix followed by one segment
    without any of [; / ? : @ & = + $ , #] and without a space. (The
    dot is unreserved: a value of [..] is sent as [..].) *)
Theorem news_segment_is_confined (label param before : jsstring)
    (obj : gmap jsstring Json) (env : Env) (req : Request) :
  (label, param, before)
    ∈ [(js "news_country", js "country", js "news/country/");
       (js "news_category", js "category", js "news/category/")] →
  (∀ s, ToString (obj !! param) = inr s → Forall is_code_unit s) →
  req ∈ (callTool (mkCallToolParams label (Some obj)) env).2 →
  (∃ segment,
     url req = API_BASE_URL ++ before ++ segment
     ∧ ∀ c, c ∈ js ";/?:@&=+$,# " → c ∉ segment)
  ∧ (callTool (mkCallToolParams (js "news_country")
                 (Some {[ js "country" := JString (js "..") ]})) env).2
    = [request_to env (js "news/country/..")].
Proof.
  intros Hrow Hunits Hreq. split;
    [|rewrite callTool_unfold; vm_compute; reflexivity].
  revert Hreq.
  assert (∃ msg, select label routes = Some (Path param msg before [] true))
    as [msg Hsel].
  { apply elem_of_cons in Hrow as [[= -> -> ->]|Hrow]; [eexists; reflexivity|].
    apply list_elem_of_singleton in Hrow as [= -> -> ->]. eexists. reflexivity. }
  rewrite callTool_unfold. unfold call_outcome.
  cbn [params_name params_arguments]. rewrite Hsel.
  cbn [endpoint_of]. unfold check, prop. cbn [bindX].
  destruct (ToBoolean (obj !! param)); cbn [negb bindX];
    [|intros H; apply elem_of_nil in H; contradiction].
  unfold encodeURIComponent.
  destruct (ToString (obj !! param)) as [e|s] eqn:Hs; cbn [bindX];
    [intros H; apply elem_of_nil in H; contradiction|].
  destruct (URI.encode s) as [e|segment] eqn:Henc;
    cbn [bindX]; [intros H; apply elem_of_nil in H; contradiction|].
  intros ->%list_elem_of_singleton. exists segment. split.
  - cbn [request_to url]. rewrite app_nil_r. reflexivity.
  - pose proof (encode_safe _ _ (Hunits s eq_refl) Henc) as Hsafe.
    rewrite Forall_forall in Hsafe. intros c Hc Hin.
    exact (url_safe_not_reserved c (Hsafe c Hin) Hc).
Qed.

Lemma news_segment_is_confined_witness :
  (∃ segment,
     url (request_to offline (js "news/country/..%2Fadmin%3Fx%3D1"))
     = API_BASE_URL ++ js "news/country/" ++ segment
     ∧ ∀ c, c ∈ js ";/?:@&=+$,# " → c ∉ segment)
  ∧ (callTool (mkCallToolParams (js "news_country")
                 (Some {[ js "country" := JString (js "..") ]})) offline).2
    = [request_to offline (js "news/country/..")].
Proof.
  apply (news_segment_is_confined (js "news_country") (js "country")
           (js "news/country/")
           {[ js "country" := JString (js "../admin?x=1") ]} offline
           (request_to offline (js "news/country/..%2Fadmin%3Fx%3D1"))).
  - apply list_elem_of_here.
  - intros s Hs. vm_compute in Hs. injection Hs as <-.
    apply (bool_decide_unpack _). vm_compute. exact I.
  - rewrite callTool_unfold. vm_compute. apply list_elem_of_here.
Defined.

(** X16. An error returned after a request was issued is always a
    failure of that request: [fetch] rejected, or the status was not a
    success, or the body of a success did not parse; and the text is
    [Error: Failed to fetch from <url>: <message>] for the message of
    that failure. *)
Theorem error_after_request_is_remote (request : CallToolParams) (env : Env)
    (req : Request) (r : CallToolResult) :
  (callTool request env).2 = [req] →
  (callTool request env).1 = inr r →
  isError r = Some true →
  ∃ underlying,
    remote_failure env req underlying
    ∧ r = {| content :=
               [ {| block_type := js "text";
                    block_text := js "Error: Failed to fetch from " ++ url req
                                    ++ js ": " ++ underlying |} ];
             isError := Some true |}.
Proof.
  intros Htrace.
  destruct (issued_request request env req Htrace) as (endpoint & -> & ->).
  unfold remote_outcome.
  destruct (fetch env (request_to env endpoint)) as [e|response] eqn:Hfetch.
  - intros [= <-] _. exists (message e). split; [|reflexivity].
    apply network_failure, Hfetch.
  - destruct (ok response) eqn:Hok.
    + destruct (json response) as [e|payload] eqn:Hjson;
        intros [= <-]; [|discriminate].
      intros _. exists (message e). split; [|reflexivity].
      eapply parse_failure; eassumption.
    + destruct (text response) as [e|errorText] eqn:Htext; intros [= <-] _.
      * exists (message e). split; [|reflexivity].
        eapply body_unreadable; eassumption.
      * eexists. split; [eapply request_failed; eassumption|reflexivity].
Qed.

Lemma error_after_request_is_remote_witness :
  ∃ underlying,
    remote_failure (answering None not_found)
      (request_to (answering None not_found) (js "stocks/ZZZZ/prices")) underlying
    ∧ error_result (js "Failed to fetch from https://api.axionquant.com/stocks/ZZZZ/prices: API request failed: 404 - Not Found")
      = {| content :=
             [ {| block_type := js "text";
                  block_text :=
                    js "Error: Failed to fetch from "
                      ++ url (request_to (answering None not_found)
                                (js "stocks/ZZZZ/prices"))
                      ++ js ": " ++ underlying |} ];
           isError := Some true |}.
Proof.
  apply (error_after_request_is_remote
           (mkCallToolParams (js "stocks_prices")
              (Some {[ js "ticker" := JString (js "ZZZZ") ]}))
           (answering None not_found)).
  - rewrite callTool_unfold. vm_compute. reflexivity.
  - rewrite callTool_unfold. vm_compute. reflexivity.
  - reflexivity.
Defined.

Lemma same_name_same_definition_witness :
  List.nth 49 tools (mkToolDefinition [] [] (mkInputSchema [] [] None))
  = List.nth 52 tools (mkToolDefinition [] [] (mkInputSchema [] [] None)).
Proof.
  apply same_name_same_definition.
  - apply list_elem_of_lookup. exists 49%nat. reflexivity.
  - apply list_elem_of_lookup. exists 52%nat. reflexivity.
  - reflexivity.
Defined.

(** X11. [buildQueryString] throws exactly when one of the entries it
    keeps cannot be encoded ([ToString] fails on it, or its string holds
    an unpaired surrogate), and what it throws is the [TypeError] of the
    failed conversion or the [URIError] of [URI malformed]; an entry it
    leaves out is never encoded and cannot make it throw. *)
Theorem buildQueryString_throws_iff (params : Params) :
  ((∃ e, buildQueryString params = inl e) ↔
   Exists (fun kv => ¬ omitted kv.2 ∧ ¬ encodable kv.2) params)
  ∧ ∀ e, buildQueryString params = inl e →
         e = TypeError (js "Cannot convert object to primitive value")
         ∨ e = URIError (js "URI malformed").
Proof.
  assert (∀ e, buildQueryString params = inl e →
               (e = cannot_convert ∨ e = URI.malformed)
               ∧ Exists (fun kv => ¬ omitted kv.2 ∧ ¬ encodable kv.2) params)
    as Hthrow.
  { intros e. unfold buildQueryString. fold (supplied params).
    match goal with
    | |- context [mapX ?f (supplied params)] =>
        destruct (mapX f (supplied params)) as [e'|parts] eqn:Hmap;
          [|discriminate]
    end.
    cbn [bindX]. intros [= ->]. clear -Hmap.
    unfold supplied in Hmap.
    induction params as [|[key v] params IH]; [discriminate|].
    cbn [List.filter] in Hmap. destruct (is_supplied v) eqn:Hs.
    - cbn [mapX] in Hmap.
      destruct (encodeURIComponent v) as [e'|encoded] eqn:Henc.
      + cbn [bindX] in Hmap. injection Hmap as <-.
        destruct (encodeURIComponent_error _ _ Henc) as [He Hbad].
        split; [exact He|]. apply Exists_cons_hd. cbn [snd].
        split; [apply is_supplied_true, Hs|exact Hbad].
      + cbn [bindX] in Hmap.
        match type of Hmap with
        | context [mapX ?f ?l] => destruct (mapX f l) as [e'|parts] eqn:Hrest
        end; [|discriminate].
        cbn [bindX] in Hmap. injection Hmap as <-.
        destruct (IH eq_refl) as [He Hex]. split; [exact He|].
        apply Exists_cons_tl, Hex.
    - destruct (IH Hmap) as [He Hex]. split; [exact He|].
      apply Exists_cons_tl, Hex. }
  split; [split|].
  - intros [e H]. apply (Hthrow _ H).
  - intros Hex. destruct (buildQueryString params) as [e|q] eqn:Hq; [eauto|].
    exfalso. apply buildQueryString_inr in Hq as (parts & Hparts & _).
    unfold supplied in Hparts. clear -Hex Hparts. revert parts Hparts.
    induction Hex as [[key v] params [Hsup Hbad]|[key v] params _ IH];
      intros parts Hparts; cbn [List.filter snd] in *.
    + apply is_supplied_true in Hsup. rewrite Hsup in Hparts.
      apply Forall2_cons_inv_l in Hparts as (part & rest & (enc & Henc & _) & _).
      cbn [snd] in Henc. apply Hbad, (encodeURIComponent_inr _ _ Henc).
    + destruct (is_supplied v); [|exact (IH parts Hparts)].
      apply Forall2_cons_inv_l in Hparts as (part & rest & _ & Hrest & _).
      exact (IH rest Hrest).
  - intros e H. apply (Hthrow e H).
Qed.
